(** * agent-deck: Gemini session analytics, transcript location and mode sync

    A shallow embedding of [internal/session/gemini.go] (package [session])
    and of the mode-flag synchronisation of [internal/session/instance.go],
    followed by the properties of the specification that concern them.

    Conventions of the embedding
    - a Go [string] is a [string] of bytes ([len] is [String.length]);
    - a Go [int] is a [Z] kept in the signed 64-bit range by [wrap64];
    - a [time.Time] is the instant it denotes, in nanoseconds counted from
      Go's zero time (January 1, year 1, 00:00 UTC), so [IsZero] is [= 0];
    - calls into the operating system are answered by an [OS] record and
      logged, in order, in the trace of the [IO] writer monad;
    - pure functions of Go's standard library which the code calls but does
      not define (path joining, SHA-256, JSON decoding, time parsing) are the
      fields of a [Runtime] record. *)

From Stdlib Require Import ZArith List String Ascii Bool Lia.
From Stdlib Require Import Sorting.Mergesort Sorting.Sorted Sorting.Permutation Orders.
From stdpp Require Import base option gmap strings.
Import ListNotations.

Local Open Scope string_scope.
Local Open Scope Z_scope.

(* ===================================================================== *)
(** ** Go base types *)
(* ===================================================================== *)

Module GoInt.

Definition minInt64 : Z := - 2 ^ 63.
Definition maxInt64 : Z := 2 ^ 63 - 1.

(** Two's complement wrap-around of a 64-bit signed [int]. *)
Definition wrap64 (z : Z) : Z := (z + 2 ^ 63) mod 2 ^ 64 - 2 ^ 63.

Definition add (a b : Z) : Z := wrap64 (a + b).
Definition incr (a : Z) : Z := wrap64 (a + 1).

Definition inRange (z : Z) : Prop := minInt64 <= z <= maxInt64.

End GoInt.

Module GoTime.

(** Nanoseconds since the zero [time.Time]. *)
Definition Time : Type := Z.
Definition Duration : Type := Z.

Definition zero : Time := 0.

Definition IsZero (t : Time) : bool := t =? 0.
Definition After (t u : Time) : bool := u <? t.
Definition Equal (t u : Time) : bool := t =? u.

(** [t.Sub(u)]: the difference, saturated to the range of [Duration]. *)
Definition Sub (t u : Time) : Duration :=
  let d := t - u in
  if d <? GoInt.minInt64 then GoInt.minInt64
  else if GoInt.maxInt64 <? d then GoInt.maxInt64
  else d.

Definition Hour : Duration := 3600 * 1000000000.

Definition RFC3339 : string := "2006-01-02T15:04:05Z07:00".
Definition millisLayout : string := "2006-01-02T15:04:05.999Z".

End GoTime.

Abbreviation Time := GoTime.Time.

(** [s[:n]] for [n <= len(s)]. *)
Definition prefix_bytes (n : nat) (s : string) : string := String.substring 0 n s.

Definition nonEmpty (s : string) : bool := negb (String.eqb s "").

(* ===================================================================== *)
(** ** Data model *)
(* ===================================================================== *)

(** One element of the [messages] array of a transcript, as the anonymous
    struct of [UpdateGeminiAnalyticsFromDisk] decodes it. *)
Record GeminiMessage : Type := mkMessage {
  msg_Type : string;
  msg_Model : string;
  msg_Tokens_Input : Z;
  msg_Tokens_Output : Z
}.

Record GeminiSessionFile : Type := mkSessionFile {
  sess_SessionID : string;
  sess_StartTime : string;
  sess_LastUpdated : string;
  sess_Messages : list GeminiMessage
}.

(** Modelled from the spec: the declaration of [GeminiSessionAnalytics] is
    not part of the sources at hand.  The fields are the ones
    [UpdateGeminiAnalyticsFromDisk] reads and writes; they are the
    attributes the specification lists for SessionAnalytics (start time,
    last-active time, duration, cumulative input and output tokens, turn
    count, last model, current context estimate, mtime fingerprint). *)
Record GeminiSessionAnalytics : Type := mkAnalytics {
  InputTokens : Z;
  OutputTokens : Z;
  CurrentContextTokens : Z;
  TotalTurns : Z;
  Model : string;
  StartTime : Time;
  LastActive : Time;
  Duration : GoTime.Duration;
  LastFileModTime : Time
}.

Definition set_InputTokens (v : Z) (a : GeminiSessionAnalytics) :=
  mkAnalytics v (OutputTokens a) (CurrentContextTokens a) (TotalTurns a)
    (Model a) (StartTime a) (LastActive a) (Duration a) (LastFileModTime a).
Definition set_OutputTokens (v : Z) (a : GeminiSessionAnalytics) :=
  mkAnalytics (InputTokens a) v (CurrentContextTokens a) (TotalTurns a)
    (Model a) (StartTime a) (LastActive a) (Duration a) (LastFileModTime a).
Definition set_CurrentContextTokens (v : Z) (a : GeminiSessionAnalytics) :=
  mkAnalytics (InputTokens a) (OutputTokens a) v (TotalTurns a)
    (Model a) (StartTime a) (LastActive a) (Duration a) (LastFileModTime a).
Definition set_TotalTurns (v : Z) (a : GeminiSessionAnalytics) :=
  mkAnalytics (InputTokens a) (OutputTokens a) (CurrentContextTokens a) v
    (Model a) (StartTime a) (LastActive a) (Duration a) (LastFileModTime a).
Definition set_Model (v : string) (a : GeminiSessionAnalytics) :=
  mkAnalytics (InputTokens a) (OutputTokens a) (CurrentContextTokens a)
    (TotalTurns a) v (StartTime a) (LastActive a) (Duration a)
    (LastFileModTime a).
Definition set_StartTime (v : Time) (a : GeminiSessionAnalytics) :=
  mkAnalytics (InputTokens a) (OutputTokens a) (CurrentContextTokens a)
    (TotalTurns a) (Model a) v (LastActive a) (Duration a)
    (LastFileModTime a).
Definition set_LastActive (v : Time) (a : GeminiSessionAnalytics) :=
  mkAnalytics (InputTokens a) (OutputTokens a) (CurrentContextTokens a)
    (TotalTurns a) (Model a) (StartTime a) v (Duration a)
    (LastFileModTime a).
Definition set_Duration (v : GoTime.Duration) (a : GeminiSessionAnalytics) :=
  mkAnalytics (InputTokens a) (OutputTokens a) (CurrentContextTokens a)
    (TotalTurns a) (Model a) (StartTime a) (LastActive a) v
    (LastFileModTime a).
Definition set_LastFileModTime (v : Time) (a : GeminiSessionAnalytics) :=
  mkAnalytics (InputTokens a) (OutputTokens a) (CurrentContextTokens a)
    (TotalTurns a) (Model a) (StartTime a) (LastActive a) (Duration a) v.

(** The errors [UpdateGeminiAnalyticsFromDisk] builds with [fmt.Errorf]. *)
Inductive error : Type :=
  | ErrInvalidSessionID      (* "invalid session ID" *)
  | ErrSessionFileNotFound   (* "session file not found" *)
  | ErrReadSessionFile       (* "failed to read session file: %w" *)
  | ErrParseSession.         (* "failed to parse session for analytics: %w" *)

(* ===================================================================== *)
(** ** The world outside the program *)
(* ===================================================================== *)

Record DirEntry : Type := mkDirEntry {
  entry_Name : string;
  entry_IsDir : bool
}.

(** What the operating system answers.  [None] is a call that returned an
    error; [stat] gives the [ModTime] of the [FileInfo] alone; [glob] is
    [filepath.Glob] with its error dropped, as every caller does, and lists
    the matches in the order Go enumerates them. *)
Record OS : Type := mkOS {
  userHomeDir : string;
  abs : string -> option string;
  evalSymlinks : string -> option string;
  glob : string -> list string;
  stat : string -> option Time;
  readDir : string -> option (list DirEntry);
  readFile : string -> option string
}.

(** Pure library functions the code relies on. *)
Record Runtime : Type := mkRuntime {
  filepath_Join : list string -> string;
  sha256_hex : string -> string;
  json_Unmarshal : string -> option GeminiSessionFile;
  time_Parse : string -> string -> option Time
}.

(** The calls that leave the program, and the decoding of a transcript. *)
Inductive Event : Type :=
  | EvUserHomeDir
  | EvAbs (path : string)
  | EvEvalSymlinks (path : string)
  | EvGlob (pattern : string)
  | EvStat (file : string)
  | EvReadDir (dir : string)
  | EvReadFile (file : string)
  | EvUnmarshal (data : string).

Definition isRead (e : Event) : bool :=
  match e with EvReadFile _ => true | _ => false end.
Definition isParse (e : Event) : bool :=
  match e with EvUnmarshal _ => true | _ => false end.

Definition countParses (tr : list Event) : nat := List.length (List.filter isParse tr).
Definition countReads (tr : list Event) : nat := List.length (List.filter isRead tr).

(** A computation is its value together with the events it caused. *)
Definition IO (A : Type) : Type := (A * list Event)%type.

Definition ret {A} (a : A) : IO A := (a, []).
Definition bind {A B} (m : IO A) (f : A -> IO B) : IO B :=
  let '(a, t1) := m in
  let '(b, t2) := f a in
  (b, (t1 ++ t2)%list).
Definition value {A} (m : IO A) : A := fst m.
Definition trace {A} (m : IO A) : list Event := snd m.

#[global] Arguments bind {A B} m f : simpl never.

Notation "'let*' x ':=' m 'in' k" := (bind m (fun x => k))
  (at level 10, x name, m at level 100, k at level 200).

(* ===================================================================== *)
(** ** internal/session/gemini.go: locating and reading a transcript *)
(* ===================================================================== *)

Section Gemini.

Variable rt : Runtime.
Variable os : OS.

(** The package variable [geminiConfigDirOverride], which tests set. *)
Variable geminiConfigDirOverride : string.

(** *** Calls into the operating system *)

Definition UserHomeDir : IO string := (userHomeDir os, [EvUserHomeDir]).
Definition Abs (p : string) : IO (option string) := (abs os p, [EvAbs p]).
Definition EvalSymlinks (p : string) : IO (option string) :=
  (evalSymlinks os p, [EvEvalSymlinks p]).
Definition Glob (pattern : string) : IO (list string) :=
  (glob os pattern, [EvGlob pattern]).
Definition Stat (file : string) : IO (option Time) :=
  (stat os file, [EvStat file]).
Definition ReadDir (dir : string) : IO (option (list DirEntry)) :=
  (readDir os dir, [EvReadDir dir]).
Definition ReadFile (file : string) : IO (option string) :=
  (readFile os file, [EvReadFile file]).
Definition Unmarshal (data : string) : IO (option GeminiSessionFile) :=
  (json_Unmarshal rt data, [EvUnmarshal data]).

Definition Join (elem : list string) : string := filepath_Join rt elem.

#[global] Arguments Stat file : simpl never.
#[global] Arguments Glob pattern : simpl never.

(** *** GetGeminiConfigDir *)
Definition GetGeminiConfigDir : IO string :=
  if nonEmpty geminiConfigDirOverride then ret geminiConfigDirOverride
  else
    let* home := UserHomeDir in
    ret (Join [home; ".gemini"]).

(** *** HashProjectPath *)
Definition HashProjectPath (projectPath : string) : IO string :=
  let* r := Abs projectPath in
  match r with
  | None => ret ""
  | Some absPath =>
      let* r' := EvalSymlinks absPath in
      let realPath := match r' with Some p => p | None => absPath end in
      ret (sha256_hex rt realPath)
  end.

(** *** GetGeminiSessionsDir *)
Definition GetGeminiSessionsDir (projectPath : string) : IO string :=
  let* configDir := GetGeminiConfigDir in
  let* projectHash := HashProjectPath projectPath in
  if String.eqb projectHash "" then ret ""
  else ret (Join [configDir; "tmp"; projectHash; "chats"]).

(** *** findNewestFile *)

(** The [for _, file := range files] loop, with the two loop-carried
    variables [newestFile] and [newestTime]. *)
Fixpoint newestLoop (files : list string) (newestFile : string)
    (newestTime : Time) : IO string :=
  match files with
  | [] => ret newestFile
  | file :: rest =>
      let* info := Stat file in
      match info with
      | None => newestLoop rest newestFile newestTime
      | Some modTime =>
          if GoTime.After modTime newestTime
          then newestLoop rest file modTime
          else newestLoop rest newestFile newestTime
      end
  end.

Definition findNewestFile (pattern : string) : IO string :=
  let* files := Glob pattern in
  match files with
  | [] => ret ""
  | [file] => ret file
  | _ => newestLoop files "" GoTime.zero
  end.

(** *** findGeminiSessionInAllProjects *)

Definition sessionPattern (sessionID : string) : string :=
  "session-*-" +:+ prefix_bytes 8 sessionID +:+ ".json".

Definition tooShort (sessionID : string) : bool :=
  String.eqb sessionID "" || (String.length sessionID <? 8)%nat.

Fixpoint scanProjects (tmpDir targetPattern : string)
    (entries : list DirEntry) (newestFile : string) (newestTime : Time)
    : IO string :=
  match entries with
  | [] => ret newestFile
  | entry :: rest =>
      if negb (entry_IsDir entry)
      then scanProjects tmpDir targetPattern rest newestFile newestTime
      else
        let chatsDir := Join [tmpDir; entry_Name entry; "chats"] in
        let pattern := Join [chatsDir; targetPattern] in
        let* file := findNewestFile pattern in
        if nonEmpty file then
          let* info := Stat file in
          match info with
          | Some modTime =>
              if GoTime.After modTime newestTime
              then scanProjects tmpDir targetPattern rest file modTime
              else scanProjects tmpDir targetPattern rest newestFile newestTime
          | None =>
              scanProjects tmpDir targetPattern rest newestFile newestTime
          end
        else scanProjects tmpDir targetPattern rest newestFile newestTime
  end.

Definition findGeminiSessionInAllProjects (sessionID : string) : IO string :=
  if tooShort sessionID then ret ""
  else
    let* configDir := GetGeminiConfigDir in
    let tmpDir := Join [configDir; "tmp"] in
    let* entries := ReadDir tmpDir in
    match entries with
    | None => ret ""
    | Some entries =>
        scanProjects tmpDir (sessionPattern sessionID) entries "" GoTime.zero
    end.

(** *** UpdateGeminiAnalyticsFromDisk *)

(** Lines 311-320: the expected directory first, every project directory
    when that gives nothing. *)
Definition locateSessionFile (projectPath sessionID : string) : IO string :=
  let* sessionsDir := GetGeminiSessionsDir projectPath in
  let pattern := Join [sessionsDir; sessionPattern sessionID] in
  let* latestFile := findNewestFile pattern in
  if String.eqb latestFile ""
  then findGeminiSessionInAllProjects sessionID
  else ret latestFile.

(** [time.Parse] with its error dropped: the zero time on failure. *)
Definition parseOrZero (layout s : string) : Time :=
  match time_Parse rt layout s with Some t => t | None => GoTime.zero end.

Definition parseTimestamp (s : string) : Time :=
  let t := parseOrZero GoTime.RFC3339 s in
  if GoTime.IsZero t then parseOrZero GoTime.millisLayout s else t.

(** The body of the [for _, msg := range session.Messages] loop. *)
Definition accumulate (analytics : GeminiSessionAnalytics)
    (msg : GeminiMessage) : GeminiSessionAnalytics :=
  if String.eqb (msg_Type msg) "gemini" then
    let a1 := set_InputTokens
                (GoInt.add (InputTokens analytics) (msg_Tokens_Input msg))
                analytics in
    let a2 := set_OutputTokens
                (GoInt.add (OutputTokens a1) (msg_Tokens_Output msg)) a1 in
    let a3 := set_TotalTurns (GoInt.incr (TotalTurns a2)) a2 in
    let a4 := if nonEmpty (msg_Model msg)
              then set_Model (msg_Model msg) a3 else a3 in
    set_CurrentContextTokens (msg_Tokens_Input msg) a4
  else analytics.

(** Lines 356-400: what a decoded transcript does to the snapshot.
    [info] is the result of the earlier [os.Stat]. *)
Definition applySession (info : option Time) (session : GeminiSessionFile)
    (analytics : GeminiSessionAnalytics) : GeminiSessionAnalytics :=
  let a1 := match info with
            | Some modTime => set_LastFileModTime modTime analytics
            | None => analytics
            end in
  let startTime := parseTimestamp (sess_StartTime session) in
  let lastUpdated := parseTimestamp (sess_LastUpdated session) in
  let a2 := set_LastActive lastUpdated (set_StartTime startTime a1) in
  let a3 := if negb (GoTime.IsZero startTime) && negb (GoTime.IsZero lastUpdated)
            then set_Duration (GoTime.Sub lastUpdated startTime) a2
            else a2 in
  let a4 := set_Model ""
              (set_TotalTurns 0 (set_OutputTokens 0 (set_InputTokens 0 a3))) in
  fold_left accumulate (sess_Messages session) a4.

(** The mtime check of lines 327-331. *)
Definition cacheHit (info : option Time) (analytics : GeminiSessionAnalytics)
    : bool :=
  match info with
  | Some modTime =>
      negb (GoTime.IsZero (LastFileModTime analytics))
      && GoTime.Equal modTime (LastFileModTime analytics)
  | None => false
  end.

(** The function returns its error ([None] is [nil]) and the state in
    which it leaves the struct [analytics] points to. *)
Definition UpdateGeminiAnalyticsFromDisk (projectPath sessionID : string)
    (analytics : GeminiSessionAnalytics)
    : IO (option error * GeminiSessionAnalytics) :=
  if tooShort sessionID then ret (Some ErrInvalidSessionID, analytics)
  else
    let* latestFile := locateSessionFile projectPath sessionID in
    if String.eqb latestFile ""
    then ret (Some ErrSessionFileNotFound, analytics)
    else
      let* info := Stat latestFile in
      if cacheHit info analytics then ret (None, analytics)
      else
        let* data := ReadFile latestFile in
        match data with
        | None => ret (Some ErrReadSessionFile, analytics)
        | Some data =>
            let* session := Unmarshal data in
            match session with
            | None => ret (Some ErrParseSession, analytics)
            | Some session => ret (None, applySession info session analytics)
            end
        end.

End Gemini.

(* ===================================================================== *)
(** ** internal/session/gemini.go: the list of models *)
(* ===================================================================== *)

(** *** strings.Split, strings.TrimSpace and sort.Strings *)

Module GoStrings.

(** [strings.Split(s, ",")]: the pieces between the commas, an empty
    piece where two commas touch or the string starts or ends with one. *)
Fixpoint splitComma (s : string) : list string :=
  match s with
  | EmptyString => [""]
  | String c rest =>
      if Ascii.eqb c ","%char then "" :: splitComma rest
      else
        match splitComma rest with
        | piece :: pieces => String c piece :: pieces
        | [] => [String c ""]
        end
  end.

Definition bytes (l : list nat) : string :=
  string_of_list_ascii (List.map ascii_of_nat l).

(** The UTF-8 encodings of the runes for which [unicode.IsSpace] holds:
    tab, line feed, vertical tab, form feed, carriage return, space,
    U+0085, U+00A0, U+1680, U+2000 to U+200A, U+2028, U+2029, U+202F,
    U+205F and U+3000. *)
Definition spaceRunes : list string :=
  List.map bytes
    [ [9]; [10]; [11]; [12]; [13]; [32];
      [194; 133]; [194; 160]; [225; 154; 128];
      [226; 128; 128]; [226; 128; 129]; [226; 128; 130]; [226; 128; 131];
      [226; 128; 132]; [226; 128; 133]; [226; 128; 134]; [226; 128; 135];
      [226; 128; 136]; [226; 128; 137]; [226; 128; 138];
      [226; 128; 168]; [226; 128; 169]; [226; 128; 175];
      [226; 129; 159]; [227; 128; 128] ]%nat.

Fixpoint stripPrefix (p s : string) : option string :=
  match p, s with
  | EmptyString, _ => Some s
  | String a p', String b s' =>
      if Ascii.eqb a b then stripPrefix p' s' else None
  | String _ _, EmptyString => None
  end.

(** Removes one leading rune out of [runes], if there is one. *)
Fixpoint stripRune (runes : list string) (s : string) : option string :=
  match runes with
  | [] => None
  | r :: runes' =>
      match stripPrefix r s with
      | Some rest => Some rest
      | None => stripRune runes' s
      end
  end.

Fixpoint trimLeftFuel (fuel : nat) (runes : list string) (s : string)
    : string :=
  match fuel with
  | O => s
  | S fuel' =>
      match stripRune runes s with
      | Some rest => trimLeftFuel fuel' runes rest
      | None => s
      end
  end.

(** Each removed rune is at least one byte, so [len(s)] steps suffice. *)
Definition trimLeft (runes : list string) (s : string) : string :=
  trimLeftFuel (String.length s) runes s.

(** Trailing runes are leading runes of the reversed string. *)
Definition trimRight (runes : list string) (s : string) : string :=
  String.rev (trimLeft (List.map String.rev runes) (String.rev s)).

Definition TrimSpace (s : string) : string :=
  trimRight spaceRunes (trimLeft spaceRunes s).

Definition HasPrefix (s p : string) : bool := String.prefix p s.

(** [s[n:]] *)
Definition dropBytes (n : nat) (s : string) : string :=
  String.substring n (String.length s - n) s.

End GoStrings.

Module StringOrder <: TotalLeBool.
Definition t : Type := string.
Definition leb : t -> t -> bool := String.leb.
Definition leb_total
  : forall s1 s2 : t, leb s1 s2 = true \/ leb s2 s1 = true :=
  String.leb_total.
End StringOrder.

(** [sort.Strings] puts a slice in increasing byte-wise order.  Equal
    strings cannot be told apart, so the outcome does not depend on the
    sorting algorithm; merge sort stands for it. *)
Module StringSort := Sort StringOrder.

Definition sort_Strings (l : list string) : list string := StringSort.sort l.

Record ModelDescriptor : Type := mkModelDescriptor {
  model_Name : string;
  model_SupportedMethods : list string
}.

(** What [http.Get] gives when it does not fail: whether the status is
    200, and the body ([None] when [io.ReadAll] fails). *)
Record HttpResponse : Type := mkHttpResponse {
  resp_StatusOK : bool;
  resp_Body : option string
}.

(** The package variables [geminiModelsCache] and [geminiModelsLast]. *)
Record ModelsCache : Type := mkModelsCache {
  geminiModelsCache : list string;
  geminiModelsLast : Time
}.

(** Environment, clock, network and JSON decoding of the catalog. *)
Record ModelsWorld : Type := mkModelsWorld {
  getenv : string -> string;
  now : Time;
  http_Get : string -> option HttpResponse;
  json_UnmarshalModels : string -> option (list ModelDescriptor)
}.

Inductive modelsError : Type :=
  | ErrFetchModels     (* "failed to fetch models: %w" *)
  | ErrApiStatus       (* "api returned status: %s" *)
  | ErrReadResponse    (* "failed to read response: %w" *)
  | ErrParseModels.    (* "failed to parse models: %w" *)

Definition defaultGeminiModels : list string :=
  [ "gemini-3-pro-preview"; "gemini-3-flash-preview"; "gemini-2.5-pro";
    "gemini-2.5-flash"; "gemini-2.5-flash-lite"; "gemini-2.0-flash";
    "gemini-1.5-flash"; "gemini-1.5-pro" ].

Definition canGenerate (m : ModelDescriptor) : bool :=
  existsb (fun method => String.eqb method "generateContent")
    (model_SupportedMethods m).

Definition shortName (name : string) : string :=
  if GoStrings.HasPrefix name "models/" then GoStrings.dropBytes 7 name
  else name.

(** The override branch, lines 29-36. *)
Definition modelsFromOverride (override : string) : list string :=
  sort_Strings (List.map GoStrings.TrimSpace (GoStrings.splitComma override)).

(** *** GetAvailableGeminiModels
    The result, the error, and the cache the call leaves behind. *)
Definition GetAvailableGeminiModels (w : ModelsWorld) (cache : ModelsCache)
    : list string * option modelsError * ModelsCache :=
  let override := getenv w "GEMINI_MODELS_OVERRIDE" in
  if nonEmpty override then (modelsFromOverride override, None, cache)
  else if (0 <? List.length (geminiModelsCache cache))%nat
          && (GoTime.Sub (now w) (geminiModelsLast cache) <? GoTime.Hour)
  then (geminiModelsCache cache, None, cache)
  else
    let apiKey := getenv w "GOOGLE_API_KEY" in
    if String.eqb apiKey "" then (defaultGeminiModels, None, cache)
    else
      let url := "https://generativelanguage.googleapis.com/v1beta/models?key="
                 +:+ apiKey in
      match http_Get w url with
      | None => ([], Some ErrFetchModels, cache)
      | Some resp =>
          if negb (resp_StatusOK resp) then ([], Some ErrApiStatus, cache)
          else
            match resp_Body resp with
            | None => ([], Some ErrReadResponse, cache)
            | Some body =>
                match json_UnmarshalModels w body with
                | None => ([], Some ErrParseModels, cache)
                | Some result =>
                    let models :=
                      sort_Strings
                        (List.map (fun m => shortName (model_Name m))
                           (List.filter canGenerate result)) in
                    (models, None, mkModelsCache models (now w))
                end
            end
      end.

(* ===================================================================== *)
(** ** Mode flag of an instance and the multiplexer session environment *)
(* ===================================================================== *)

Module Instance.

(** Modelled from the spec: [internal/session/instance.go] and the tmux
    adapter are not part of the sources at hand; only the test file
    [gemini_yolo_refinement_test.go] is.  The definitions follow sections
    4.1 and 4.2 of the specification, with the names the tests use.
    A multiplexer is the set of its live sessions, each with its
    session-scoped environment. *)
Abbreviation Multiplexer := (gmap string (gmap string string)).

Inductive AdapterError : Type := ErrNoSession.

Definition yoloKey : string := "GEMINI_YOLO_MODE".

(** Modelled from the spec: [SetEnv(name, key, value)] writes a variable
    scoped to a session, and fails when the session does not exist. *)
Definition SetEnvironment (name key val : string) (mux : Multiplexer)
    : option Multiplexer :=
  match mux !! name with
  | Some env => Some (<[name := <[key := val]> env]> mux)
  | None => None
  end.

(** Modelled from the spec: [GetEnv(name, key)]; [None] stands for an
    absent variable as well as for an adapter error. *)
Definition GetEnvironment (name key : string) (mux : Multiplexer)
    : option string :=
  match mux !! name with
  | Some env => env !! key
  | None => None
  end.

(** Modelled from the spec: the part of an [Instance] the mode
    synchronisation touches.  [GeminiYoloMode] is the [*bool] field of
    the tests: [None] is the nil pointer, the unset flag. *)
Record Instance : Type := mkInstance {
  sessionName : string;
  GeminiYoloMode : option bool
}.

Definition renderBool (b : bool) : string := if b then "true" else "false".

(** Modelled from the spec: [SetOperatingMode(enabled)] "sets the
    in-memory flag, then calls SetEnv with the boolean rendered as the
    literal strings true/false"; when [SetEnv] fails the flag is updated
    all the same and the adapter error is returned. *)
Definition SetGeminiYoloMode (enabled : bool) (inst : Instance)
    (mux : Multiplexer) : Instance * Multiplexer * option AdapterError :=
  let inst' := mkInstance (sessionName inst) (Some enabled) in
  match SetEnvironment (sessionName inst) yoloKey (renderBool enabled) mux with
  | Some mux' => (inst', mux', None)
  | None => (inst', mux, Some ErrNoSession)
  end.

(** Modelled from the spec: [Refresh()] "if the in-memory flag is unset,
    calls GetEnv; a returned value of true sets the flag true, anything
    else (including absence/error) sets it false". *)
Definition UpdateGeminiSession (inst : Instance) (mux : Multiplexer)
    : Instance :=
  match GeminiYoloMode inst with
  | Some _ => inst
  | None =>
      match GetEnvironment (sessionName inst) yoloKey mux with
      | Some v => mkInstance (sessionName inst) (Some (String.eqb v "true"))
      | None => mkInstance (sessionName inst) (Some false)
      end
  end.

(** Modelled from the spec: an instance record attached after a restart
    of the application to a session the multiplexer kept alive; its flag
    is not yet determined. *)
Definition attach (name : string) : Instance := mkInstance name None.

(** A running instance has a live multiplexer session. *)
Definition running (inst : Instance) (mux : Multiplexer) : Prop :=
  is_Some (mux !! sessionName inst).

End Instance.

(* ===================================================================== *)
(** ** internal/session/gemini.go: listing the sessions of a project *)
(* ===================================================================== *)

(** The struct [GeminiSessionInfo]. *)
Record GeminiSessionInfo : Type := mkSessionInfo {
  info_SessionID : string;
  info_Filename : string;
  info_StartTime : Time;
  info_LastUpdated : Time;
  info_MessageCount : Z
}.

(** What [parseGeminiSessionFile] decodes: the messages stay raw JSON. *)
Record SessionHeader : Type := mkSessionHeader {
  hdr_SessionID : string;
  hdr_StartTime : string;
  hdr_LastUpdated : string;
  hdr_Messages : list string
}.

(** Library functions the listing needs beside those of [Runtime]:
    decoding into the header struct, [filepath.Base], whether
    [filepath.Glob] rejects a pattern as malformed (a matter of the
    pattern alone), and [sort.Slice], which orders by the given [less]
    without promising anything about elements that compare equal. *)
Record ListRuntime : Type := mkListRuntime {
  json_UnmarshalHeader : string -> option SessionHeader;
  filepath_Base : string -> string;
  glob_badPattern : string -> bool;
  sort_Slice : (GeminiSessionInfo -> GeminiSessionInfo -> bool) ->
               list GeminiSessionInfo -> list GeminiSessionInfo
}.

Inductive listError : Type :=
  | ErrListReadFile      (* "failed to read session file: %w" *)
  | ErrListParse         (* "failed to parse session: %w" *)
  | ErrBadPattern.       (* filepath.ErrBadPattern *)

Section Listing.

Variable rt : Runtime.
Variable lrt : ListRuntime.
Variable os : OS.
Variable geminiConfigDirOverride : string.

(** A timestamp of the header: RFC 3339 first, the layout with
    milliseconds when that fails, the zero time when both fail. *)
Definition parseHeaderTime (s : string) : Time :=
  match time_Parse rt GoTime.RFC3339 s with
  | Some t => t
  | None => parseOrZero rt GoTime.millisLayout s
  end.

(** *** parseGeminiSessionFile *)
Definition parseGeminiSessionFile (filePath : string)
    : IO (listError + GeminiSessionInfo) :=
  let* data := ReadFile os filePath in
  match data with
  | None => ret (inl ErrListReadFile)
  | Some data =>
      let* session := (json_UnmarshalHeader lrt data, [EvUnmarshal data]) in
      match session with
      | None => ret (inl ErrListParse)
      | Some session =>
          ret (inr (mkSessionInfo (hdr_SessionID session)
                      (filepath_Base lrt filePath)
                      (parseHeaderTime (hdr_StartTime session))
                      (parseHeaderTime (hdr_LastUpdated session))
                      (Z.of_nat (List.length (hdr_Messages session)))))
      end
  end.

(** The loop of [ListGeminiSessions]: files that fail are skipped. *)
Fixpoint parseSessionFiles (files : list string)
    (sessions : list GeminiSessionInfo) : IO (list GeminiSessionInfo) :=
  match files with
  | [] => ret sessions
  | file :: rest =>
      let* r := parseGeminiSessionFile file in
      match r with
      | inl _ => parseSessionFiles rest sessions
      | inr info => parseSessionFiles rest (sessions ++ [info])%list
      end
  end.

(** The [less] given to [sort.Slice]: most recently updated first. *)
Definition updatedAfter (i j : GeminiSessionInfo) : bool :=
  GoTime.After (info_LastUpdated i) (info_LastUpdated j).

(** *** ListGeminiSessions *)
Definition ListGeminiSessions (projectPath : string)
    : IO (list GeminiSessionInfo * option listError) :=
  let* sessionsDir := GetGeminiSessionsDir rt os geminiConfigDirOverride projectPath in
  let pattern := Join rt [sessionsDir; "session-*.json"] in
  let* files := Glob os pattern in
  if glob_badPattern lrt pattern then ret ([], Some ErrBadPattern)
  else
    let* sessions := parseSessionFiles files [] in
    ret (sort_Slice lrt updatedAfter sessions, None).

End Listing.

(* ===================================================================== *)
(** ** internal/ui: the dialog that picks a Gemini model *)
(* ===================================================================== *)

Module ModelDialog.

(** The struct [GeminiModelDialog]. *)
Record GeminiModelDialog : Type := mkDialog {
  visible : bool;
  width : Z;
  height : Z;
  sessionID : string;
  models : list string;
  cursor : Z;
  err : option modelsError;
  loading : bool
}.

(** The messages [Update] tells apart: the answer of the fetch, a key
    (by its [String()]), anything else. *)
Inductive Msg : Type :=
  | ModelsFetched (fetched : list string) (failure : option modelsError)
  | Key (name : string)
  | Other.

(** The commands the dialog hands back: the fetch of [Show], and the
    selection of [Update], which carries the model picked when the key
    was pressed. *)
Inductive Cmd : Type :=
  | FetchModels
  | SelectModel (model : string).

Definition NewGeminiModelDialog : GeminiModelDialog :=
  mkDialog false 0 0 "" [] 0 None false.

Definition Show (id : string) (d : GeminiModelDialog)
    : GeminiModelDialog * Cmd :=
  (mkDialog true (width d) (height d) id [] 0 None true, FetchModels).

Definition Hide (d : GeminiModelDialog) : GeminiModelDialog :=
  mkDialog false (width d) (height d) (sessionID d) (models d) (cursor d)
    (err d) (loading d).

Definition IsVisible (d : GeminiModelDialog) : bool := visible d.

Definition SetSize (w h : Z) (d : GeminiModelDialog) : GeminiModelDialog :=
  mkDialog (visible d) w h (sessionID d) (models d) (cursor d) (err d)
    (loading d).

Definition setCursor (c : Z) (d : GeminiModelDialog) : GeminiModelDialog :=
  mkDialog (visible d) (width d) (height d) (sessionID d) (models d) c
    (err d) (loading d).

Definition len (d : GeminiModelDialog) : Z := Z.of_nat (List.length (models d)).

(** [d.models[d.cursor]]; [None] is the run-time panic of an index out of
    range. *)
Definition modelAtCursor (d : GeminiModelDialog) : option string :=
  if (cursor d <? 0) || (len d <=? cursor d) then None
  else List.nth_error (models d) (Z.to_nat (cursor d)).

(** [Update]: the dialog after the message and the command returned;
    [None] when the call panics.  The cursor moves by one only inside
    guards that keep it from overflowing. *)
Definition Update (msg : Msg) (d : GeminiModelDialog)
    : option (GeminiModelDialog * option Cmd) :=
  if negb (visible d) then Some (d, None)
  else
    match msg with
    | ModelsFetched fetched failure =>
        match failure with
        | Some e =>
            Some (mkDialog (visible d) (width d) (height d) (sessionID d)
                    (models d) (cursor d) (Some e) false, None)
        | None =>
            Some (mkDialog (visible d) (width d) (height d) (sessionID d)
                    fetched (cursor d) (err d) false, None)
        end
    | Key name =>
        if String.eqb name "esc" then Some (Hide d, None)
        else if String.eqb name "up" || String.eqb name "k" then
          if 0 <? cursor d then Some (setCursor (cursor d - 1) d, None)
          else Some (d, None)
        else if String.eqb name "down" || String.eqb name "j" then
          if cursor d <? len d - 1 then Some (setCursor (cursor d + 1) d, None)
          else Some (d, None)
        else if String.eqb name "enter" then
          if 0 <? len d then
            match modelAtCursor d with
            | Some model => Some (Hide d, Some (SelectModel model))
            | None => None
            end
          else Some (d, None)
        else Some (d, None)
    | Other => Some (d, None)
    end.

(** A run of messages through [Update], with the commands returned on
    the way. *)
Fixpoint feed (msgs : list Msg) (d : GeminiModelDialog)
    : option (GeminiModelDialog * list Cmd) :=
  match msgs with
  | [] => Some (d, [])
  | msg :: rest =>
      match Update msg d with
      | None => None
      | Some (d', cmd) =>
          match feed rest d' with
          | None => None
          | Some (d'', cmds) =>
              Some (d'', match cmd with
                         | Some c => c :: cmds
                         | None => cmds
                         end)
          end
      end
  end.

End ModelDialog.

(* ===================================================================== *)
(** ** internal/ui: the confirmation dialog *)
(* ===================================================================== *)

Module Confirm.

Inductive ConfirmType : Type :=
  | ConfirmDeleteSession
  | ConfirmDeleteGroup
  | ConfirmRestart
  | ConfirmYoloRestart.

(** The struct [ConfirmDialog]. *)
Record ConfirmDialog : Type := mkConfirm {
  visible : bool;
  confirmType : ConfirmType;
  targetID : string;
  targetName : string;
  yoloEnabled : bool;
  width : Z;
  height : Z
}.

Definition NewConfirmDialog : ConfirmDialog :=
  mkConfirm false ConfirmDeleteSession "" "" false 0 0.

Definition ShowDeleteSession (id name : string) (c : ConfirmDialog) :=
  mkConfirm true ConfirmDeleteSession id name (yoloEnabled c) (width c) (height c).

Definition ShowDeleteGroup (path name : string) (c : ConfirmDialog) :=
  mkConfirm true ConfirmDeleteGroup path name (yoloEnabled c) (width c) (height c).

Definition ShowRestart (id name : string) (c : ConfirmDialog) :=
  mkConfirm true ConfirmRestart id name (yoloEnabled c) (width c) (height c).

Definition ShowYoloRestart (id name : string) (yolo : bool) (c : ConfirmDialog) :=
  mkConfirm true ConfirmYoloRestart id name yolo (width c) (height c).

Definition IsYoloEnabled (c : ConfirmDialog) : bool := yoloEnabled c.

Definition Hide (c : ConfirmDialog) :=
  mkConfirm false (confirmType c) "" "" (yoloEnabled c) (width c) (height c).

Definition IsVisible (c : ConfirmDialog) : bool := visible c.
Definition GetTargetID (c : ConfirmDialog) : string := targetID c.
Definition GetConfirmType (c : ConfirmDialog) : ConfirmType := confirmType c.

Definition SetSize (w h : Z) (c : ConfirmDialog) :=
  mkConfirm (visible c) (confirmType c) (targetID c) (targetName c)
    (yoloEnabled c) w h.

(** [Update] returns the dialog as it is, and no command. *)
Definition Update (key : string) (c : ConfirmDialog) : ConfirmDialog := c.

(** The calls a user of the dialog can make on it. *)
Inductive Call : Type :=
  | CallShowDeleteSession (id name : string)
  | CallShowDeleteGroup (path name : string)
  | CallShowRestart (id name : string)
  | CallShowYoloRestart (id name : string) (yolo : bool)
  | CallHide
  | CallSetSize (w h : Z)
  | CallUpdate (key : string).

Definition call (c : ConfirmDialog) (op : Call) : ConfirmDialog :=
  match op with
  | CallShowDeleteSession id name => ShowDeleteSession id name c
  | CallShowDeleteGroup path name => ShowDeleteGroup path name c
  | CallShowRestart id name => ShowRestart id name c
  | CallShowYoloRestart id name yolo => ShowYoloRestart id name yolo c
  | CallHide => Hide c
  | CallSetSize w h => SetSize w h c
  | CallUpdate key => Update key c
  end.

Definition calls (ops : list Call) (c : ConfirmDialog) : ConfirmDialog :=
  List.fold_left call ops c.

End Confirm.

(* ===================================================================== *)
(** ** Vocabulary of the properties *)
(* ===================================================================== *)

(** *** Traces *)

Definition locating (e : Event) : Prop := isRead e = false /\ isParse e = false.

Definition onlyLocates (tr : list Event) : Prop := List.Forall locating tr.

(** *** Turns *)

(** A turn of the agent, as opposed to one of the user. *)
Definition isAgentTurn (msg : GeminiMessage) : bool :=
  String.eqb (msg_Type msg) "gemini".

Definition agentTurns (msgs : list GeminiMessage) : list GeminiMessage :=
  List.filter isAgentTurn msgs.

Definition namesModel (msg : GeminiMessage) : bool :=
  isAgentTurn msg && nonEmpty (msg_Model msg).

(** The model of the most recent agent turn that names one; [dflt] when no
    agent turn does. *)
Definition latestModel (dflt : string) (msgs : list GeminiMessage) : string :=
  match List.find namesModel (List.rev msgs) with
  | Some msg => msg_Model msg
  | None => dflt
  end.

(** *** Refreshes *)

(** The refresh of snapshot [a] gets as far as decoding a transcript: the
    identifier is accepted, a file is located, the mtime check does not
    stop the call ([info] is what [os.Stat] gave), the file is read and
    its content decodes to [session]. *)
Definition reparses (rt : Runtime) (os : OS) (ovr p sid : string)
    (a : GeminiSessionAnalytics) (info : option Time)
    (session : GeminiSessionFile) : Prop :=
  tooShort sid = false /\
  exists f data,
    value (locateSessionFile rt os ovr p sid) = f /\ f <> "" /\
    stat os f = info /\ cacheHit info a = false /\
    readFile os f = Some data /\ json_Unmarshal rt data = Some session.

(** *** Matches of the filename pattern *)

(** [f] is the match with the most recent modification time among
    [files], the first such in the order of enumeration: every match
    listed before it is strictly older, none listed after it is newer.
    Matches [os.Stat] fails on have no modification time and do not
    compete. *)
Definition newestAmong (os : OS) (files : list string) (f : string) : Prop :=
  exists before after m,
    files = (before ++ f :: after)%list /\ stat os f = Some m /\
    (forall g mg, List.In g before -> stat os g = Some mg -> mg < m) /\
    (forall g mg, List.In g after -> stat os g = Some mg -> mg <= m).

(** Some match has a modification time, later than Go's zero time. *)
Definition someDated (os : OS) (files : list string) : Prop :=
  exists g mg, List.In g files /\ stat os g = Some mg /\ 0 < mg.

(** The pattern [UpdateGeminiAnalyticsFromDisk] globs in the directory the
    project path hashes to. *)
Definition expectedPattern (rt : Runtime) (os : OS) (ovr p sid : string)
    : string :=
  Join rt [value (GetGeminiSessionsDir rt os ovr p); sessionPattern sid].

(** The root [tmp] directory and, for one of its entries, the pattern the
    full scan globs in the [chats] directory below it. *)
Definition projectsRoot (rt : Runtime) (os : OS) (ovr : string) : string :=
  Join rt [value (GetGeminiConfigDir rt os ovr); "tmp"].

Definition projectPattern (rt : Runtime) (tmpDir sid : string)
    (entry : DirEntry) : string :=
  Join rt [Join rt [tmpDir; entry_Name entry; "chats"]; sessionPattern sid].

(** Every match of the pattern in every project directory of [entries]. *)
Definition allProjectMatches (rt : Runtime) (os : OS) (tmpDir sid : string)
    (entries : list DirEntry) : list string :=
  List.flat_map (fun entry => glob os (projectPattern rt tmpDir sid entry))
    (List.filter entry_IsDir entries).

(** [filepath.Glob] lists paths of existing files, never the empty path. *)
Definition globNamesFiles (os : OS) : Prop :=
  forall pattern g, List.In g (glob os pattern) -> g <> "".

(** *** Sums over the agent turns *)

Definition sumInput (msgs : list GeminiMessage) : Z :=
  List.fold_right Z.add 0 (List.map msg_Tokens_Input (agentTurns msgs)).

Definition sumOutput (msgs : list GeminiMessage) : Z :=
  List.fold_right Z.add 0 (List.map msg_Tokens_Output (agentTurns msgs)).

(** *** Kinds of events *)

Definition isReadDir (e : Event) : bool :=
  match e with EvReadDir _ => true | _ => false end.

Definition isGlob (e : Event) : bool :=
  match e with EvGlob _ => true | _ => false end.

Definition noReadDir (tr : list Event) : Prop :=
  List.Forall (fun e => isReadDir e = false) tr.

Definition globsOf (tr : list Event) : list Event := List.filter isGlob tr.

(** The number of commas in a string. *)
Fixpoint countCommas (s : string) : nat :=
  match s with
  | EmptyString => O
  | String c rest =>
      if Ascii.eqb c ","%char then S (countCommas rest) else countCommas rest
  end.

(** *** Listing *)

(** [sort.Slice] with the [less] of the listing returns its input in
    another order, in which no element is followed by one updated later. *)
Definition sortsByUpdate (lrt : ListRuntime) : Prop :=
  forall l,
    Permutation (sort_Slice lrt updatedAfter l) l /\
    Sorted (fun i j => updatedAfter j i = false) (sort_Slice lrt updatedAfter l).

(** The pattern [ListGeminiSessions] globs. *)
Definition listPattern (rt : Runtime) (os : OS) (ovr p : string) : string :=
  Join rt [value (GetGeminiSessionsDir rt os ovr p); "session-*.json"].

(** [info] is what a readable, decodable [file] is listed as. *)
Definition listedAs (rt : Runtime) (lrt : ListRuntime) (os : OS)
    (file : string) (info : GeminiSessionInfo) : Prop :=
  exists data hdr,
    readFile os file = Some data /\ json_UnmarshalHeader lrt data = Some hdr /\
    info = mkSessionInfo (hdr_SessionID hdr) (filepath_Base lrt file)
             (parseHeaderTime rt (hdr_StartTime hdr))
             (parseHeaderTime rt (hdr_LastUpdated hdr))
             (Z.of_nat (List.length (hdr_Messages hdr))).

(** The sessions of the files that can be read and decoded, in the order
    of the files. *)
Definition decodable (rt : Runtime) (lrt : ListRuntime) (os : OS)
    (files : list string) : list GeminiSessionInfo :=
  List.flat_map
    (fun file => match value (parseGeminiSessionFile rt lrt os file) with
                 | inr info => [info]
                 | inl _ => []
                 end) files.

(** *** The model dialog *)

(** The cursor is on an entry of the list, or at 0 when the list is
    empty. *)
Definition onList (d : ModelDialog.GeminiModelDialog) : Prop :=
  0 <= ModelDialog.cursor d /\
  (ModelDialog.cursor d < ModelDialog.len d \/ ModelDialog.cursor d = 0).

(** *** The confirmation dialog *)

(** The flag of the last [ShowYoloRestart] among [ops], [dflt] without
    one. *)
Definition lastYolo (dflt : bool) (ops : list Confirm.Call) : bool :=
  List.fold_left
    (fun flag op => match op with
                    | Confirm.CallShowYoloRestart _ _ yolo => yolo
                    | _ => flag
                    end) ops dflt.

(* ===================================================================== *)
(** ** Concrete worlds *)
(* ===================================================================== *)

(** Small file systems on which the functions above can be run.  The
    digest and the decoder are stand-ins: the code only needs them to be
    functions. *)
Module Scenario.

Fixpoint lookupStr {A} (k : string) (l : list (string * A)) : option A :=
  match l with
  | [] => None
  | (k', v) :: rest => if String.eqb k k' then Some v else lookupStr k rest
  end.

Definition world (globs : list (string * list string))
    (stats : list (string * Time)) (dirs : list (string * list DirEntry))
    (files : list (string * string)) : OS :=
  {| userHomeDir := "/home/u";
     abs := fun p => Some p;
     evalSymlinks := fun p => Some p;
     glob := fun pat =>
               match lookupStr pat globs with Some l => l | None => [] end;
     stat := fun f => lookupStr f stats;
     readDir := fun d => lookupStr d dirs;
     readFile := fun f => lookupStr f files |}.

Definition sid : string := "4d8fcb4d-6c1e-4f0a-9b7e".
Definition project : string := "/work/app".

Definition userTurn : GeminiMessage := mkMessage "user" "" 7 0.
Definition turn1 : GeminiMessage := mkMessage "gemini" "gemini-2.5-pro" 10 1.
Definition turn2 : GeminiMessage := mkMessage "gemini" "gemini-2.5-flash" 20 2.
Definition turn3 : GeminiMessage := mkMessage "gemini" "" 30 3.

Definition threeTurns : GeminiSessionFile :=
  mkSessionFile sid "2026-01-17T10:00:00Z" "2026-01-17T10:05:00.250Z"
    [userTurn; turn1; userTurn; turn2; turn3; userTurn].

Definition noAgentTurn : GeminiSessionFile :=
  mkSessionFile sid "2026-01-17T10:00:00Z" "2026-01-17T10:05:00.250Z"
    [userTurn].

Definition t_start : Time := 63904240800000000000.
Definition t_updated : Time := 63904241100250000000.

Definition rt : Runtime :=
  {| filepath_Join := fun elem => String.concat "/" (List.filter nonEmpty elem);
     sha256_hex := fun path => "9f2c";
     json_Unmarshal := fun data =>
       if String.eqb data "transcript with three agent turns"
       then Some threeTurns
       else if String.eqb data "transcript without agent turn"
       then Some noAgentTurn
       else None;
     time_Parse := fun layout s =>
       if String.eqb layout GoTime.RFC3339
          && String.eqb s "2026-01-17T10:00:00Z"
       then Some t_start
       else if String.eqb layout GoTime.millisLayout
               && String.eqb s "2026-01-17T10:05:00.250Z"
       then Some t_updated
       else None |}.

Definition chats : string := "/home/u/.gemini/tmp/9f2c/chats".
Definition pattern : string := chats +:+ "/session-*-4d8fcb4d.json".
Definition older : string := chats +:+ "/session-2026-01-16T09-30-4d8fcb4d.json".
Definition newer : string := chats +:+ "/session-2026-01-17T10-00-4d8fcb4d.json".

Definition mtime_old : Time := 63904154400000000000.
Definition mtime_new : Time := 63904241100000000000.

(** The transcript sits where it is expected and holds three agent turns. *)
Definition osThree : OS :=
  world [(pattern, [newer])] [(newer, mtime_new)] []
        [(newer, "transcript with three agent turns")].

(** The same transcript, rewritten without any agent turn. *)
Definition osNoAgent : OS :=
  world [(pattern, [newer])] [(newer, mtime_new + 1000000)] []
        [(newer, "transcript without agent turn")].

(** The transcript has become unreadable; its mtime has not moved. *)
Definition osUnreadable : OS :=
  world [(pattern, [newer])] [(newer, mtime_new)] [] [].

(** The transcript was overwritten with something that is not JSON. *)
Definition osMalformed : OS :=
  world [(pattern, [newer])] [(newer, mtime_new + 1000000)] []
        [(newer, "{ not json")].

(** Two matches in the expected directory. *)
Definition osTwoMatches : OS :=
  world [(pattern, [older; newer])]
        [(older, mtime_old); (newer, mtime_new)] [] [].

(** Nothing where expected; two other project directories (and a plain
    file) under the root, both with a match. *)
Definition tmpDir : string := "/home/u/.gemini/tmp".
Definition otherA : string := tmpDir +:+ "/aaaa/chats/session-2026-01-16T09-30-4d8fcb4d.json".
Definition otherB : string := tmpDir +:+ "/bbbb/chats/session-2026-01-17T10-00-4d8fcb4d.json".

Definition osMoved : OS :=
  world [ (tmpDir +:+ "/aaaa/chats/session-*-4d8fcb4d.json", [otherA]);
          (tmpDir +:+ "/bbbb/chats/session-*-4d8fcb4d.json", [otherB]) ]
        [(otherA, mtime_old); (otherB, mtime_new)]
        [(tmpDir, [ mkDirEntry "aaaa" true; mkDirEntry "bin" false;
                    mkDirEntry "bbbb" true; mkDirEntry "9f2c" true ])]
        [(otherB, "transcript with three agent turns")].

Definition blank : GeminiSessionAnalytics :=
  mkAnalytics 0 0 0 0 "" 0 0 0 0.

(** What a refresh of [osThree] leaves behind. *)
Definition afterThree : GeminiSessionAnalytics :=
  mkAnalytics 60 6 30 3 "gemini-2.5-flash" t_start t_updated
    (t_updated - t_start) mtime_new.

(** A process started with the override of the model list set. *)
Definition overrideWorld : ModelsWorld :=
  {| getenv := fun key =>
       if String.eqb key "GEMINI_MODELS_OVERRIDE" then "m1, m2,m1" else "";
     now := t_updated;
     http_Get := fun url => None;
     json_UnmarshalModels := fun body => None |}.

Definition emptyCache : ModelsCache := mkModelsCache [] 0.

(** A multiplexer with one live session, whose environment is empty. *)
Definition oneSession : Instance.Multiplexer :=
  {[ "agentdeck_yolo" := ∅ ]}.

Definition started : Instance.Instance :=
  Instance.mkInstance "agentdeck_yolo" None.

End Scenario.

(** Further worlds. *)
Module Cases.

(** The transcript can be read, but [os.Stat] fails on it. *)
Definition osNoStat : OS :=
  Scenario.world [(Scenario.pattern, [Scenario.newer])] [] []
    [(Scenario.newer, "transcript with three agent turns")].

(** No transcript anywhere: no match where expected, and the root
    directory cannot be listed. *)
Definition osNothing : OS := Scenario.world [] [] [] [].

(** Two matches where expected, neither of which [os.Stat] accepts. *)
Definition osDangling : OS :=
  Scenario.world [(Scenario.pattern, [Scenario.older; Scenario.newer])] [] [] [].

(** A catalog of three models, one of which cannot generate content. *)
Definition catalog : list ModelDescriptor :=
  [ mkModelDescriptor "models/gemini-2.5-pro" ["generateContent"; "countTokens"];
    mkModelDescriptor "models/embedding-001" ["embedContent"];
    mkModelDescriptor "gemini-2.5-flash" ["countTokens"; "generateContent"] ].

(** A process with an API key and a catalog endpoint that answers. *)
Definition online : ModelsWorld :=
  {| getenv := fun key =>
       if String.eqb key "GOOGLE_API_KEY" then "k-123" else "";
     now := Scenario.t_start;
     http_Get := fun url =>
       if String.eqb url
            "https://generativelanguage.googleapis.com/v1beta/models?key=k-123"
       then Some (mkHttpResponse true (Some "catalog body"))
       else None;
     json_UnmarshalModels := fun body =>
       if String.eqb body "catalog body" then Some catalog else None |}.

(** Five minutes later, without key and without network. *)
Definition offlineLater : ModelsWorld :=
  {| getenv := fun key => "";
     now := Scenario.t_updated;
     http_Get := fun url => None;
     json_UnmarshalModels := fun body => None |}.

(** The endpoint answers with a status other than 200. *)
Definition refused : ModelsWorld :=
  {| getenv := fun key =>
       if String.eqb key "GOOGLE_API_KEY" then "k-123" else "";
     now := Scenario.t_start;
     http_Get := fun url => Some (mkHttpResponse false None);
     json_UnmarshalModels := fun body => None |}.

(** A path reached through a symbolic link, as /tmp on macOS. *)
Definition osSymlink : OS :=
  {| userHomeDir := "/home/u";
     abs := fun p => Some p;
     evalSymlinks := fun p =>
       if String.eqb p "/tmp/app" then Some "/private/tmp/app" else Some p;
     glob := fun pat => [];
     stat := fun f => None;
     readDir := fun d => None;
     readFile := fun f => None |}.

(** Insertion before the first element that [less] puts after. *)
Fixpoint insertBy {A} (less : A -> A -> bool) (x : A) (l : list A) : list A :=
  match l with
  | [] => [x]
  | y :: rest => if less x y then x :: y :: rest else y :: insertBy less x rest
  end.

Definition sortBy {A} (less : A -> A -> bool) (l : list A) : list A :=
  List.fold_right (insertBy less) [] l.

Definition headerOld : SessionHeader :=
  mkSessionHeader "4d8fcb4d-0000" "2026-01-17T10:00:00Z" "2026-01-17T10:00:00Z"
    ["{m1}"].

Definition headerNew : SessionHeader :=
  mkSessionHeader "4d8fcb4d-6c1e" "2026-01-17T10:00:00Z"
    "2026-01-17T10:05:00.250Z" ["{m1}"; "{m2}"; "{m3}"].

Definition lrt : ListRuntime :=
  {| json_UnmarshalHeader := fun data =>
       if String.eqb data "older session" then Some headerOld
       else if String.eqb data "newer session" then Some headerNew
       else None;
     filepath_Base := fun path =>
       if String.eqb path Scenario.older
       then "session-2026-01-16T09-30-4d8fcb4d.json"
       else if String.eqb path Scenario.newer
       then "session-2026-01-17T10-00-4d8fcb4d.json"
       else path;
     glob_badPattern := fun pattern => false;
     sort_Slice := sortBy |}.

Definition listGlob : string := Scenario.chats +:+ "/session-*.json".
Definition broken : string := Scenario.chats +:+ "/session-broken.json".

(** Three session files, the middle one not JSON. *)
Definition osListing : OS :=
  Scenario.world [(listGlob, [Scenario.older; broken; Scenario.newer])]
    [] []
    [ (Scenario.older, "older session"); (broken, "{ not json");
      (Scenario.newer, "newer session") ].

(** A decoder of headers for the transcript of [Scenario.osThree]. *)
Definition lrtThree : ListRuntime :=
  {| json_UnmarshalHeader := fun data =>
       if String.eqb data "transcript with three agent turns"
       then Some (mkSessionHeader Scenario.sid "2026-01-17T10:00:00Z"
                    "2026-01-17T10:05:00.250Z"
                    ["{u}"; "{g1}"; "{u}"; "{g2}"; "{g3}"; "{u}"])
       else None;
     filepath_Base := fun path => "session-2026-01-17T10-00-4d8fcb4d.json";
     glob_badPattern := fun pattern => false;
     sort_Slice := sortBy |}.

End Cases.

(* ===================================================================== *)
(** ** Properties *)
(* ===================================================================== *)

(** *** The writer monad *)

Lemma value_bind {A B} (m : IO A) (f : A -> IO B) :
  value (bind m f) = value (f (value m)).
Proof.
  unfold value, bind. destruct m as [a t1]. simpl. destruct (f a). reflexivity.
Qed.

Lemma trace_bind {A B} (m : IO A) (f : A -> IO B) :
  trace (bind m f) = (trace m ++ trace (f (value m)))%list.
Proof.
  unfold value, trace, bind. destruct m as [a t1]. simpl. destruct (f a).
  reflexivity.
Qed.

Lemma value_pair {A} (a : A) (t : list Event) : value (a, t) = a.
Proof. reflexivity. Qed.

Lemma trace_pair {A} (a : A) (t : list Event) : trace (a, t) = t.
Proof. reflexivity. Qed.

Lemma IO_eta {A} (m : IO A) : m = (value m, trace m).
Proof. destruct m; reflexivity. Qed.

Lemma countParses_app (t1 t2 : list Event) :
  countParses (t1 ++ t2) = (countParses t1 + countParses t2)%nat.
Proof. unfold countParses. rewrite List.filter_app, List.length_app. reflexivity. Qed.

Lemma countReads_app (t1 t2 : list Event) :
  countReads (t1 ++ t2) = (countReads t1 + countReads t2)%nat.
Proof. unfold countReads. rewrite List.filter_app, List.length_app. reflexivity. Qed.

Lemma nonEmpty_false (s : string) : nonEmpty s = false <-> s = "".
Proof.
  unfold nonEmpty. rewrite negb_false_iff. apply String.eqb_eq.
Qed.

Lemma nonEmpty_true (s : string) : nonEmpty s = true <-> s <> "".
Proof.
  unfold nonEmpty. rewrite negb_true_iff. apply String.eqb_neq.
Qed.

Lemma tooShort_false (s : string) :
  tooShort s = false <-> (8 <= String.length s)%nat.
Proof.
  unfold tooShort. rewrite orb_false_iff, Nat.ltb_ge, String.eqb_neq.
  split; [tauto|]. intros H. split; [|exact H].
  intros ->. simpl in H. lia.
Qed.

Lemma tooShort_true (s : string) :
  tooShort s = true <-> (String.length s < 8)%nat.
Proof.
  destruct (tooShort s) eqn:E.
  - split; [intros _|reflexivity].
    destruct (Nat.lt_ge_cases (String.length s) 8) as [H|H]; [exact H|].
    apply tooShort_false in H. congruence.
  - apply tooShort_false in E. split; [discriminate|lia].
Qed.

(** *** Locating a transcript neither reads nor decodes it *)

Lemma onlyLocates_counts (tr : list Event) :
  onlyLocates tr -> countReads tr = 0%nat /\ countParses tr = 0%nat.
Proof.
  unfold countReads, countParses.
  induction 1 as [|e tr [Hr Hp] _ [IHr IHp]]; simpl; [auto|].
  rewrite Hr, Hp. auto.
Qed.

Lemma onlyLocates_bind {A B} (m : IO A) (f : A -> IO B) :
  onlyLocates (trace m) -> onlyLocates (trace (f (value m))) ->
  onlyLocates (trace (bind m f)).
Proof. intros H1 H2. rewrite trace_bind. apply List.Forall_app; auto. Qed.

Section LocateTrace.

Variable rt : Runtime.
Variable os : OS.
Variable ovr : string.

Local Ltac single := repeat constructor.

Lemma newestLoop_onlyLocates files nf nt :
  onlyLocates (trace (newestLoop os files nf nt)).
Proof.
  revert nf nt. induction files as [|f files IH]; intros nf nt; simpl.
  - constructor.
  - apply onlyLocates_bind; [single|].
    unfold Stat, value; simpl.
    destruct (stat os f) as [m|]; [destruct (GoTime.After m nt)|]; apply IH.
Qed.

Lemma findNewestFile_onlyLocates pattern :
  onlyLocates (trace (findNewestFile os pattern)).
Proof.
  unfold findNewestFile. apply onlyLocates_bind; [single|].
  unfold Glob, value; simpl.
  destruct (glob os pattern) as [|f [|g files]]; try constructor.
  apply newestLoop_onlyLocates.
Qed.

Lemma GetGeminiConfigDir_onlyLocates :
  onlyLocates (trace (GetGeminiConfigDir rt os ovr)).
Proof.
  unfold GetGeminiConfigDir. destruct (nonEmpty ovr); [constructor|].
  apply onlyLocates_bind; single.
Qed.

Lemma HashProjectPath_onlyLocates p :
  onlyLocates (trace (HashProjectPath rt os p)).
Proof.
  unfold HashProjectPath. apply onlyLocates_bind; [single|].
  unfold Abs, value; simpl. destruct (abs os p); [|constructor].
  apply onlyLocates_bind; single.
Qed.

Lemma GetGeminiSessionsDir_onlyLocates p :
  onlyLocates (trace (GetGeminiSessionsDir rt os ovr p)).
Proof.
  unfold GetGeminiSessionsDir.
  apply onlyLocates_bind; [apply GetGeminiConfigDir_onlyLocates|].
  apply onlyLocates_bind; [apply HashProjectPath_onlyLocates|].
  destruct (String.eqb _ _); constructor.
Qed.

Lemma scanProjects_onlyLocates tmpDir pat entries nf nt :
  onlyLocates (trace (scanProjects rt os tmpDir pat entries nf nt)).
Proof.
  revert nf nt. induction entries as [|e entries IH]; intros nf nt; simpl.
  - constructor.
  - destruct (negb (entry_IsDir e)); [apply IH|].
    apply onlyLocates_bind; [apply findNewestFile_onlyLocates|].
    destruct (nonEmpty _); [|apply IH].
    apply onlyLocates_bind; [single|].
    unfold Stat, value; simpl.
    destruct (stat os _) as [m|]; [destruct (GoTime.After m nt)|]; apply IH.
Qed.

Lemma findGeminiSessionInAllProjects_onlyLocates sid :
  onlyLocates (trace (findGeminiSessionInAllProjects rt os ovr sid)).
Proof.
  unfold findGeminiSessionInAllProjects.
  destruct (tooShort sid); [constructor|].
  apply onlyLocates_bind; [apply GetGeminiConfigDir_onlyLocates|].
  apply onlyLocates_bind; [single|].
  unfold ReadDir, value; simpl.
  destruct (readDir os _); [apply scanProjects_onlyLocates|constructor].
Qed.

Lemma locateSessionFile_onlyLocates p sid :
  onlyLocates (trace (locateSessionFile rt os ovr p sid)).
Proof.
  unfold locateSessionFile.
  apply onlyLocates_bind; [apply GetGeminiSessionsDir_onlyLocates|].
  apply onlyLocates_bind; [apply findNewestFile_onlyLocates|].
  destruct (String.eqb _ _);
    [apply findGeminiSessionInAllProjects_onlyLocates|constructor].
Qed.

(** *** The shape of a refresh once the identifier is accepted *)

Lemma Update_unfold p sid a :
  tooShort sid = false ->
  let loc := locateSessionFile rt os ovr p sid in
  let f := value loc in
  UpdateGeminiAnalyticsFromDisk rt os ovr p sid a =
    if String.eqb f "" then ((Some ErrSessionFileNotFound, a), trace loc)
    else if cacheHit (stat os f) a
    then ((None, a), (trace loc ++ [EvStat f])%list)
    else
      match readFile os f with
      | None =>
          ((Some ErrReadSessionFile, a),
           (trace loc ++ [EvStat f; EvReadFile f])%list)
      | Some data =>
          match json_Unmarshal rt data with
          | None =>
              ((Some ErrParseSession, a),
               (trace loc ++ [EvStat f; EvReadFile f; EvUnmarshal data])%list)
          | Some session =>
              ((None, applySession rt (stat os f) session a),
               (trace loc ++ [EvStat f; EvReadFile f; EvUnmarshal data])%list)
          end
      end.
Proof.
  intros Hs loc f. unfold UpdateGeminiAnalyticsFromDisk. rewrite Hs.
  fold loc. subst f. destruct loc as [f tl].
  unfold bind, ret, Stat, ReadFile, Unmarshal, value, trace; simpl.
  destruct (String.eqb f ""); [rewrite List.app_nil_r; reflexivity|].
  destruct (cacheHit (stat os f) a); [reflexivity|].
  destruct (readFile os f) as [data|]; [|reflexivity].
  destruct (json_Unmarshal rt data); reflexivity.
Qed.

End LocateTrace.

(* ===================================================================== *)
(** ** Aggregation of the turns *)
(* ===================================================================== *)

Lemma accumulate_other a msg : isAgentTurn msg = false -> accumulate a msg = a.
Proof. unfold accumulate, isAgentTurn. intros ->. reflexivity. Qed.

Lemma accumulate_agent a msg :
  isAgentTurn msg = true ->
  accumulate a msg =
    mkAnalytics (GoInt.add (InputTokens a) (msg_Tokens_Input msg))
      (GoInt.add (OutputTokens a) (msg_Tokens_Output msg))
      (msg_Tokens_Input msg)
      (GoInt.incr (TotalTurns a))
      (if nonEmpty (msg_Model msg) then msg_Model msg else Model a)
      (StartTime a) (LastActive a) (Duration a) (LastFileModTime a).
Proof.
  unfold accumulate, isAgentTurn. intros ->.
  destruct (nonEmpty (msg_Model msg)); reflexivity.
Qed.

Lemma accumulate_Model a msg :
  Model (accumulate a msg) = if namesModel msg then msg_Model msg else Model a.
Proof.
  unfold namesModel. destruct (isAgentTurn msg) eqn:E.
  - rewrite accumulate_agent by exact E. reflexivity.
  - rewrite accumulate_other by exact E. reflexivity.
Qed.

Lemma fold_accumulate_agentTurns msgs a :
  fold_left accumulate msgs a = fold_left accumulate (agentTurns msgs) a.
Proof.
  revert a. induction msgs as [|msg msgs IH]; intros a; simpl; [reflexivity|].
  destruct (isAgentTurn msg) eqn:E; simpl.
  - apply IH.
  - rewrite accumulate_other by exact E. apply IH.
Qed.

Lemma fold_accumulate_Model msgs a :
  Model (fold_left accumulate msgs a) = latestModel (Model a) msgs.
Proof.
  unfold latestModel. revert a.
  induction msgs as [|msg msgs IH] using List.rev_ind; intros a; [reflexivity|].
  rewrite List.fold_left_app, List.rev_app_distr. simpl.
  rewrite accumulate_Model. destruct (namesModel msg); [reflexivity|apply IH].
Qed.

Lemma latestModel_agentTurns dflt msgs :
  latestModel dflt (agentTurns msgs) = latestModel dflt msgs.
Proof.
  unfold latestModel, agentTurns.
  induction msgs as [|msg msgs IH] using List.rev_ind; [reflexivity|].
  rewrite List.filter_app. simpl.
  destruct (isAgentTurn msg) eqn:E.
  - rewrite !List.rev_app_distr. simpl.
    destruct (namesModel msg); [reflexivity|exact IH].
  - rewrite List.app_nil_r, List.rev_app_distr. simpl.
    unfold namesModel at 2. rewrite E. simpl. exact IH.
Qed.

(** The snapshot before the loop starts: the counters and the model are
    reset, the context estimate is whatever it was. *)
Lemma applySession_fold rt info session a :
  exists a0,
    applySession rt info session a = fold_left accumulate (sess_Messages session) a0
    /\ InputTokens a0 = 0 /\ OutputTokens a0 = 0 /\ TotalTurns a0 = 0
    /\ Model a0 = "" /\ CurrentContextTokens a0 = CurrentContextTokens a.
Proof.
  unfold applySession. eexists. split; [reflexivity|].
  destruct info; destruct (negb _ && negb _); simpl; repeat split; reflexivity.
Qed.

Lemma accumulate_frame a msg :
  StartTime (accumulate a msg) = StartTime a
  /\ LastActive (accumulate a msg) = LastActive a
  /\ Duration (accumulate a msg) = Duration a
  /\ LastFileModTime (accumulate a msg) = LastFileModTime a.
Proof.
  destruct (isAgentTurn msg) eqn:E.
  - rewrite accumulate_agent by exact E. simpl. auto.
  - rewrite accumulate_other by exact E. auto.
Qed.

Lemma fold_accumulate_LastFileModTime msgs a :
  LastFileModTime (fold_left accumulate msgs a) = LastFileModTime a.
Proof.
  revert a. induction msgs as [|msg msgs IH]; intros a; simpl; [reflexivity|].
  rewrite IH. apply accumulate_frame.
Qed.

Lemma applySession_LastFileModTime rt m session a :
  LastFileModTime (applySession rt (Some m) session a) = m.
Proof.
  unfold applySession. rewrite fold_accumulate_LastFileModTime.
  destruct (negb _ && negb _); reflexivity.
Qed.

Lemma agentTurns_all msgs : List.Forall (fun g => isAgentTurn g = true) (agentTurns msgs).
Proof.
  apply List.Forall_forall. intros g Hg.
  apply List.filter_In in Hg. tauto.
Qed.

Lemma fold_accumulate_last msgs init g a :
  agentTurns msgs = (init ++ [g])%list ->
  CurrentContextTokens (fold_left accumulate msgs a) = msg_Tokens_Input g.
Proof.
  intros H. rewrite fold_accumulate_agentTurns, H, List.fold_left_app. simpl.
  assert (Hg : isAgentTurn g = true).
  { pose proof (agentTurns_all msgs) as Hall. rewrite H in Hall.
    apply List.Forall_app in Hall. destruct Hall as [_ Hall].
    inversion Hall; assumption. }
  rewrite accumulate_agent by exact Hg. reflexivity.
Qed.

(* ===================================================================== *)
(** ** Refreshing the analytics of a session *)
(* ===================================================================== *)

Lemma reparses_result rt os ovr p sid a info session :
  reparses rt os ovr p sid a info session ->
  let r := UpdateGeminiAnalyticsFromDisk rt os ovr p sid a in
  value r = (None, applySession rt info session a)
  /\ countReads (trace r) = 1%nat /\ countParses (trace r) = 1%nat.
Proof.
  intros (Hs & f & data & Hf & Hne & Hst & Hc & Hr & Hj) r. subst r.
  destruct (onlyLocates_counts _ (locateSessionFile_onlyLocates rt os ovr p sid))
    as [Hreads Hparses].
  rewrite Update_unfold by exact Hs. rewrite Hf.
  apply String.eqb_neq in Hne. rewrite Hne, Hst, Hc, Hr, Hj.
  rewrite value_pair, !trace_pair.
  rewrite countReads_app, countParses_app, Hreads, Hparses.
  repeat split; reflexivity.
Qed.

(** C9. A session identifier of fewer than 8 bytes, the empty one
    included, is rejected with the validation error before any call leaves
    the program (the trace is empty), and the snapshot is returned as it
    was. *)
Theorem short_session_id_rejected_before_io rt os ovr p sid a :
  (String.length sid < 8)%nat ->
  UpdateGeminiAnalyticsFromDisk rt os ovr p sid a
  = ((Some ErrInvalidSessionID, a), []).
Proof.
  intros H. apply tooShort_true in H.
  unfold UpdateGeminiAnalyticsFromDisk. rewrite H. reflexivity.
Qed.

Lemma short_session_id_rejected_before_io_witness :
  (String.length "4d8fcb4" < 8)%nat /\
  UpdateGeminiAnalyticsFromDisk Scenario.rt Scenario.osThree ""
    Scenario.project "4d8fcb4" Scenario.afterThree
  = ((Some ErrInvalidSessionID, Scenario.afterThree), []).
Proof.
  split; [simpl; lia|].
  apply (short_session_id_rejected_before_io Scenario.rt Scenario.osThree ""
           Scenario.project "4d8fcb4" Scenario.afterThree).
  simpl. lia.
Defined.

(** C3. A transcript whose agent turns are exactly three, with input
    tokens 10, 20, 30 and output tokens 1, 2, 3 in this order, whatever
    other turns lie between them: a refresh that decodes it returns nil
    with 60 input tokens, 6 output tokens, 3 turns and a context estimate
    of 30, and the model is that of the most recent agent turn naming
    one (empty when none does). *)
Theorem three_agent_turns_aggregate rt os ovr p sid a info session g1 g2 g3 :
  reparses rt os ovr p sid a info session ->
  agentTurns (sess_Messages session) = [g1; g2; g3] ->
  msg_Tokens_Input g1 = 10 -> msg_Tokens_Input g2 = 20 ->
  msg_Tokens_Input g3 = 30 ->
  msg_Tokens_Output g1 = 1 -> msg_Tokens_Output g2 = 2 ->
  msg_Tokens_Output g3 = 3 ->
  let r := value (UpdateGeminiAnalyticsFromDisk rt os ovr p sid a) in
  fst r = None
  /\ InputTokens (snd r) = 60 /\ OutputTokens (snd r) = 6
  /\ TotalTurns (snd r) = 3 /\ CurrentContextTokens (snd r) = 30
  /\ Model (snd r) = latestModel "" (sess_Messages session)
  /\ Model (snd r) = latestModel "" [g1; g2; g3].
Proof.
  intros Hre Hag I1 I2 I3 O1 O2 O3 r.
  destruct (reparses_result _ _ _ _ _ _ _ _ Hre) as [Hv _].
  subst r. rewrite Hv. simpl.
  destruct (applySession_fold rt info session a)
    as (a0 & -> & Hi & Ho & Ht & Hm & _).
  split; [reflexivity|].
  assert (HM : Model (fold_left accumulate (sess_Messages session) a0)
               = latestModel "" (sess_Messages session)).
  { rewrite fold_accumulate_Model, Hm. reflexivity. }
  rewrite HM, <- (latestModel_agentTurns "" (sess_Messages session)).
  rewrite fold_accumulate_agentTurns.
  pose proof (agentTurns_all (sess_Messages session)) as Hall.
  unfold agentTurns in Hag |- *. unfold agentTurns in Hall.
  rewrite Hag in Hall |- *.
  inversion Hall as [|? ? H1 Hall1]; subst.
  inversion Hall1 as [|? ? H2 Hall2]; subst.
  inversion Hall2 as [|? ? H3 _]; subst.
  simpl. rewrite !accumulate_agent by assumption. simpl.
  rewrite Hi, Ho, Ht, I1, I2, I3, O1, O2, O3.
  repeat split; reflexivity.
Qed.

Lemma Scenario_reparses_three a :
  cacheHit (Some Scenario.mtime_new) a = false ->
  reparses Scenario.rt Scenario.osThree "" Scenario.project Scenario.sid a
    (Some Scenario.mtime_new) Scenario.threeTurns.
Proof.
  intros Hc. split; [reflexivity|].
  exists Scenario.newer, "transcript with three agent turns".
  repeat split; try reflexivity; [discriminate|exact Hc].
Qed.

Lemma Scenario_reparses_noAgent a :
  cacheHit (Some (Scenario.mtime_new + 1000000)) a = false ->
  reparses Scenario.rt Scenario.osNoAgent "" Scenario.project Scenario.sid a
    (Some (Scenario.mtime_new + 1000000)) Scenario.noAgentTurn.
Proof.
  intros Hc. split; [reflexivity|].
  exists Scenario.newer, "transcript without agent turn".
  repeat split; try reflexivity; [discriminate|exact Hc].
Qed.

Lemma three_agent_turns_aggregate_witness :
  reparses Scenario.rt Scenario.osThree "" Scenario.project Scenario.sid
    Scenario.blank (Some Scenario.mtime_new) Scenario.threeTurns /\
  agentTurns (sess_Messages Scenario.threeTurns)
  = [Scenario.turn1; Scenario.turn2; Scenario.turn3] /\
  let r := value (UpdateGeminiAnalyticsFromDisk Scenario.rt Scenario.osThree ""
                    Scenario.project Scenario.sid Scenario.blank) in
  fst r = None
  /\ InputTokens (snd r) = 60 /\ OutputTokens (snd r) = 6
  /\ TotalTurns (snd r) = 3 /\ CurrentContextTokens (snd r) = 30
  /\ Model (snd r) = latestModel "" (sess_Messages Scenario.threeTurns)
  /\ Model (snd r) = latestModel "" [Scenario.turn1; Scenario.turn2; Scenario.turn3].
Proof.
  assert (Hre : reparses Scenario.rt Scenario.osThree "" Scenario.project
                  Scenario.sid Scenario.blank (Some Scenario.mtime_new)
                  Scenario.threeTurns)
    by (apply Scenario_reparses_three; reflexivity).
  split; [exact Hre|]. split; [reflexivity|].
  apply (three_agent_turns_aggregate Scenario.rt Scenario.osThree ""
           Scenario.project Scenario.sid Scenario.blank
           (Some Scenario.mtime_new) Scenario.threeTurns
           Scenario.turn1 Scenario.turn2 Scenario.turn3 Hre);
    reflexivity.
Defined.

(** C10. When a refresh decodes a transcript without any agent turn, the
    input tokens, the output tokens and the turn count are zero and the
    model is empty, while the context estimate keeps the value it had
    before the call.  With an agent turn present the estimate is the input
    token count of the last one. *)
Theorem context_estimate_kept_without_agent_turn
    rt os ovr p sid a info session :
  reparses rt os ovr p sid a info session ->
  let r := value (UpdateGeminiAnalyticsFromDisk rt os ovr p sid a) in
  fst r = None
  /\ (agentTurns (sess_Messages session) = [] ->
       InputTokens (snd r) = 0 /\ OutputTokens (snd r) = 0
       /\ TotalTurns (snd r) = 0 /\ Model (snd r) = ""
       /\ CurrentContextTokens (snd r) = CurrentContextTokens a)
  /\ (forall init g,
        agentTurns (sess_Messages session) = (init ++ [g])%list ->
        CurrentContextTokens (snd r) = msg_Tokens_Input g).
Proof.
  intros Hre r.
  destruct (reparses_result _ _ _ _ _ _ _ _ Hre) as [Hv _].
  subst r. rewrite Hv. simpl.
  destruct (applySession_fold rt info session a)
    as (a0 & -> & Hi & Ho & Ht & Hm & Hc).
  split; [reflexivity|]. split.
  - intros Hnone. rewrite fold_accumulate_agentTurns, Hnone. simpl. tauto.
  - intros init g Hlast. exact (fold_accumulate_last _ _ _ _ Hlast).
Qed.

Lemma context_estimate_kept_without_agent_turn_witness :
  reparses Scenario.rt Scenario.osNoAgent "" Scenario.project Scenario.sid
    Scenario.afterThree (Some (Scenario.mtime_new + 1000000))
    Scenario.noAgentTurn /\
  agentTurns (sess_Messages Scenario.noAgentTurn) = [] /\
  let r := value (UpdateGeminiAnalyticsFromDisk Scenario.rt Scenario.osNoAgent
                    "" Scenario.project Scenario.sid Scenario.afterThree) in
  fst r = None
  /\ InputTokens (snd r) = 0 /\ OutputTokens (snd r) = 0
  /\ TotalTurns (snd r) = 0 /\ Model (snd r) = ""
  /\ CurrentContextTokens (snd r) = 30.
Proof.
  pose proof (context_estimate_kept_without_agent_turn Scenario.rt
                Scenario.osNoAgent "" Scenario.project Scenario.sid
                Scenario.afterThree (Some (Scenario.mtime_new + 1000000))
                Scenario.noAgentTurn
                (Scenario_reparses_noAgent Scenario.afterThree eq_refl))
    as (H0 & H1 & _).
  split; [exact (Scenario_reparses_noAgent Scenario.afterThree eq_refl)|].
  split; [reflexivity|].
  split; [exact H0|]. exact (H1 eq_refl).
Defined.

Lemma fold_accumulate_counters msgs a b :
  InputTokens a = InputTokens b -> OutputTokens a = OutputTokens b ->
  TotalTurns a = TotalTurns b -> Model a = Model b ->
  InputTokens (fold_left accumulate msgs a) = InputTokens (fold_left accumulate msgs b)
  /\ OutputTokens (fold_left accumulate msgs a) = OutputTokens (fold_left accumulate msgs b)
  /\ TotalTurns (fold_left accumulate msgs a) = TotalTurns (fold_left accumulate msgs b)
  /\ Model (fold_left accumulate msgs a) = Model (fold_left accumulate msgs b).
Proof.
  revert a b. induction msgs as [|msg msgs IH]; intros a b Hi Ho Ht Hm; simpl.
  - auto.
  - destruct (isAgentTurn msg) eqn:E.
    + apply IH; rewrite !accumulate_agent by exact E; simpl;
        rewrite ?Hi, ?Ho, ?Ht, ?Hm; reflexivity.
    + rewrite !accumulate_other by exact E. apply IH; assumption.
Qed.

(** The fields the reset block clears are recomputed from the transcript
    alone, whatever the snapshot held before. *)
Lemma reset_fields_from_transcript_alone
    rt os ovr p sid a b info info' session :
  reparses rt os ovr p sid a info session ->
  reparses rt os ovr p sid b info' session ->
  let ra := snd (value (UpdateGeminiAnalyticsFromDisk rt os ovr p sid a)) in
  let rb := snd (value (UpdateGeminiAnalyticsFromDisk rt os ovr p sid b)) in
  InputTokens ra = InputTokens rb /\ OutputTokens ra = OutputTokens rb
  /\ TotalTurns ra = TotalTurns rb /\ Model ra = Model rb.
Proof.
  intros Ha Hb ra rb. subst ra rb.
  destruct (reparses_result _ _ _ _ _ _ _ _ Ha) as [-> _].
  destruct (reparses_result _ _ _ _ _ _ _ _ Hb) as [-> _].
  cbn [snd].
  destruct (applySession_fold rt info session a) as (a0 & -> & ? & ? & ? & ? & _).
  destruct (applySession_fold rt info' session b) as (b0 & -> & ? & ? & ? & ? & _).
  apply fold_accumulate_counters; congruence.
Qed.

(** C4, at the input where it fails.  The same rewritten transcript, which
    holds no agent turn, is decoded successfully from two prior snapshots:
    the one an earlier refresh left (context estimate 30) and a blank one.
    The four fields of the reset block agree, the context estimate does
    not: it is the prior value in both cases. *)
Theorem context_estimate_depends_on_prior_snapshot :
  let r1 := UpdateGeminiAnalyticsFromDisk Scenario.rt Scenario.osNoAgent ""
              Scenario.project Scenario.sid Scenario.afterThree in
  let r2 := UpdateGeminiAnalyticsFromDisk Scenario.rt Scenario.osNoAgent ""
              Scenario.project Scenario.sid Scenario.blank in
  fst (value r1) = None /\ fst (value r2) = None
  /\ countParses (trace r1) = 1%nat /\ countParses (trace r2) = 1%nat
  /\ InputTokens (snd (value r1)) = InputTokens (snd (value r2))
  /\ OutputTokens (snd (value r1)) = OutputTokens (snd (value r2))
  /\ TotalTurns (snd (value r1)) = TotalTurns (snd (value r2))
  /\ Model (snd (value r1)) = Model (snd (value r2))
  /\ CurrentContextTokens (snd (value r1)) = 30
  /\ CurrentContextTokens (snd (value r2)) = 0.
Proof. vm_compute. repeat split; reflexivity. Qed.

(** C7 does not hold for every unreadable transcript: here the file has
    become unreadable while its mtime still equals the fingerprint of the
    snapshot; the refresh stops at the mtime check and returns nil, not an
    error. *)
Lemma unreadable_transcript_behind_cache_hit_returns_nil :
  let r := UpdateGeminiAnalyticsFromDisk Scenario.rt Scenario.osUnreadable ""
             Scenario.project Scenario.sid Scenario.afterThree in
  value (locateSessionFile Scenario.rt Scenario.osUnreadable ""
           Scenario.project Scenario.sid) = Scenario.newer
  /\ readFile Scenario.osUnreadable Scenario.newer = None
  /\ fst (value r) = None
  /\ snd (value r) = Scenario.afterThree.
Proof. vm_compute. repeat split; reflexivity. Qed.

(** C7, amended.  When the located transcript cannot be read or does not
    decode, and the mtime check does not stop the call first (no
    fingerprint yet, [os.Stat] failing, or an mtime other than the
    fingerprint), the refresh returns the read error, respectively the
    parse error, and the snapshot, fingerprint included, is the one the
    call received; in particular the snapshot of an earlier successful
    refresh survives. *)
Theorem failed_read_or_parse_keeps_snapshot rt os ovr p sid a f :
  tooShort sid = false ->
  value (locateSessionFile rt os ovr p sid) = f -> f <> "" ->
  cacheHit (stat os f) a = false ->
  let r := value (UpdateGeminiAnalyticsFromDisk rt os ovr p sid a) in
  (readFile os f = None -> r = (Some ErrReadSessionFile, a))
  /\ (forall data, readFile os f = Some data ->
        json_Unmarshal rt data = None -> r = (Some ErrParseSession, a)).
Proof.
  intros Hs Hf Hne Hc r. subst r.
  rewrite Update_unfold by exact Hs. rewrite Hf.
  apply String.eqb_neq in Hne. rewrite Hne, Hc. split.
  - intros ->. reflexivity.
  - intros data -> ->. reflexivity.
Qed.

Lemma failed_read_or_parse_keeps_snapshot_witness :
  readFile Scenario.osMalformed Scenario.newer = Some "{ not json"
  /\ json_Unmarshal Scenario.rt "{ not json" = None
  /\ value (UpdateGeminiAnalyticsFromDisk Scenario.rt Scenario.osMalformed ""
              Scenario.project Scenario.sid Scenario.afterThree)
     = (Some ErrParseSession, Scenario.afterThree).
Proof.
  split; [reflexivity|]. split; [reflexivity|].
  refine (proj2 (failed_read_or_parse_keeps_snapshot Scenario.rt
                   Scenario.osMalformed "" Scenario.project Scenario.sid
                   Scenario.afterThree Scenario.newer _ _ _ _)
                "{ not json" _ _);
    try reflexivity.
  discriminate.
Defined.

(** C1. A first refresh decodes the transcript [f] and records its
    non-zero mtime [m]; a second one finds the same file with the same
    mtime.  The second call returns nil, causes neither a read nor a
    decoding, and returns the snapshot exactly as the first call left it;
    over both calls the transcript is decoded once. *)
Theorem unchanged_mtime_skips_reparse
    rt os1 os2 ovr p sid a0 f m session :
  reparses rt os1 ovr p sid a0 (Some m) session ->
  value (locateSessionFile rt os1 ovr p sid) = f ->
  GoTime.IsZero m = false ->
  value (locateSessionFile rt os2 ovr p sid) = f ->
  stat os2 f = Some m ->
  let first := UpdateGeminiAnalyticsFromDisk rt os1 ovr p sid a0 in
  let a1 := snd (value first) in
  let second := UpdateGeminiAnalyticsFromDisk rt os2 ovr p sid a1 in
  fst (value first) = None
  /\ LastFileModTime a1 = m
  /\ value second = (None, a1)
  /\ countReads (trace second) = 0%nat
  /\ countParses (trace second) = 0%nat
  /\ countParses (trace first ++ trace second) = 1%nat.
Proof.
  intros Hre Hf1 Hm Hf2 Hst2 first a1 second.
  destruct (reparses_result _ _ _ _ _ _ _ _ Hre) as (Hv & _ & Hp1).
  fold first in Hv, Hp1.
  assert (Ha1 : a1 = applySession rt (Some m) session a0)
    by (subst a1; rewrite Hv; reflexivity).
  assert (Hfp : LastFileModTime a1 = m)
    by (rewrite Ha1; apply applySession_LastFileModTime).
  destruct Hre as (Hs & f' & _ & Hf' & Hne & _).
  assert (E : f' = f) by congruence. clear Hf'. subst f'.
  assert (Hhit : cacheHit (stat os2 f) a1 = true).
  { rewrite Hst2. unfold cacheHit. rewrite Hfp, Hm. simpl.
    apply Z.eqb_refl. }
  destruct (onlyLocates_counts _ (locateSessionFile_onlyLocates rt os2 ovr p sid))
    as [Hreads Hparses].
  assert (Hsecond : second =
            ((None, a1),
             (trace (locateSessionFile rt os2 ovr p sid) ++ [EvStat f])%list)).
  { subst second. rewrite Update_unfold by exact Hs. rewrite Hf2.
    apply String.eqb_neq in Hne. rewrite Hne, Hhit. reflexivity. }
  rewrite countParses_app, Hp1, Hsecond, value_pair, trace_pair.
  rewrite countReads_app, countParses_app, Hreads, Hparses, Hv.
  repeat split; try reflexivity. exact Hfp.
Qed.

Lemma unchanged_mtime_skips_reparse_witness :
  reparses Scenario.rt Scenario.osThree "" Scenario.project Scenario.sid
    Scenario.blank (Some Scenario.mtime_new) Scenario.threeTurns /\
  GoTime.IsZero Scenario.mtime_new = false /\
  let first := UpdateGeminiAnalyticsFromDisk Scenario.rt Scenario.osThree ""
                 Scenario.project Scenario.sid Scenario.blank in
  let a1 := snd (value first) in
  let second := UpdateGeminiAnalyticsFromDisk Scenario.rt Scenario.osThree ""
                  Scenario.project Scenario.sid a1 in
  fst (value first) = None
  /\ LastFileModTime a1 = Scenario.mtime_new
  /\ value second = (None, a1)
  /\ countReads (trace second) = 0%nat
  /\ countParses (trace second) = 0%nat
  /\ countParses (trace first ++ trace second) = 1%nat.
Proof.
  assert (Hre : reparses Scenario.rt Scenario.osThree "" Scenario.project
                  Scenario.sid Scenario.blank (Some Scenario.mtime_new)
                  Scenario.threeTurns)
    by (apply Scenario_reparses_three; reflexivity).
  split; [exact Hre|]. split; [reflexivity|].
  apply (unchanged_mtime_skips_reparse Scenario.rt Scenario.osThree
           Scenario.osThree "" Scenario.project Scenario.sid Scenario.blank
           Scenario.newer Scenario.mtime_new Scenario.threeTurns Hre);
    reflexivity.
Defined.

(* ===================================================================== *)
(** ** Locating the transcript *)
(* ===================================================================== *)

Lemma newestLoop_value_cons os f files nf nt :
  value (newestLoop os (f :: files) nf nt) =
    match stat os f with
    | Some modTime =>
        if nt <? modTime then value (newestLoop os files f modTime)
        else value (newestLoop os files nf nt)
    | None => value (newestLoop os files nf nt)
    end.
Proof.
  simpl. rewrite value_bind. unfold Stat, GoTime.After. rewrite value_pair.
  destruct (stat os f) as [mf|]; [destruct (nt <? mf)|]; reflexivity.
Qed.

Lemma newestLoop_spec os files nf nt :
  let r := value (newestLoop os files nf nt) in
  (r = nf /\ forall g mg, List.In g files -> stat os g = Some mg -> mg <= nt)
  \/ (exists before after m,
        files = (before ++ r :: after)%list /\ stat os r = Some m /\ nt < m /\
        (forall g mg, List.In g before -> stat os g = Some mg -> mg < m) /\
        (forall g mg, List.In g after -> stat os g = Some mg -> mg <= m)).
Proof.
  cbv zeta. revert nf nt. induction files as [|f files IH]; intros nf nt.
  - left. split; [reflexivity|]. intros g mg [].
  - rewrite newestLoop_value_cons.
    destruct (stat os f) as [mf|] eqn:Hst.
    + destruct (Z.ltb_spec nt mf) as [Hlt|Hge].
      * destruct (IH f mf) as [[Hr Hall]|(before & after & m & Hfiles & Hm & Hlt' & Hb & Ha)].
        -- right. exists [], files, mf. rewrite Hr. simpl.
           repeat split; auto. intros g mg [].
        -- right. exists (f :: before), after, m. simpl. rewrite <- Hfiles.
           repeat split; auto; [lia|].
           intros g mg [<-|Hin] Hg; [|eauto].
           rewrite Hst in Hg. inversion Hg; subst. exact Hlt'.
      * destruct (IH nf nt) as [[Hr Hall]|(before & after & m & Hfiles & Hm & Hlt' & Hb & Ha)].
        -- left. split; [exact Hr|].
           intros g mg [<-|Hin] Hg; [|eauto].
           rewrite Hst in Hg. inversion Hg; subst. exact Hge.
        -- right. exists (f :: before), after, m. simpl. rewrite <- Hfiles.
           repeat split; auto.
           intros g mg [<-|Hin] Hg; [|eauto].
           rewrite Hst in Hg. inversion Hg; subst. lia.
    + destruct (IH nf nt) as [[Hr Hall]|(before & after & m & Hfiles & Hm & Hlt' & Hb & Ha)].
      * left. split; [exact Hr|].
        intros g mg [<-|Hin] Hg; [congruence|eauto].
      * right. exists (f :: before), after, m. simpl. rewrite <- Hfiles.
        repeat split; auto.
        intros g mg [<-|Hin] Hg; [congruence|eauto].
Qed.

Lemma findNewestFile_value os pattern :
  value (findNewestFile os pattern) =
    match glob os pattern with
    | [] => ""
    | [file] => file
    | files => value (newestLoop os files "" GoTime.zero)
    end.
Proof.
  unfold findNewestFile. rewrite value_bind.
  change (value (Glob os pattern)) with (glob os pattern).
  destruct (glob os pattern) as [|f [|g files]]; reflexivity.
Qed.

Lemma findNewestFile_multiple os pattern :
  (2 <= List.length (glob os pattern))%nat ->
  someDated os (glob os pattern) ->
  newestAmong os (glob os pattern) (value (findNewestFile os pattern)).
Proof.
  intros Hlen (g & mg & Hin & Hg & Hpos).
  rewrite findNewestFile_value.
  destruct (glob os pattern) as [|f1 [|f2 files]] eqn:Hglob;
    [simpl in Hlen; lia|simpl in Hlen; lia|].
  destruct (newestLoop_spec os (f1 :: f2 :: files) "" GoTime.zero)
    as [[_ Hall]|(before & after & m & Hfiles & Hm & _ & Hb & Ha)].
  - specialize (Hall g mg Hin Hg). unfold GoTime.zero in Hall. lia.
  - exists before, after, m. auto.
Qed.

Lemma locateSessionFile_value rt os ovr p sid :
  value (locateSessionFile rt os ovr p sid) =
    let latestFile := value (findNewestFile os (expectedPattern rt os ovr p sid)) in
    if String.eqb latestFile ""
    then value (findGeminiSessionInAllProjects rt os ovr sid)
    else latestFile.
Proof.
  unfold locateSessionFile, expectedPattern. rewrite !value_bind.
  cbv zeta. destruct (String.eqb _ ""); reflexivity.
Qed.

(** C6. In the directory the project path hashes to, [findNewestFile]
    returns the empty string when nothing matches the pattern built from
    the first 8 bytes of the identifier.  When several files match and at
    least one of them has a modification time (after Go's zero time), it
    returns the match with the most recent one, the first in enumeration
    order among equally recent ones, and that file is the one the refresh
    goes on with. *)
Theorem newest_match_in_expected_directory rt os ovr p sid :
  let pattern := expectedPattern rt os ovr p sid in
  let r := value (findNewestFile os pattern) in
  (glob os pattern = [] -> r = "")
  /\ ((2 <= List.length (glob os pattern))%nat ->
      someDated os (glob os pattern) ->
      newestAmong os (glob os pattern) r
      /\ (r <> "" -> value (locateSessionFile rt os ovr p sid) = r)).
Proof.
  intros pattern r. split.
  - intros Hnone. subst r. rewrite findNewestFile_value, Hnone. reflexivity.
  - intros Hlen Hdated. split.
    + apply findNewestFile_multiple; assumption.
    + intros Hne. rewrite locateSessionFile_value. fold pattern. fold r.
      cbv zeta. apply String.eqb_neq in Hne. rewrite Hne. reflexivity.
Qed.

Lemma newest_match_in_expected_directory_witness :
  glob Scenario.osTwoMatches Scenario.pattern = [Scenario.older; Scenario.newer]
  /\ stat Scenario.osTwoMatches Scenario.older = Some Scenario.mtime_old
  /\ stat Scenario.osTwoMatches Scenario.newer = Some Scenario.mtime_new
  /\ newestAmong Scenario.osTwoMatches [Scenario.older; Scenario.newer]
       Scenario.newer
  /\ value (locateSessionFile Scenario.rt Scenario.osTwoMatches ""
              Scenario.project Scenario.sid) = Scenario.newer.
Proof.
  split; [reflexivity|]. split; [reflexivity|]. split; [reflexivity|].
  assert (Hlen : (2 <= List.length (glob Scenario.osTwoMatches
            (expectedPattern Scenario.rt Scenario.osTwoMatches ""
               Scenario.project Scenario.sid)))%nat)
    by (vm_compute; lia).
  assert (Hdated : someDated Scenario.osTwoMatches
            (glob Scenario.osTwoMatches
               (expectedPattern Scenario.rt Scenario.osTwoMatches ""
                  Scenario.project Scenario.sid))).
  { exists Scenario.newer, Scenario.mtime_new.
    split; [right; left; reflexivity|]. split; [reflexivity|].
    reflexivity. }
  destruct (proj2 (newest_match_in_expected_directory Scenario.rt
                     Scenario.osTwoMatches "" Scenario.project Scenario.sid)
                  Hlen Hdated) as [Hnewest Hloc].
  split; [exact Hnewest|]. apply Hloc. discriminate.
Defined.

Lemma scanProjects_value_cons rt os tmpDir sid entry rest nf nt :
  value (scanProjects rt os tmpDir (sessionPattern sid) (entry :: rest) nf nt) =
    if negb (entry_IsDir entry)
    then value (scanProjects rt os tmpDir (sessionPattern sid) rest nf nt)
    else
      let file := value (findNewestFile os (projectPattern rt tmpDir sid entry)) in
      if nonEmpty file then
        match stat os file with
        | Some modTime =>
            if nt <? modTime
            then value (scanProjects rt os tmpDir (sessionPattern sid) rest file modTime)
            else value (scanProjects rt os tmpDir (sessionPattern sid) rest nf nt)
        | None => value (scanProjects rt os tmpDir (sessionPattern sid) rest nf nt)
        end
      else value (scanProjects rt os tmpDir (sessionPattern sid) rest nf nt).
Proof.
  simpl. destruct (negb (entry_IsDir entry)); [reflexivity|].
  rewrite value_bind. fold (projectPattern rt tmpDir sid entry). cbv zeta.
  destruct (nonEmpty _); [|reflexivity].
  rewrite value_bind. unfold Stat at 1. rewrite value_pair.
  unfold GoTime.After.
  destruct (stat os _) as [m|]; [destruct (nt <? m)|]; reflexivity.
Qed.

(** What [findNewestFile] contributes for one project directory: nothing
    dated, or a match that no match of the directory is newer than. *)
Lemma findNewestFile_bound os pattern :
  globNamesFiles os ->
  let file := value (findNewestFile os pattern) in
  (forall g mg, List.In g (glob os pattern) -> stat os g = Some mg ->
     (nonEmpty file = false \/ stat os file = None) -> mg <= 0)
  /\ (nonEmpty file = true -> List.In file (glob os pattern))
  /\ (forall m, nonEmpty file = true -> stat os file = Some m ->
        forall g mg, List.In g (glob os pattern) -> stat os g = Some mg ->
                     mg <= Z.max 0 m).
Proof.
  intros Hnames. cbv zeta. rewrite findNewestFile_value.
  destruct (glob os pattern) as [|f1 [|f2 files]] eqn:Hglob.
  - repeat split; [intros g mg []|discriminate|intros m _ _ g mg []].
  - assert (Hf1 : nonEmpty f1 = true).
    { apply nonEmpty_true, (Hnames pattern). rewrite Hglob. left. reflexivity. }
    repeat split.
    + intros g mg [<-|[]] Hg [Hn|Hn]; congruence.
    + intros _. left. reflexivity.
    + intros m _ Hm g mg [<-|[]] Hg. rewrite Hm in Hg. inversion Hg. lia.
  - destruct (newestLoop_spec os (f1 :: f2 :: files) "" GoTime.zero)
      as [[Hr Hall]|(before & after & m & Hfiles & Hm & Hlt & Hb & Ha)];
      cbv zeta in *.
    + rewrite Hr. unfold GoTime.zero in Hall. repeat split.
      * intros g mg Hin Hg _. eauto.
      * discriminate.
      * discriminate.
    + set (r := value (newestLoop os (f1 :: f2 :: files) "" GoTime.zero)) in *.
      assert (Hin : List.In r (f1 :: f2 :: files)).
      { rewrite Hfiles. apply List.in_or_app. right. left. reflexivity. }
      assert (Hne : nonEmpty r = true).
      { apply nonEmpty_true, (Hnames pattern). rewrite Hglob. exact Hin. }
      assert (Hle : forall g mg, List.In g (f1 :: f2 :: files) ->
                                 stat os g = Some mg -> mg <= m).
      { intros g mg Hg Hs. rewrite Hfiles in Hg.
        apply List.in_app_or in Hg. destruct Hg as [Hg|[<-|Hg]].
        - specialize (Hb g mg Hg Hs). lia.
        - rewrite Hm in Hs. inversion Hs. lia.
        - eauto. }
      repeat split.
      * intros g mg Hg Hs [Hn|Hn]; congruence.
      * intros _. exact Hin.
      * intros m' _ Hm' g mg Hg Hs. rewrite Hm in Hm'. inversion Hm'; subst.
        specialize (Hle g mg Hg Hs). lia.
Qed.

Lemma scanProjects_spec rt os tmpDir sid entries :
  globNamesFiles os ->
  forall nf nt, 0 <= nt ->
  let matches := allProjectMatches rt os tmpDir sid entries in
  let r := value (scanProjects rt os tmpDir (sessionPattern sid) entries nf nt) in
  (r = nf /\ forall g mg, List.In g matches -> stat os g = Some mg -> mg <= nt)
  \/ (List.In r matches /\
      exists m, stat os r = Some m /\ nt < m /\
        forall g mg, List.In g matches -> stat os g = Some mg -> mg <= m).
Proof.
  intros Hnames. cbv zeta. unfold allProjectMatches.
  induction entries as [|entry rest IH]; intros nf nt Hnt.
  - left. split; [reflexivity|]. intros g mg [].
  - rewrite scanProjects_value_cons. simpl List.filter.
    destruct (entry_IsDir entry); simpl negb; cbv iota; [|apply IH; exact Hnt].
    simpl List.flat_map. cbv zeta.
    destruct (findNewestFile_bound os (projectPattern rt tmpDir sid entry) Hnames)
      as (Hnone & Hin & Hbound). cbv zeta in *.
    set (file := value (findNewestFile os (projectPattern rt tmpDir sid entry))) in *.
    set (here := glob os (projectPattern rt tmpDir sid entry)) in *.
    set (there := List.flat_map _ _) in *.
    assert (Hskip :
      (forall g mg, List.In g here -> stat os g = Some mg -> mg <= nt) ->
      (value (scanProjects rt os tmpDir (sessionPattern sid) rest nf nt) = nf /\
       forall g mg, List.In g (here ++ there) -> stat os g = Some mg -> mg <= nt)
      \/ (List.In (value (scanProjects rt os tmpDir (sessionPattern sid) rest nf nt))
            (here ++ there) /\
          exists m, stat os (value (scanProjects rt os tmpDir (sessionPattern sid) rest nf nt)) = Some m
            /\ nt < m /\
            forall g mg, List.In g (here ++ there) -> stat os g = Some mg -> mg <= m)).
    { intros Hhere. destruct (IH nf nt Hnt) as [[Hr Hall]|(Hrin & m & Hm & Hlt & Hall)].
      - left. split; [exact Hr|]. intros g mg Hg Hs.
        apply List.in_app_or in Hg. destruct Hg; eauto.
      - right. split; [apply List.in_or_app; right; exact Hrin|].
        exists m. repeat split; auto. intros g mg Hg Hs.
        apply List.in_app_or in Hg. destruct Hg as [Hg|Hg]; [|eauto].
        specialize (Hhere g mg Hg Hs). lia. }
    destruct (nonEmpty file) eqn:Hne.
    + destruct (stat os file) as [mf|] eqn:Hst.
      * destruct (Z.ltb_spec nt mf) as [Hlt|Hge].
        -- assert (Hmf : 0 <= mf) by lia.
           assert (Hhere : forall g mg, List.In g here -> stat os g = Some mg -> mg <= mf).
           { intros g mg Hg Hs. specialize (Hbound mf eq_refl eq_refl g mg Hg Hs). lia. }
           destruct (IH file mf Hmf) as [[Hr Hall]|(Hrin & m & Hm & Hlt' & Hall)].
           ++ right. rewrite Hr. split; [apply List.in_or_app; left; auto|].
              exists mf. repeat split; auto. intros g mg Hg Hs.
              apply List.in_app_or in Hg. destruct Hg; eauto.
           ++ right. split; [apply List.in_or_app; right; exact Hrin|].
              exists m. repeat split; auto; [lia|]. intros g mg Hg Hs.
              apply List.in_app_or in Hg. destruct Hg as [Hg|Hg]; [|eauto].
              specialize (Hhere g mg Hg Hs). lia.
        -- apply Hskip. intros g mg Hg Hs.
           specialize (Hbound mf eq_refl eq_refl g mg Hg Hs). lia.
      * apply Hskip. intros g mg Hg Hs.
        specialize (Hnone g mg Hg Hs (or_intror eq_refl)). lia.
    + apply Hskip. intros g mg Hg Hs.
      specialize (Hnone g mg Hg Hs (or_introl eq_refl)). lia.
Qed.

Lemma findGeminiSessionInAllProjects_value rt os ovr sid entries :
  tooShort sid = false ->
  readDir os (projectsRoot rt os ovr) = Some entries ->
  value (findGeminiSessionInAllProjects rt os ovr sid) =
    value (scanProjects rt os (projectsRoot rt os ovr) (sessionPattern sid)
             entries "" GoTime.zero).
Proof.
  intros Hs Hdir. unfold findGeminiSessionInAllProjects. rewrite Hs.
  rewrite !value_bind. fold (projectsRoot rt os ovr).
  unfold ReadDir at 1. rewrite value_pair, Hdir. reflexivity.
Qed.

(** C5. The identifier is valid, nothing in the directory the project
    path hashes to matches the pattern, and among the matches in the
    project directories under the root at least one has a modification
    time (after Go's zero time).  Then the file the refresh goes on with
    is the result of the full scan: a match of one of the project
    directories, and no match in any of them is more recent. *)
Theorem fallback_scan_finds_newest rt os ovr p sid entries :
  globNamesFiles os ->
  tooShort sid = false ->
  glob os (expectedPattern rt os ovr p sid) = [] ->
  readDir os (projectsRoot rt os ovr) = Some entries ->
  someDated os (allProjectMatches rt os (projectsRoot rt os ovr) sid entries) ->
  let matches := allProjectMatches rt os (projectsRoot rt os ovr) sid entries in
  let r := value (locateSessionFile rt os ovr p sid) in
  r = value (findGeminiSessionInAllProjects rt os ovr sid)
  /\ List.In r matches
  /\ exists m, stat os r = Some m /\
       forall g mg, List.In g matches -> stat os g = Some mg -> mg <= m.
Proof.
  intros Hnames Hs Hnone Hdir (g0 & m0 & Hin0 & Hst0 & Hpos) matches r.
  assert (Hr : r = value (findGeminiSessionInAllProjects rt os ovr sid)).
  { subst r. rewrite locateSessionFile_value, findNewestFile_value, Hnone.
    reflexivity. }
  split; [exact Hr|]. rewrite Hr.
  rewrite (findGeminiSessionInAllProjects_value rt os ovr sid entries Hs Hdir).
  destruct (scanProjects_spec rt os (projectsRoot rt os ovr) sid entries Hnames
              "" GoTime.zero (Z.le_refl 0))
    as [[_ Hall]|(Hin & m & Hm & _ & Hall)].
  - specialize (Hall g0 m0 Hin0 Hst0). unfold GoTime.zero in Hall. lia.
  - split; [exact Hin|]. exists m. split; [exact Hm|exact Hall].
Qed.

Lemma Scenario_world_globNamesFiles globs stats dirs files :
  List.Forall (fun entry => List.Forall (fun g => g <> "") (snd entry)) globs ->
  globNamesFiles (Scenario.world globs stats dirs files).
Proof.
  intros Hall pattern g. simpl.
  induction Hall as [|[pat l] globs Hl _ IH]; simpl; [intros []|].
  destruct (String.eqb pattern pat); [|exact IH].
  intros Hin. simpl in Hl. rewrite List.Forall_forall in Hl. auto.
Qed.

Lemma fallback_scan_finds_newest_witness :
  glob Scenario.osMoved Scenario.pattern = []
  /\ allProjectMatches Scenario.rt Scenario.osMoved Scenario.tmpDir Scenario.sid
       [ mkDirEntry "aaaa" true; mkDirEntry "bin" false;
         mkDirEntry "bbbb" true; mkDirEntry "9f2c" true ]
     = [Scenario.otherA; Scenario.otherB]
  /\ value (locateSessionFile Scenario.rt Scenario.osMoved ""
              Scenario.project Scenario.sid) = Scenario.otherB
  /\ exists m, stat Scenario.osMoved Scenario.otherB = Some m /\
       forall g mg, List.In g [Scenario.otherA; Scenario.otherB] ->
                    stat Scenario.osMoved g = Some mg -> mg <= m.
Proof.
  split; [reflexivity|]. split; [reflexivity|]. split; [reflexivity|].
  refine (proj2 (proj2 (fallback_scan_finds_newest Scenario.rt Scenario.osMoved
            "" Scenario.project Scenario.sid
            [ mkDirEntry "aaaa" true; mkDirEntry "bin" false;
              mkDirEntry "bbbb" true; mkDirEntry "9f2c" true ] _ _ _ _ _))).
  - apply Scenario_world_globNamesFiles.
    repeat constructor; discriminate.
  - reflexivity.
  - reflexivity.
  - reflexivity.
  - exists Scenario.otherB, Scenario.mtime_new.
    split; [right; left; reflexivity|]. split; reflexivity.
Defined.

(* ===================================================================== *)
(** ** The model list override *)
(* ===================================================================== *)

(** C8 does not hold with the duplicate suppression it names: for the
    override value m1, m2,m1 the name m1 comes back twice. *)
Lemma override_keeps_duplicate_names :
  GetAvailableGeminiModels Scenario.overrideWorld Scenario.emptyCache
  = (["m1"; "m1"; "m2"], None, Scenario.emptyCache)
  /\ ~ List.NoDup ["m1"; "m1"; "m2"].
Proof.
  split; [reflexivity|].
  intros H. inversion H as [|x l Hnotin _]; subst.
  apply Hnotin. left. reflexivity.
Qed.

(** C8, amended.  For every non-empty value of the override variable the
    call succeeds, leaves the cache alone and returns the comma-separated
    pieces of the value, each with its surrounding white space trimmed, in
    increasing order; every piece is kept, duplicates included. *)
Theorem override_models_trimmed_and_sorted w cache :
  getenv w "GEMINI_MODELS_OVERRIDE" <> "" ->
  let override := getenv w "GEMINI_MODELS_OVERRIDE" in
  let models := fst (fst (GetAvailableGeminiModels w cache)) in
  GetAvailableGeminiModels w cache = (models, None, cache)
  /\ Permutation models
       (List.map GoStrings.TrimSpace (GoStrings.splitComma override))
  /\ Sorted (fun s1 s2 => String.leb s1 s2 = true) models.
Proof.
  intros Hne override models. subst models.
  unfold GetAvailableGeminiModels. fold override.
  apply nonEmpty_true in Hne. fold override in Hne. rewrite Hne.
  cbn [fst snd]. split; [reflexivity|]. unfold modelsFromOverride, sort_Strings.
  split.
  - symmetry. apply StringSort.Permuted_sort.
  - pose proof (StringSort.Sorted_sort
                  (List.map GoStrings.TrimSpace (GoStrings.splitComma override)))
      as Hsorted.
    exact Hsorted.
Qed.

Lemma override_models_trimmed_and_sorted_witness :
  getenv Scenario.overrideWorld "GEMINI_MODELS_OVERRIDE" = "m1, m2,m1"
  /\ GetAvailableGeminiModels Scenario.overrideWorld Scenario.emptyCache
     = (["m1"; "m1"; "m2"], None, Scenario.emptyCache)
  /\ Permutation ["m1"; "m1"; "m2"] ["m1"; "m2"; "m1"]
  /\ Sorted (fun s1 s2 => String.leb s1 s2 = true) ["m1"; "m1"; "m2"].
Proof.
  split; [reflexivity|].
  apply (override_models_trimmed_and_sorted Scenario.overrideWorld
           Scenario.emptyCache).
  discriminate.
Defined.

(* ===================================================================== *)
(** ** The mode flag through the multiplexer *)
(* ===================================================================== *)

(** C2. For a running instance and either value [v]: setting the mode
    succeeds, stores the literal true or false under GEMINI_YOLO_MODE in
    the environment of the session, and a refresh of an instance freshly
    attached to that session, its flag unset, ends with the flag equal to
    [v]. *)
Theorem mode_flag_round_trip (mux : Instance.Multiplexer)
    (inst : Instance.Instance) (v : bool) :
  Instance.running inst mux ->
  let r := Instance.SetGeminiYoloMode v inst mux in
  let mux' := snd (fst r) in
  snd r = None
  /\ Instance.GeminiYoloMode (fst (fst r)) = Some v
  /\ Instance.GetEnvironment (Instance.sessionName inst) Instance.yoloKey mux'
     = Some (if v then "true" else "false")
  /\ Instance.GeminiYoloMode
       (Instance.UpdateGeminiSession
          (Instance.attach (Instance.sessionName inst)) mux')
     = Some v.
Proof.
  intros [env Henv]. cbv zeta.
  unfold Instance.SetGeminiYoloMode, Instance.SetEnvironment. rewrite Henv.
  cbn [fst snd Instance.GeminiYoloMode].
  assert (Hget : Instance.GetEnvironment (Instance.sessionName inst)
                   Instance.yoloKey
                   (<[Instance.sessionName inst :=
                        <[Instance.yoloKey := Instance.renderBool v]> env]> mux)
                 = Some (Instance.renderBool v)).
  { unfold Instance.GetEnvironment.
    rewrite lookup_insert_eq. apply lookup_insert_eq. }
  repeat split.
  - rewrite Hget. destruct v; reflexivity.
  - unfold Instance.UpdateGeminiSession, Instance.attach.
    cbn [Instance.GeminiYoloMode Instance.sessionName]. rewrite Hget.
    destruct v; reflexivity.
Qed.

Lemma mode_flag_round_trip_witness :
  Instance.running Scenario.started Scenario.oneSession
  /\ Instance.GeminiYoloMode
       (Instance.UpdateGeminiSession (Instance.attach "agentdeck_yolo")
          (snd (fst (Instance.SetGeminiYoloMode true Scenario.started
                       Scenario.oneSession))))
     = Some true.
Proof.
  assert (Hrun : Instance.running Scenario.started Scenario.oneSession).
  { exists ∅. reflexivity. }
  split; [exact Hrun|].
  exact (proj2 (proj2 (proj2 (mode_flag_round_trip Scenario.oneSession
                                Scenario.started true Hrun)))).
Defined.

(* ===================================================================== *)
(** ** Further properties of the refresh *)
(* ===================================================================== *)

Lemma wrap64_add_l x y : GoInt.wrap64 (GoInt.wrap64 x + y) = GoInt.wrap64 (x + y).
Proof.
  unfold GoInt.wrap64. f_equal.
  replace ((x + 2 ^ 63) mod 2 ^ 64 - 2 ^ 63 + y + 2 ^ 63)
    with ((x + 2 ^ 63) mod 2 ^ 64 + y) by ring.
  rewrite Zplus_mod_idemp_l. f_equal. ring.
Qed.

Lemma wrap64_inRange z : GoInt.inRange z -> GoInt.wrap64 z = z.
Proof.
  unfold GoInt.inRange, GoInt.minInt64, GoInt.maxInt64, GoInt.wrap64.
  change (2 ^ 63) with 9223372036854775808.
  change (2 ^ 64) with 18446744073709551616.
  intros H. rewrite Z.mod_small by lia. lia.
Qed.

Lemma wrap64_range z : GoInt.inRange (GoInt.wrap64 z).
Proof.
  unfold GoInt.inRange, GoInt.minInt64, GoInt.maxInt64, GoInt.wrap64.
  change (2 ^ 63) with 9223372036854775808.
  change (2 ^ 64) with 18446744073709551616.
  pose proof (Z.mod_pos_bound (z + 9223372036854775808) 18446744073709551616
                ltac:(lia)).
  lia.
Qed.

(** The counters after the loop, from their values before it. *)
Lemma fold_accumulate_sums msgs a :
  InputTokens a = GoInt.wrap64 (InputTokens a) ->
  OutputTokens a = GoInt.wrap64 (OutputTokens a) ->
  TotalTurns a = GoInt.wrap64 (TotalTurns a) ->
  InputTokens (fold_left accumulate msgs a)
  = GoInt.wrap64 (InputTokens a + sumInput msgs)
  /\ OutputTokens (fold_left accumulate msgs a)
     = GoInt.wrap64 (OutputTokens a + sumOutput msgs)
  /\ TotalTurns (fold_left accumulate msgs a)
     = GoInt.wrap64 (TotalTurns a + Z.of_nat (List.length (agentTurns msgs))).
Proof.
  unfold sumInput, sumOutput, agentTurns.
  revert a. induction msgs as [|msg msgs IH]; intros a Hi Ho Ht; simpl.
  - rewrite !Z.add_0_r. auto.
  - destruct (isAgentTurn msg) eqn:E.
    + rewrite accumulate_agent by exact E.
      match goal with |- context [fold_left accumulate msgs ?b] =>
        destruct (IH b) as (-> & -> & ->) end;
        try (simpl; unfold GoInt.add, GoInt.incr; symmetry;
             apply wrap64_inRange, wrap64_range).
      simpl. unfold GoInt.add, GoInt.incr. rewrite !wrap64_add_l.
      repeat split; f_equal; lia.
    + rewrite accumulate_other by exact E. apply IH; assumption.
Qed.

Lemma reparses_from_parts rt os ovr p sid a f data session :
  tooShort sid = false ->
  value (locateSessionFile rt os ovr p sid) = f -> f <> "" ->
  cacheHit (stat os f) a = false ->
  readFile os f = Some data -> json_Unmarshal rt data = Some session ->
  reparses rt os ovr p sid a (stat os f) session.
Proof.
  intros Hs Hf Hne Hc Hr Hj. split; [exact Hs|].
  exists f, data. repeat split; assumption.
Qed.

(** X1. Whatever error the refresh returns, the snapshot it returns is
    the one it received. *)
Theorem error_leaves_snapshot_unchanged rt os ovr p sid a e :
  fst (value (UpdateGeminiAnalyticsFromDisk rt os ovr p sid a)) = Some e ->
  snd (value (UpdateGeminiAnalyticsFromDisk rt os ovr p sid a)) = a.
Proof.
  destruct (tooShort sid) eqn:Hs.
  - unfold UpdateGeminiAnalyticsFromDisk. rewrite Hs. reflexivity.
  - rewrite Update_unfold by exact Hs. cbv zeta.
    destruct (String.eqb _ ""); [reflexivity|].
    destruct (cacheHit _ a); [reflexivity|].
    destruct (readFile os _) as [data|]; [|reflexivity].
    destruct (json_Unmarshal rt data); [discriminate|reflexivity].
Qed.

Lemma error_leaves_snapshot_unchanged_witness :
  fst (value (UpdateGeminiAnalyticsFromDisk Scenario.rt Scenario.osMalformed ""
                Scenario.project Scenario.sid Scenario.afterThree))
  = Some ErrParseSession
  /\ snd (value (UpdateGeminiAnalyticsFromDisk Scenario.rt Scenario.osMalformed
                   "" Scenario.project Scenario.sid Scenario.afterThree))
     = Scenario.afterThree.
Proof.
  split; [reflexivity|].
  apply (error_leaves_snapshot_unchanged Scenario.rt Scenario.osMalformed ""
           Scenario.project Scenario.sid Scenario.afterThree ErrParseSession).
  reflexivity.
Defined.

Lemma reparses_counters rt os ovr p sid a info session :
  reparses rt os ovr p sid a info session ->
  let r := snd (value (UpdateGeminiAnalyticsFromDisk rt os ovr p sid a)) in
  InputTokens r = GoInt.wrap64 (sumInput (sess_Messages session))
  /\ OutputTokens r = GoInt.wrap64 (sumOutput (sess_Messages session))
  /\ TotalTurns r
     = GoInt.wrap64 (Z.of_nat (List.length (agentTurns (sess_Messages session)))).
Proof.
  intros Hre r. subst r.
  destruct (reparses_result _ _ _ _ _ _ _ _ Hre) as [-> _]. cbn [snd].
  destruct (applySession_fold rt info session a)
    as (a0 & -> & Hi & Ho & Ht & _).
  destruct (fold_accumulate_sums (sess_Messages session) a0) as (-> & -> & ->);
    try (rewrite ?Hi, ?Ho, ?Ht; reflexivity).
  rewrite Hi, Ho, Ht. repeat split; reflexivity.
Qed.

(** X6. After a refresh that decodes a transcript, the input tokens, the
    output tokens and the turn count are the sums over the agent turns,
    wrapped to 64 bits; they are the exact sums when these fit. *)
Theorem counters_are_sums_over_agent_turns rt os ovr p sid a info session :
  reparses rt os ovr p sid a info session ->
  let r := snd (value (UpdateGeminiAnalyticsFromDisk rt os ovr p sid a)) in
  let msgs := sess_Messages session in
  let turns := Z.of_nat (List.length (agentTurns msgs)) in
  InputTokens r = GoInt.wrap64 (sumInput msgs)
  /\ OutputTokens r = GoInt.wrap64 (sumOutput msgs)
  /\ TotalTurns r = GoInt.wrap64 turns
  /\ (GoInt.inRange (sumInput msgs) -> InputTokens r = sumInput msgs)
  /\ (GoInt.inRange (sumOutput msgs) -> OutputTokens r = sumOutput msgs)
  /\ (GoInt.inRange turns -> TotalTurns r = turns).
Proof.
  intros Hre r msgs turns.
  destruct (reparses_counters _ _ _ _ _ _ _ _ Hre) as (Hi & Ho & Ht).
  fold r in Hi, Ho, Ht. fold msgs in Hi, Ho, Ht. fold turns in Ht.
  rewrite Hi, Ho, Ht.
  repeat split; try reflexivity; apply wrap64_inRange.
Qed.

Lemma counters_are_sums_over_agent_turns_witness :
  sumInput (sess_Messages Scenario.threeTurns) = 60
  /\ InputTokens (snd (value (UpdateGeminiAnalyticsFromDisk Scenario.rt
                               Scenario.osThree "" Scenario.project
                               Scenario.sid Scenario.blank))) = 60.
Proof.
  split; [reflexivity|].
  pose proof (counters_are_sums_over_agent_turns Scenario.rt Scenario.osThree
                "" Scenario.project Scenario.sid Scenario.blank
                (Some Scenario.mtime_new) Scenario.threeTurns
                (Scenario_reparses_three Scenario.blank eq_refl))
    as (_ & _ & _ & H & _).
  apply H. vm_compute. split; discriminate.
Defined.

Lemma fold_accumulate_frame msgs a :
  StartTime (fold_left accumulate msgs a) = StartTime a
  /\ LastActive (fold_left accumulate msgs a) = LastActive a
  /\ Duration (fold_left accumulate msgs a) = Duration a
  /\ LastFileModTime (fold_left accumulate msgs a) = LastFileModTime a.
Proof.
  revert a. induction msgs as [|msg msgs IH]; intros a; simpl; [auto|].
  destruct (IH (accumulate a msg)) as (-> & -> & -> & ->).
  apply accumulate_frame.
Qed.

(** With an agent turn in the list, the context estimate the loop starts
    from is overwritten. *)
Lemma fold_accumulate_forgets_context msgs a c :
  agentTurns msgs <> [] ->
  fold_left accumulate msgs (set_CurrentContextTokens c a)
  = fold_left accumulate msgs a.
Proof.
  revert a. induction msgs as [|msg msgs IH]; intros a Hne; simpl in *.
  - congruence.
  - destruct (isAgentTurn msg) eqn:E.
    + rewrite !accumulate_agent by exact E. reflexivity.
    + rewrite !accumulate_other by exact E. apply IH. exact Hne.
Qed.

Lemma fold_accumulate_own_context msgs a :
  fold_left accumulate msgs
    (set_CurrentContextTokens
       (CurrentContextTokens (fold_left accumulate msgs a)) a)
  = fold_left accumulate msgs a.
Proof.
  destruct (agentTurns msgs) as [|g gs] eqn:Hag.
  - rewrite !(fold_accumulate_agentTurns msgs), Hag. simpl.
    destruct a; reflexivity.
  - apply fold_accumulate_forgets_context. rewrite Hag. discriminate.
Qed.

(** The snapshot the loop of [applySession] starts from, field by field. *)
Lemma applySession_start rt info session a :
  applySession rt info session a
  = fold_left accumulate (sess_Messages session)
      (mkAnalytics 0 0 (CurrentContextTokens a) 0 ""
         (parseTimestamp rt (sess_StartTime session))
         (parseTimestamp rt (sess_LastUpdated session))
         (if negb (GoTime.IsZero (parseTimestamp rt (sess_StartTime session)))
             && negb (GoTime.IsZero (parseTimestamp rt (sess_LastUpdated session)))
          then GoTime.Sub (parseTimestamp rt (sess_LastUpdated session))
                 (parseTimestamp rt (sess_StartTime session))
          else Duration a)
         (match info with Some m => m | None => LastFileModTime a end)).
Proof.
  unfold applySession. f_equal.
  destruct info; destruct (negb _ && negb _); reflexivity.
Qed.

(** Decoding the same transcript a second time changes nothing. *)
Lemma applySession_idempotent rt info session a :
  applySession rt info session (applySession rt info session a)
  = applySession rt info session a.
Proof.
  rewrite (applySession_start rt info session (applySession rt info session a)).
  rewrite (applySession_start rt info session a).
  set (st := parseTimestamp rt (sess_StartTime session)).
  set (lu := parseTimestamp rt (sess_LastUpdated session)).
  set (dur := if negb (GoTime.IsZero st) && negb (GoTime.IsZero lu)
              then GoTime.Sub lu st else Duration a).
  set (fp := match info with Some m => m | None => LastFileModTime a end).
  set (b := mkAnalytics 0 0 (CurrentContextTokens a) 0 "" st lu dur fp).
  destruct (fold_accumulate_frame (sess_Messages session) b)
    as (_ & _ & Hdur & Hfp).
  rewrite Hdur, Hfp.
  replace (if negb (GoTime.IsZero st) && negb (GoTime.IsZero lu)
           then GoTime.Sub lu st else Duration b) with dur
    by (subst dur; destruct (negb _ && negb _); reflexivity).
  replace (match info with Some m => m | None => LastFileModTime b end) with fp
    by (subst fp; destruct info; reflexivity).
  exact (fold_accumulate_own_context (sess_Messages session) b).
Qed.

(** X2. On an unchanged file system a second refresh returns what the
    first returned, error or not, and the same snapshot: the refresh is
    idempotent, also where nothing is cached (no stat result, or a
    modification time equal to Go's zero time). *)
Theorem refresh_is_idempotent rt os ovr p sid a :
  let first := value (UpdateGeminiAnalyticsFromDisk rt os ovr p sid a) in
  value (UpdateGeminiAnalyticsFromDisk rt os ovr p sid (snd first)) = first.
Proof.
  cbv zeta. destruct (tooShort sid) eqn:Hs.
  - unfold UpdateGeminiAnalyticsFromDisk. rewrite Hs. reflexivity.
  - rewrite !Update_unfold by exact Hs. cbv zeta.
    set (f := value (locateSessionFile rt os ovr p sid)).
    destruct (String.eqb f "") eqn:Hf; [reflexivity|].
    destruct (cacheHit (stat os f) a) eqn:Hc.
    + rewrite !value_pair. cbn [snd]. rewrite Hc. reflexivity.
    + destruct (readFile os f) as [data|] eqn:Hr.
      * destruct (json_Unmarshal rt data) as [session|] eqn:Hj.
        -- rewrite !value_pair. cbn [snd].
           destruct (cacheHit (stat os f) (applySession rt (stat os f) session a));
             rewrite value_pair; [reflexivity|].
           rewrite applySession_idempotent. reflexivity.
        -- rewrite !value_pair. cbn [snd]. rewrite Hc. reflexivity.
      * rewrite !value_pair. cbn [snd]. rewrite Hc. reflexivity.
Qed.

(** X3. The snapshot carries the fingerprint of an earlier refresh and the
    located transcript now has another modification time: the refresh
    decodes the file once, the fingerprint becomes the new modification
    time and the counters are those of the new content. *)
Theorem changed_mtime_reparses rt os ovr p sid a f m' data session :
  tooShort sid = false ->
  value (locateSessionFile rt os ovr p sid) = f -> f <> "" ->
  stat os f = Some m' -> m' <> LastFileModTime a ->
  readFile os f = Some data -> json_Unmarshal rt data = Some session ->
  let r := UpdateGeminiAnalyticsFromDisk rt os ovr p sid a in
  fst (value r) = None
  /\ countParses (trace r) = 1%nat
  /\ LastFileModTime (snd (value r)) = m'
  /\ InputTokens (snd (value r)) = GoInt.wrap64 (sumInput (sess_Messages session))
  /\ OutputTokens (snd (value r)) = GoInt.wrap64 (sumOutput (sess_Messages session)).
Proof.
  intros Hs Hf Hne Hst Hm Hr Hj r.
  assert (Hc : cacheHit (stat os f) a = false).
  { rewrite Hst. unfold cacheHit, GoTime.Equal.
    apply Z.eqb_neq in Hm. rewrite Hm. apply andb_false_r. }
  pose proof (reparses_from_parts rt os ovr p sid a f data session
                Hs Hf Hne Hc Hr Hj) as Hre.
  destruct (reparses_result _ _ _ _ _ _ _ _ Hre) as (Hv & _ & Hp).
  destruct (reparses_counters _ _ _ _ _ _ _ _ Hre) as (Hi & Ho & _).
  subst r. rewrite Hv in *. cbn [fst snd] in *.
  repeat split; try assumption.
  rewrite Hst. apply applySession_LastFileModTime.
Qed.

Lemma changed_mtime_reparses_witness :
  stat Scenario.osNoAgent Scenario.newer = Some (Scenario.mtime_new + 1000000)
  /\ LastFileModTime Scenario.afterThree = Scenario.mtime_new
  /\ LastFileModTime
       (snd (value (UpdateGeminiAnalyticsFromDisk Scenario.rt Scenario.osNoAgent
                      "" Scenario.project Scenario.sid Scenario.afterThree)))
     = Scenario.mtime_new + 1000000.
Proof.
  split; [reflexivity|]. split; [reflexivity|].
  refine (proj1 (proj2 (proj2
    (changed_mtime_reparses Scenario.rt Scenario.osNoAgent "" Scenario.project
       Scenario.sid Scenario.afterThree Scenario.newer
       (Scenario.mtime_new + 1000000) "transcript without agent turn"
       Scenario.noAgentTurn _ _ _ _ _ _ _))));
    try reflexivity; discriminate.
Defined.

(** X4. Only a non-zero fingerprint saves the read.  When the snapshot has
    no fingerprint, when [os.Stat] fails on the located file, or when the
    file's modification time is Go's zero time, every refresh reads the
    file. *)
Theorem no_fingerprint_no_shortcut rt os ovr p sid a f :
  tooShort sid = false ->
  value (locateSessionFile rt os ovr p sid) = f -> f <> "" ->
  LastFileModTime a = GoTime.zero \/ stat os f = None
  \/ stat os f = Some GoTime.zero ->
  countReads (trace (UpdateGeminiAnalyticsFromDisk rt os ovr p sid a)) = 1%nat.
Proof.
  intros Hs Hf Hne Hcases.
  assert (Hc : cacheHit (stat os f) a = false).
  { unfold cacheHit. destruct Hcases as [H|[H|H]].
    - rewrite H. destruct (stat os f); reflexivity.
    - rewrite H. reflexivity.
    - rewrite H. unfold GoTime.zero, GoTime.IsZero, GoTime.Equal.
      destruct (Z.eqb_spec (LastFileModTime a) 0) as [->|Hnz]; [reflexivity|].
      cbn [negb andb]. apply Z.eqb_neq. congruence. }
  destruct (onlyLocates_counts _ (locateSessionFile_onlyLocates rt os ovr p sid))
    as [Hreads _].
  rewrite Update_unfold by exact Hs. cbv zeta. rewrite Hf.
  apply String.eqb_neq in Hne. rewrite Hne, Hc.
  destruct (readFile os f) as [data|];
    [destruct (json_Unmarshal rt data)|];
    rewrite trace_pair, countReads_app, Hreads; reflexivity.
Qed.

Lemma no_fingerprint_no_shortcut_witness :
  LastFileModTime Scenario.blank = GoTime.zero
  /\ countReads (trace (UpdateGeminiAnalyticsFromDisk Scenario.rt
                          Scenario.osThree "" Scenario.project Scenario.sid
                          Scenario.blank)) = 1%nat.
Proof.
  split; [reflexivity|].
  apply (no_fingerprint_no_shortcut Scenario.rt Scenario.osThree ""
           Scenario.project Scenario.sid Scenario.blank Scenario.newer);
    try reflexivity; [discriminate|left; reflexivity].
Defined.

(** X5. When [os.Stat] fails on the located file and the file can still
    be read and decoded, the refresh succeeds and the fingerprint stays
    what it was: nothing is recorded for the next call. *)
Theorem stat_failure_keeps_fingerprint rt os ovr p sid a session :
  reparses rt os ovr p sid a None session ->
  let r := value (UpdateGeminiAnalyticsFromDisk rt os ovr p sid a) in
  fst r = None /\ LastFileModTime (snd r) = LastFileModTime a.
Proof.
  intros Hre r. subst r.
  destruct (reparses_result _ _ _ _ _ _ _ _ Hre) as [-> _]. cbn [fst snd].
  split; [reflexivity|].
  unfold applySession. rewrite fold_accumulate_LastFileModTime.
  destruct (negb _ && negb _); reflexivity.
Qed.

(** X7. The start and last-active times of a decoded transcript replace
    those of the snapshot, as the zero time when a timestamp parses under
    neither layout.  The duration is their saturated difference when both
    are non-zero, and keeps its earlier value otherwise. *)
Theorem duration_needs_both_timestamps rt os ovr p sid a info session :
  reparses rt os ovr p sid a info session ->
  let r := snd (value (UpdateGeminiAnalyticsFromDisk rt os ovr p sid a)) in
  (forall s, time_Parse rt GoTime.RFC3339 s = None ->
             time_Parse rt GoTime.millisLayout s = None ->
             parseTimestamp rt s = GoTime.zero)
  /\ StartTime r = parseTimestamp rt (sess_StartTime session)
  /\ LastActive r = parseTimestamp rt (sess_LastUpdated session)
  /\ (StartTime r <> GoTime.zero -> LastActive r <> GoTime.zero ->
      Duration r = GoTime.Sub (LastActive r) (StartTime r))
  /\ (StartTime r = GoTime.zero \/ LastActive r = GoTime.zero ->
      Duration r = Duration a).
Proof.
  intros Hre r. subst r.
  destruct (reparses_result _ _ _ _ _ _ _ _ Hre) as [-> _]. cbn [snd].
  split.
  { intros s H1 H2. unfold parseTimestamp, parseOrZero. rewrite H1, H2.
    reflexivity. }
  unfold applySession.
  set (st := parseTimestamp rt (sess_StartTime session)).
  set (lu := parseTimestamp rt (sess_LastUpdated session)).
  match goal with |- context [fold_left accumulate ?l ?s] =>
    destruct (fold_accumulate_frame l s) as (-> & -> & -> & _) end.
  unfold GoTime.IsZero, GoTime.zero.
  destruct (Z.eqb_spec st 0) as [Hst|Hst];
    destruct (Z.eqb_spec lu 0) as [Hlu|Hlu]; destruct info; simpl;
    repeat split; try reflexivity; try tauto; try congruence;
    intros [H|H]; congruence.
Qed.

Lemma stat_failure_keeps_fingerprint_witness :
  stat Cases.osNoStat Scenario.newer = None
  /\ (let r := value (UpdateGeminiAnalyticsFromDisk Scenario.rt Cases.osNoStat ""
                        Scenario.project Scenario.sid Scenario.afterThree) in
      fst r = None /\ LastFileModTime (snd r) = Scenario.mtime_new).
Proof.
  split; [reflexivity|].
  apply (stat_failure_keeps_fingerprint Scenario.rt Cases.osNoStat ""
           Scenario.project Scenario.sid Scenario.afterThree Scenario.threeTurns).
  split; [reflexivity|].
  exists Scenario.newer, "transcript with three agent turns".
  repeat split; try reflexivity. discriminate.
Defined.

Lemma duration_needs_both_timestamps_witness :
  let r := snd (value (UpdateGeminiAnalyticsFromDisk Scenario.rt Scenario.osThree
                         "" Scenario.project Scenario.sid Scenario.blank)) in
  StartTime r = Scenario.t_start /\ LastActive r = Scenario.t_updated
  /\ Duration r = 300250000000.
Proof.
  pose proof (duration_needs_both_timestamps Scenario.rt Scenario.osThree ""
                Scenario.project Scenario.sid Scenario.blank
                (Some Scenario.mtime_new) Scenario.threeTurns
                (Scenario_reparses_three Scenario.blank eq_refl))
    as (_ & Hst & Hla & Hdur & _).
  split; [exact Hst|]. split; [exact Hla|].
  rewrite Hdur; [reflexivity|discriminate|discriminate].
Defined.

(* ===================================================================== *)
(** ** Further properties of the search for the transcript *)
(* ===================================================================== *)

Lemma newestLoop_trace os files nf nt :
  trace (newestLoop os files nf nt) = List.map EvStat files.
Proof.
  revert nf nt. induction files as [|f files IH]; intros nf nt; simpl;
    [reflexivity|].
  rewrite trace_bind. unfold Stat at 1. rewrite trace_pair. simpl. f_equal.
  unfold Stat, value; simpl.
  destruct (stat os f) as [m|]; [destruct (GoTime.After m nt)|]; apply IH.
Qed.

(** X10. [findNewestFile] globs once.  With fewer than two matches it
    asks for no modification time at all, so a single match is returned
    even if [os.Stat] would fail on it; with two or more it stats every
    match once, in the order of enumeration. *)
Theorem findNewestFile_trace os pattern :
  trace (findNewestFile os pattern) =
    EvGlob pattern ::
    match glob os pattern with
    | [] => []
    | [file] => []
    | files => List.map EvStat files
    end.
Proof.
  unfold findNewestFile. rewrite trace_bind. unfold Glob at 1.
  rewrite trace_pair. simpl. f_equal.
  change (value (Glob os pattern)) with (glob os pattern).
  destruct (glob os pattern) as [|f [|g files]]; try reflexivity.
  apply newestLoop_trace.
Qed.

Lemma findNewestFile_member os pattern :
  value (findNewestFile os pattern) = ""
  \/ List.In (value (findNewestFile os pattern)) (glob os pattern).
Proof.
  rewrite findNewestFile_value.
  destruct (glob os pattern) as [|f1 [|f2 files]] eqn:Hglob.
  - left; reflexivity.
  - right; left; reflexivity.
  - destruct (newestLoop_spec os (f1 :: f2 :: files) "" GoTime.zero)
      as [[Hr _]|(before & after & m & Hfiles & _)].
    + left. exact Hr.
    + right. rewrite Hfiles at 2. apply List.in_or_app. right. left. reflexivity.
Qed.

(** X11. [findNewestFile] returns the empty string or one of the matches.
    With two or more matches of which none has a modification time after
    Go's zero time it returns the empty string, and the refresh then
    turns to the scan of all projects although the expected directory
    holds matches. *)
Theorem findNewestFile_returns_a_match rt os ovr p sid pattern :
  let r := value (findNewestFile os pattern) in
  (r = "" \/ List.In r (glob os pattern))
  /\ ((2 <= List.length (glob os pattern))%nat ->
      (forall g mg, List.In g (glob os pattern) -> stat os g = Some mg -> mg <= 0) ->
      r = ""
      /\ (pattern = expectedPattern rt os ovr p sid ->
          value (locateSessionFile rt os ovr p sid)
          = value (findGeminiSessionInAllProjects rt os ovr sid))).
Proof.
  cbv zeta. split; [apply findNewestFile_member|].
  intros Hlen Hnone.
  assert (Hr : value (findNewestFile os pattern) = "").
  { rewrite findNewestFile_value.
    destruct (glob os pattern) as [|f1 [|f2 files]] eqn:Hglob;
      [reflexivity|simpl in Hlen; lia|].
    destruct (newestLoop_spec os (f1 :: f2 :: files) "" GoTime.zero)
      as [[Hr _]|(before & after & m & Hfiles & Hm & Hlt & _)]; [exact Hr|].
    exfalso.
    assert (Hin : List.In (value (newestLoop os (f1 :: f2 :: files) "" GoTime.zero))
                    (f1 :: f2 :: files)).
    { rewrite Hfiles at 2. apply List.in_or_app. right. left. reflexivity. }
    specialize (Hnone _ _ Hin Hm). unfold GoTime.zero in Hlt. lia. }
  split; [exact Hr|].
  intros ->. rewrite locateSessionFile_value. cbv zeta. rewrite Hr. reflexivity.
Qed.

Lemma findNewestFile_returns_a_match_witness :
  glob Cases.osDangling Scenario.pattern = [Scenario.older; Scenario.newer]
  /\ stat Cases.osDangling Scenario.older = None
  /\ stat Cases.osDangling Scenario.newer = None
  /\ value (findNewestFile Cases.osDangling Scenario.pattern) = "".
Proof.
  split; [reflexivity|]. split; [reflexivity|]. split; [reflexivity|].
  refine (proj1 (proj2 (findNewestFile_returns_a_match Scenario.rt
            Cases.osDangling "" Scenario.project Scenario.sid Scenario.pattern)
            _ _)).
  - simpl. lia.
  - intros g mg _ Hst. discriminate Hst.
Defined.

Lemma scanProjects_no_match rt os tmpDir sid entries nf nt :
  allProjectMatches rt os tmpDir sid entries = [] ->
  value (scanProjects rt os tmpDir (sessionPattern sid) entries nf nt) = nf.
Proof.
  unfold allProjectMatches.
  induction entries as [|entry rest IH]; intros Hnone; [reflexivity|].
  rewrite scanProjects_value_cons. simpl in Hnone.
  destruct (entry_IsDir entry); simpl negb; cbv iota; [|exact (IH Hnone)].
  simpl in Hnone. apply List.app_eq_nil in Hnone. destruct Hnone as [Hhere Hrest].
  cbv zeta. rewrite findNewestFile_value, Hhere. simpl. exact (IH Hrest).
Qed.

Lemma scanProjects_member rt os tmpDir sid entries nf nt :
  let r := value (scanProjects rt os tmpDir (sessionPattern sid) entries nf nt) in
  r = nf \/ List.In r (allProjectMatches rt os tmpDir sid entries).
Proof.
  cbv zeta. unfold allProjectMatches. revert nf nt.
  induction entries as [|entry rest IH]; intros nf nt; [left; reflexivity|].
  rewrite scanProjects_value_cons. simpl List.filter.
  destruct (entry_IsDir entry); simpl negb; cbv iota; [|apply IH].
  simpl List.flat_map. cbv zeta.
  set (pat := projectPattern rt tmpDir sid entry).
  assert (Hskip :
    value (scanProjects rt os tmpDir (sessionPattern sid) rest nf nt) = nf \/
    List.In (value (scanProjects rt os tmpDir (sessionPattern sid) rest nf nt))
      (glob os pat ++ List.flat_map
         (fun e => glob os (projectPattern rt tmpDir sid e))
         (List.filter entry_IsDir rest))).
  { destruct (IH nf nt) as [H|H]; [left; exact H|].
    right. apply List.in_or_app. right. exact H. }
  destruct (nonEmpty (value (findNewestFile os pat))) eqn:Hne; [|exact Hskip].
  destruct (stat os (value (findNewestFile os pat))) as [m|]; [|exact Hskip].
  destruct (nt <? m); [|exact Hskip].
  right. destruct (IH (value (findNewestFile os pat)) m) as [H|H].
  - rewrite H.
    destruct (findNewestFile_member os pat) as [Hempty|Hin].
    + apply nonEmpty_true in Hne. congruence.
    + apply List.in_or_app. left. exact Hin.
  - apply List.in_or_app. right. exact H.
Qed.

Lemma full_scan_unlisted_root rt os ovr sid :
  readDir os (projectsRoot rt os ovr) = None ->
  value (findGeminiSessionInAllProjects rt os ovr sid) = "".
Proof.
  intros Hdir. unfold findGeminiSessionInAllProjects.
  destruct (tooShort sid); [reflexivity|].
  rewrite !value_bind. fold (projectsRoot rt os ovr).
  unfold ReadDir at 1. rewrite value_pair, Hdir. reflexivity.
Qed.

Lemma full_scan_no_match rt os ovr sid entries :
  readDir os (projectsRoot rt os ovr) = Some entries ->
  allProjectMatches rt os (projectsRoot rt os ovr) sid entries = [] ->
  value (findGeminiSessionInAllProjects rt os ovr sid) = "".
Proof.
  intros Hdir Hnone. destruct (tooShort sid) eqn:Hs.
  - unfold findGeminiSessionInAllProjects. rewrite Hs. reflexivity.
  - rewrite (findGeminiSessionInAllProjects_value rt os ovr sid entries Hs Hdir).
    apply scanProjects_no_match. exact Hnone.
Qed.

(** X12. The scan of all projects returns the empty string or a match of
    the pattern in the [chats] directory of one of the directory entries
    of the root; it returns the empty string when the root cannot be
    listed and when no project directory holds a match. *)
Theorem full_scan_returns_a_project_match rt os ovr sid :
  let root := projectsRoot rt os ovr in
  let r := value (findGeminiSessionInAllProjects rt os ovr sid) in
  (r = "" \/ exists entries, readDir os root = Some entries /\
                List.In r (allProjectMatches rt os root sid entries))
  /\ (readDir os root = None -> r = "")
  /\ (forall entries, readDir os root = Some entries ->
        allProjectMatches rt os root sid entries = [] -> r = "").
Proof.
  cbv zeta. split; [|split].
  - destruct (readDir os (projectsRoot rt os ovr)) as [entries|] eqn:Hdir.
    + destruct (tooShort sid) eqn:Hs.
      * left. unfold findGeminiSessionInAllProjects. rewrite Hs. reflexivity.
      * rewrite (findGeminiSessionInAllProjects_value rt os ovr sid entries Hs Hdir).
        destruct (scanProjects_member rt os (projectsRoot rt os ovr) sid entries
                    "" GoTime.zero) as [H|H]; [left; exact H|].
        right. exists entries. split; [reflexivity|exact H].
    + left. apply full_scan_unlisted_root. exact Hdir.
  - apply full_scan_unlisted_root.
  - apply full_scan_no_match.
Qed.

(** X8. Nothing is found where expected and the scan of all projects
    comes back empty, because the root cannot be listed or because no
    project directory holds a match: the refresh returns the not-found
    error with the snapshot untouched, and reads and decodes nothing. *)
Theorem nothing_found_anywhere rt os ovr p sid a :
  tooShort sid = false ->
  value (findNewestFile os (expectedPattern rt os ovr p sid)) = "" ->
  readDir os (projectsRoot rt os ovr) = None
  \/ (exists entries, readDir os (projectsRoot rt os ovr) = Some entries /\
        allProjectMatches rt os (projectsRoot rt os ovr) sid entries = []) ->
  let r := UpdateGeminiAnalyticsFromDisk rt os ovr p sid a in
  value r = (Some ErrSessionFileNotFound, a)
  /\ countReads (trace r) = 0%nat /\ countParses (trace r) = 0%nat.
Proof.
  intros Hs Hexp Hscan r.
  assert (Hloc : value (locateSessionFile rt os ovr p sid) = "").
  { rewrite locateSessionFile_value. cbv zeta. rewrite Hexp. simpl.
    destruct Hscan as [H|(entries & Hd & Hn)];
      [apply full_scan_unlisted_root; exact H
      |apply (full_scan_no_match rt os ovr sid entries); assumption]. }
  subst r. rewrite Update_unfold by exact Hs. cbv zeta. rewrite Hloc. simpl.
  rewrite ?value_pair, ?trace_pair.
  split; [reflexivity|].
  apply onlyLocates_counts, locateSessionFile_onlyLocates.
Qed.

Lemma nothing_found_anywhere_witness :
  value (findNewestFile Cases.osNothing
           (expectedPattern Scenario.rt Cases.osNothing "" Scenario.project
              Scenario.sid)) = ""
  /\ readDir Cases.osNothing (projectsRoot Scenario.rt Cases.osNothing "") = None
  /\ value (UpdateGeminiAnalyticsFromDisk Scenario.rt Cases.osNothing ""
              Scenario.project Scenario.sid Scenario.afterThree)
     = (Some ErrSessionFileNotFound, Scenario.afterThree).
Proof.
  split; [reflexivity|]. split; [reflexivity|].
  apply (nothing_found_anywhere Scenario.rt Cases.osNothing "" Scenario.project
           Scenario.sid Scenario.afterThree);
    [reflexivity|reflexivity|left; reflexivity].
Defined.

Lemma full_scan_returns_a_project_match_witness :
  readDir Scenario.osMoved (projectsRoot Scenario.rt Scenario.osMoved "")
  = Some [ mkDirEntry "aaaa" true; mkDirEntry "bin" false;
           mkDirEntry "bbbb" true; mkDirEntry "9f2c" true ]
  /\ value (findGeminiSessionInAllProjects Scenario.rt Scenario.osMoved ""
              Scenario.sid) = Scenario.otherB
  /\ (value (findGeminiSessionInAllProjects Scenario.rt Scenario.osMoved ""
               Scenario.sid) = ""
      \/ exists entries,
           readDir Scenario.osMoved (projectsRoot Scenario.rt Scenario.osMoved "")
           = Some entries
           /\ List.In (value (findGeminiSessionInAllProjects Scenario.rt
                                Scenario.osMoved "" Scenario.sid))
                (allProjectMatches Scenario.rt Scenario.osMoved
                   (projectsRoot Scenario.rt Scenario.osMoved "") Scenario.sid
                   entries)).
Proof.
  split; [reflexivity|]. split; [reflexivity|].
  exact (proj1 (full_scan_returns_a_project_match Scenario.rt Scenario.osMoved
                  "" Scenario.sid)).
Defined.

Lemma globsOf_app (t1 t2 : list Event) :
  globsOf (t1 ++ t2) = (globsOf t1 ++ globsOf t2)%list.
Proof. apply List.filter_app. Qed.

Lemma globsOf_stats files : globsOf (List.map EvStat files) = [].
Proof. induction files as [|f files IH]; [reflexivity|exact IH]. Qed.

Lemma findNewestFile_globs os pattern :
  globsOf (trace (findNewestFile os pattern)) = [EvGlob pattern].
Proof.
  unfold findNewestFile. rewrite trace_bind. unfold Glob at 1.
  rewrite trace_pair, globsOf_app. simpl. f_equal.
  change (value (Glob os pattern)) with (glob os pattern).
  destruct (glob os pattern) as [|f [|g files]]; try reflexivity.
  rewrite newestLoop_trace. apply globsOf_stats.
Qed.

Lemma noReadDir_app (t1 t2 : list Event) :
  noReadDir t1 -> noReadDir t2 -> noReadDir (t1 ++ t2).
Proof. intros H1 H2. apply List.Forall_app. auto. Qed.

Lemma findNewestFile_noReadDir os pattern :
  noReadDir (trace (findNewestFile os pattern)).
Proof.
  unfold findNewestFile. rewrite trace_bind. apply noReadDir_app.
  - repeat constructor.
  - change (value (Glob os pattern)) with (glob os pattern).
    destruct (glob os pattern) as [|f [|g files]]; try constructor.
    rewrite newestLoop_trace. apply List.Forall_forall.
    intros e He. apply List.in_map_iff in He. destruct He as (x & <- & _).
    reflexivity.
Qed.

Lemma GetGeminiSessionsDir_trace rt os ovr p :
  noReadDir (trace (GetGeminiSessionsDir rt os ovr p))
  /\ globsOf (trace (GetGeminiSessionsDir rt os ovr p)) = [].
Proof.
  assert (Hc : trace (GetGeminiConfigDir rt os ovr) = []
               \/ trace (GetGeminiConfigDir rt os ovr) = [EvUserHomeDir]).
  { unfold GetGeminiConfigDir. destruct (nonEmpty ovr); [left; reflexivity|].
    right. reflexivity. }
  assert (Hh : trace (HashProjectPath rt os p) = [EvAbs p]
               \/ exists a, trace (HashProjectPath rt os p)
                            = [EvAbs p; EvEvalSymlinks a]).
  { unfold HashProjectPath, Abs, EvalSymlinks, bind, ret, trace.
    destruct (abs os p) as [a|]; [right; exists a; reflexivity|left; reflexivity]. }
  unfold GetGeminiSessionsDir. rewrite !trace_bind.
  assert (Hlast : forall h c,
            trace (if String.eqb h "" then ret ""
                   else ret (Join rt [c; "tmp"; h; "chats"])) = []).
  { intros h c. destruct (String.eqb h ""); reflexivity. }
  rewrite Hlast, List.app_nil_r.
  destruct Hc as [-> | ->]; destruct Hh as [-> | [a ->]];
    split; try reflexivity; repeat constructor.
Qed.

(** X9. A file found in the directory the project path hashes to ends
    the search: the root directory is not listed and the only glob is the
    one of the expected pattern, whatever the other project directories
    hold. *)
Theorem expected_hit_skips_full_scan rt os ovr p sid :
  value (findNewestFile os (expectedPattern rt os ovr p sid)) <> "" ->
  let loc := locateSessionFile rt os ovr p sid in
  value loc = value (findNewestFile os (expectedPattern rt os ovr p sid))
  /\ noReadDir (trace loc)
  /\ globsOf (trace loc) = [EvGlob (expectedPattern rt os ovr p sid)].
Proof.
  intros Hne loc. subst loc. split.
  - rewrite locateSessionFile_value. cbv zeta.
    apply String.eqb_neq in Hne. rewrite Hne. reflexivity.
  - unfold locateSessionFile. rewrite !trace_bind.
    fold (expectedPattern rt os ovr p sid).
    apply String.eqb_neq in Hne. rewrite Hne.
    destruct (GetGeminiSessionsDir_trace rt os ovr p) as [Hnr Hg].
    split.
    + repeat apply noReadDir_app; [exact Hnr|apply findNewestFile_noReadDir|].
      constructor.
    + rewrite !globsOf_app, Hg, findNewestFile_globs. reflexivity.
Qed.

Lemma expected_hit_skips_full_scan_witness :
  value (findNewestFile Scenario.osThree
           (expectedPattern Scenario.rt Scenario.osThree "" Scenario.project
              Scenario.sid)) = Scenario.newer
  /\ noReadDir (trace (locateSessionFile Scenario.rt Scenario.osThree ""
                         Scenario.project Scenario.sid))
  /\ globsOf (trace (locateSessionFile Scenario.rt Scenario.osThree ""
                       Scenario.project Scenario.sid))
     = [EvGlob Scenario.pattern].
Proof.
  split; [reflexivity|].
  refine (proj2 (expected_hit_skips_full_scan Scenario.rt Scenario.osThree ""
                   Scenario.project Scenario.sid _)).
  discriminate.
Defined.

Lemma scanProjects_globs rt os tmpDir sid entries nf nt :
  globsOf (trace (scanProjects rt os tmpDir (sessionPattern sid) entries nf nt))
  = List.map (fun entry => EvGlob (projectPattern rt tmpDir sid entry))
      (List.filter entry_IsDir entries).
Proof.
  revert nf nt. induction entries as [|entry rest IH]; intros nf nt;
    [reflexivity|].
  simpl scanProjects. simpl List.filter.
  destruct (entry_IsDir entry); simpl negb; cbv iota; [|apply IH].
  rewrite trace_bind, globsOf_app.
  fold (projectPattern rt tmpDir sid entry).
  rewrite findNewestFile_globs. simpl. f_equal.
  destruct (nonEmpty _); [|apply IH].
  rewrite trace_bind, globsOf_app. unfold Stat at 1. rewrite trace_pair.
  simpl. unfold Stat, value; simpl.
  destruct (stat os _) as [m|]; [destruct (GoTime.After m nt)|]; apply IH.
Qed.

(** X14. The scan of all projects lists the root once and globs once in
    every directory entry of it, in the order of the listing; entries that
    are not directories are never looked into. *)
Theorem full_scan_globs_directories_only rt os ovr sid entries :
  tooShort sid = false ->
  readDir os (projectsRoot rt os ovr) = Some entries ->
  let tr := trace (findGeminiSessionInAllProjects rt os ovr sid) in
  globsOf tr
  = List.map (fun entry => EvGlob (projectPattern rt (projectsRoot rt os ovr) sid entry))
      (List.filter entry_IsDir entries)
  /\ List.filter isReadDir tr = [EvReadDir (projectsRoot rt os ovr)].
Proof.
  intros Hs Hdir tr. subst tr.
  unfold findGeminiSessionInAllProjects. rewrite Hs.
  rewrite !trace_bind. fold (projectsRoot rt os ovr).
  change (value (ReadDir os (projectsRoot rt os ovr)))
    with (readDir os (projectsRoot rt os ovr)).
  change (trace (ReadDir os (projectsRoot rt os ovr)))
    with [EvReadDir (projectsRoot rt os ovr)].
  rewrite Hdir.
  assert (Hcfg : globsOf (trace (GetGeminiConfigDir rt os ovr)) = []
                 /\ List.filter isReadDir (trace (GetGeminiConfigDir rt os ovr)) = []).
  { unfold GetGeminiConfigDir, UserHomeDir, bind, ret.
    destruct (nonEmpty ovr); split; reflexivity. }
  destruct Hcfg as [Hg Hr]. split.
  - rewrite !globsOf_app, Hg. simpl. apply scanProjects_globs.
  - rewrite !List.filter_app, Hr. simpl. f_equal.
    assert (Hscan : forall es nf nt,
              noReadDir (trace (scanProjects rt os (projectsRoot rt os ovr)
                                  (sessionPattern sid) es nf nt))).
    { induction es as [|e es IH]; intros nf nt; [constructor|].
      simpl scanProjects. destruct (negb (entry_IsDir e)); [apply IH|].
      rewrite trace_bind. apply noReadDir_app; [apply findNewestFile_noReadDir|].
      destruct (nonEmpty _); [|apply IH].
      rewrite trace_bind. apply noReadDir_app; [repeat constructor|].
      unfold Stat, value; simpl.
      destruct (stat os _) as [m|]; [destruct (GoTime.After m nt)|]; apply IH. }
    specialize (Hscan entries "" GoTime.zero).
    induction Hscan as [|e tr He _ IH]; [reflexivity|].
    simpl. rewrite He. exact IH.
Qed.

Lemma full_scan_globs_directories_only_witness :
  globsOf (trace (findGeminiSessionInAllProjects Scenario.rt Scenario.osMoved ""
                    Scenario.sid))
  = [ EvGlob "/home/u/.gemini/tmp/aaaa/chats/session-*-4d8fcb4d.json";
      EvGlob "/home/u/.gemini/tmp/bbbb/chats/session-*-4d8fcb4d.json";
      EvGlob "/home/u/.gemini/tmp/9f2c/chats/session-*-4d8fcb4d.json" ].
Proof.
  refine (proj1 (full_scan_globs_directories_only Scenario.rt Scenario.osMoved ""
                   Scenario.sid
                   [ mkDirEntry "aaaa" true; mkDirEntry "bin" false;
                     mkDirEntry "bbbb" true; mkDirEntry "9f2c" true ] _ _));
    reflexivity.
Defined.

(* ===================================================================== *)
(** ** Further properties of the model list *)
(* ===================================================================== *)

(** What a call leaves in the cache and returns beside an error. *)
Lemma GetAvailableGeminiModels_cases w cache :
  let r := GetAvailableGeminiModels w cache in
  (snd (fst r) <> None /\ fst (fst r) = [] /\ snd r = cache)
  \/ (snd (fst r) = None /\ snd r = cache)
  \/ (snd (fst r) = None /\ snd r = mkModelsCache (fst (fst r)) (now w)
      /\ getenv w "GEMINI_MODELS_OVERRIDE" = ""
      /\ getenv w "GOOGLE_API_KEY" <> "").
Proof.
  cbv zeta. unfold GetAvailableGeminiModels.
  destruct (nonEmpty (getenv w "GEMINI_MODELS_OVERRIDE")) eqn:Hov;
    [right; left; split; reflexivity|].
  apply nonEmpty_false in Hov.
  destruct (_ && _); [right; left; split; reflexivity|].
  destruct (String.eqb (getenv w "GOOGLE_API_KEY") "") eqn:Hkey;
    [right; left; split; reflexivity|].
  apply String.eqb_neq in Hkey.
  destruct (http_Get w _) as [resp|];
    [|left; repeat split; discriminate].
  destruct (negb (resp_StatusOK resp)); [left; repeat split; discriminate|].
  destruct (resp_Body resp) as [body|]; [|left; repeat split; discriminate].
  destruct (json_UnmarshalModels w body) as [result|];
    [|left; repeat split; discriminate].
  right; right. repeat split; assumption.
Qed.

(** X16. The cache is written by a successful fetch only, and then holds
    the returned list and the time of the call; that needs an API key and
    no override.  A call that returns an error returns no model and
    leaves the cache as it was. *)
Theorem cache_written_by_successful_fetch_only w cache :
  let r := GetAvailableGeminiModels w cache in
  (snd (fst r) <> None -> fst (fst r) = [] /\ snd r = cache)
  /\ (snd r <> cache ->
      snd (fst r) = None
      /\ geminiModelsCache (snd r) = fst (fst r)
      /\ geminiModelsLast (snd r) = now w
      /\ getenv w "GEMINI_MODELS_OVERRIDE" = ""
      /\ getenv w "GOOGLE_API_KEY" <> "").
Proof.
  cbv zeta.
  destruct (GetAvailableGeminiModels_cases w cache)
    as [(He & Hl & Hc)|[(He & Hc)|(He & Hc & Hov & Hkey)]]; cbv zeta in *.
  - split; [auto|]. intros H. congruence.
  - split; [intros H; congruence|]. intros H. congruence.
  - split; [intros H; congruence|]. intros _. rewrite Hc. simpl. auto.
Qed.

Lemma cache_written_by_successful_fetch_only_witness :
  GetAvailableGeminiModels Cases.refused Scenario.emptyCache
  = ([], Some ErrApiStatus, Scenario.emptyCache)
  /\ snd (GetAvailableGeminiModels Cases.online Scenario.emptyCache)
     = mkModelsCache ["gemini-2.5-flash"; "gemini-2.5-pro"] Scenario.t_start
  /\ geminiModelsLast (snd (GetAvailableGeminiModels Cases.online
                              Scenario.emptyCache)) = now Cases.online.
Proof.
  split; [reflexivity|]. split; [reflexivity|].
  refine (proj1 (proj2 (proj2
    (proj2 (cache_written_by_successful_fetch_only Cases.online
              Scenario.emptyCache) _)))).
  vm_compute. discriminate.
Defined.

(** X15. Once a call has written a non-empty list to the cache, every
    call made less than an hour later without the override returns that
    list and leaves the cache alone, whatever the API key and the network
    have become. *)
Theorem fetched_models_served_from_cache w1 w2 cache :
  let first := GetAvailableGeminiModels w1 cache in
  snd first <> cache ->
  fst (fst first) <> [] ->
  getenv w2 "GEMINI_MODELS_OVERRIDE" = "" ->
  GoTime.Sub (now w2) (now w1) < GoTime.Hour ->
  GetAvailableGeminiModels w2 (snd first) = (fst (fst first), None, snd first).
Proof.
  intros first Hwritten Hne Hov Hfresh. subst first.
  destruct (GetAvailableGeminiModels_cases w1 cache)
    as [(_ & _ & Hc)|[(_ & Hc)|(_ & Hc & _)]]; cbv zeta in *;
    try congruence.
  rewrite Hc. unfold GetAvailableGeminiModels at 1.
  rewrite Hov. cbn [nonEmpty String.eqb negb geminiModelsCache geminiModelsLast].
  destruct (fst (fst (GetAvailableGeminiModels w1 cache))) as [|m ms] eqn:Hl;
    [congruence|].
  apply Z.ltb_lt in Hfresh. rewrite Hfresh. reflexivity.
Qed.

Lemma fetched_models_served_from_cache_witness :
  http_Get Cases.offlineLater
    "https://generativelanguage.googleapis.com/v1beta/models?key=k-123" = None
  /\ GetAvailableGeminiModels Cases.offlineLater
       (snd (GetAvailableGeminiModels Cases.online Scenario.emptyCache))
     = (["gemini-2.5-flash"; "gemini-2.5-pro"], None,
        mkModelsCache ["gemini-2.5-flash"; "gemini-2.5-pro"] Scenario.t_start).
Proof.
  split; [reflexivity|].
  apply (fetched_models_served_from_cache Cases.online Cases.offlineLater
           Scenario.emptyCache).
  - vm_compute. discriminate.
  - vm_compute. discriminate.
  - reflexivity.
  - vm_compute. reflexivity.
Defined.

Lemma substring_all (s : string) : String.substring 0 (String.length s) s = s.
Proof. induction s as [|c s IH]; simpl; [reflexivity|]. rewrite IH. reflexivity. Qed.

Lemma shortName_prefixed (x : string) : shortName ("models/" +:+ x) = x.
Proof.
  unfold shortName, GoStrings.HasPrefix, GoStrings.dropBytes. simpl.
  change ("" +:+ x) with x. rewrite Nat.sub_0_r.
  replace (String.prefix "" x) with true by (destruct x; reflexivity).
  apply substring_all.
Qed.

Lemma canGenerate_spec (d : ModelDescriptor) :
  canGenerate d = true <-> List.In "generateContent" (model_SupportedMethods d).
Proof.
  unfold canGenerate. rewrite List.existsb_exists. split.
  - intros (m & Hin & Heq). apply String.eqb_eq in Heq. subst. exact Hin.
  - intros Hin. exists "generateContent". split; [exact Hin|reflexivity].
Qed.

(** X17. A fetch that succeeds returns, in increasing order, the names of
    exactly those models of the catalog that list generateContent among
    their methods, a leading models/ removed from each name. *)
Theorem fetched_models_can_generate w cache resp body descs :
  getenv w "GEMINI_MODELS_OVERRIDE" = "" ->
  geminiModelsCache cache = []
  \/ GoTime.Hour <= GoTime.Sub (now w) (geminiModelsLast cache) ->
  getenv w "GOOGLE_API_KEY" <> "" ->
  http_Get w ("https://generativelanguage.googleapis.com/v1beta/models?key="
              +:+ getenv w "GOOGLE_API_KEY") = Some resp ->
  resp_StatusOK resp = true -> resp_Body resp = Some body ->
  json_UnmarshalModels w body = Some descs ->
  let r := GetAvailableGeminiModels w cache in
  snd (fst r) = None
  /\ Sorted (fun s1 s2 => String.leb s1 s2 = true) (fst (fst r))
  /\ (forall name, List.In name (fst (fst r)) <->
        exists d, List.In d descs
                  /\ List.In "generateContent" (model_SupportedMethods d)
                  /\ name = shortName (model_Name d))
  /\ (forall x, shortName ("models/" +:+ x) = x).
Proof.
  intros Hov Hstale Hkey Hget Hok Hbody Hdec r. subst r.
  unfold GetAvailableGeminiModels. rewrite Hov.
  cbn [nonEmpty String.eqb negb].
  assert (Hfresh : (0 <? List.length (geminiModelsCache cache))%nat
                   && (GoTime.Sub (now w) (geminiModelsLast cache) <? GoTime.Hour)
                   = false).
  { destruct Hstale as [H|H].
    - rewrite H. reflexivity.
    - apply Z.ltb_ge in H. rewrite H. apply andb_false_r. }
  rewrite Hfresh. apply String.eqb_neq in Hkey. rewrite Hkey, Hget, Hok.
  cbn [negb]. rewrite Hbody, Hdec. cbn [fst snd].
  split; [reflexivity|]. split; [|split].
  - unfold sort_Strings.
    exact (StringSort.Sorted_sort
             (List.map (fun m => shortName (model_Name m))
                (List.filter canGenerate descs))).
  - intros name. unfold sort_Strings.
    pose proof (StringSort.Permuted_sort
                  (List.map (fun m => shortName (model_Name m))
                     (List.filter canGenerate descs))) as Hperm.
    split.
    + intros Hin. apply (Permutation_in _ (Permutation_sym Hperm)) in Hin.
      apply List.in_map_iff in Hin. destruct Hin as (d & <- & Hd).
      apply List.filter_In in Hd. destruct Hd as [Hd Hcan].
      exists d. rewrite <- canGenerate_spec. auto.
    + intros (d & Hd & Hcan & ->). apply (Permutation_in _ Hperm).
      apply List.in_map_iff. exists d. split; [reflexivity|].
      apply List.filter_In. rewrite canGenerate_spec. auto.
  - apply shortName_prefixed.
Qed.

Lemma fetched_models_can_generate_witness :
  json_UnmarshalModels Cases.online "catalog body" = Some Cases.catalog
  /\ fst (fst (GetAvailableGeminiModels Cases.online Scenario.emptyCache))
     = ["gemini-2.5-flash"; "gemini-2.5-pro"]
  /\ Sorted (fun s1 s2 => String.leb s1 s2 = true)
       (fst (fst (GetAvailableGeminiModels Cases.online Scenario.emptyCache))).
Proof.
  split; [reflexivity|]. split; [reflexivity|].
  refine (proj1 (proj2 (fetched_models_can_generate Cases.online
            Scenario.emptyCache (mkHttpResponse true (Some "catalog body"))
            "catalog body" Cases.catalog _ _ _ _ _ _ _)));
    try reflexivity; [left; reflexivity|discriminate].
Defined.

Lemma splitComma_length (s : string) :
  List.length (GoStrings.splitComma s) = S (countCommas s).
Proof.
  induction s as [|c s IH]; [reflexivity|]. simpl.
  destruct (Ascii.eqb c ","); simpl; [rewrite IH; reflexivity|].
  destruct (GoStrings.splitComma s); simpl in *; [discriminate|exact IH].
Qed.

(** X19. With the override set, the list has one entry more than the
    value has commas: no piece is dropped, be it empty (two commas in a
    row, a comma at either end) or a repetition. *)
Theorem override_keeps_every_piece w cache :
  getenv w "GEMINI_MODELS_OVERRIDE" <> "" ->
  List.length (fst (fst (GetAvailableGeminiModels w cache)))
  = S (countCommas (getenv w "GEMINI_MODELS_OVERRIDE")).
Proof.
  intros Hne. apply nonEmpty_true in Hne.
  unfold GetAvailableGeminiModels. rewrite Hne. cbn [fst snd].
  unfold modelsFromOverride, sort_Strings.
  rewrite <- (Permutation_length (StringSort.Permuted_sort _)).
  rewrite List.length_map. apply splitComma_length.
Qed.

Lemma override_keeps_every_piece_witness :
  getenv Scenario.overrideWorld "GEMINI_MODELS_OVERRIDE" = "m1, m2,m1"
  /\ List.length (fst (fst (GetAvailableGeminiModels Scenario.overrideWorld
                               Scenario.emptyCache))) = 3%nat.
Proof.
  split; [reflexivity|].
  apply (override_keeps_every_piece Scenario.overrideWorld Scenario.emptyCache).
  discriminate.
Defined.

(* ===================================================================== *)
(** ** Further properties of the project hash *)
(* ===================================================================== *)

(** X20. Two project paths that resolve to the same real path hash
    alike: they get the same sessions directory and the same pattern to
    glob.  When the symbolic links of a path cannot be resolved, the
    absolute path is hashed in its place. *)
Theorem same_real_path_same_sessions_dir rt os ovr p1 p2 a1 a2 real sid :
  abs os p1 = Some a1 -> abs os p2 = Some a2 ->
  evalSymlinks os a1 = Some real ->
  evalSymlinks os a2 = Some real \/ (evalSymlinks os a2 = None /\ a2 = real) ->
  value (HashProjectPath rt os p1) = sha256_hex rt real
  /\ value (HashProjectPath rt os p2) = sha256_hex rt real
  /\ value (GetGeminiSessionsDir rt os ovr p1)
     = value (GetGeminiSessionsDir rt os ovr p2)
  /\ expectedPattern rt os ovr p1 sid = expectedPattern rt os ovr p2 sid.
Proof.
  intros Ha1 Ha2 He1 He2.
  assert (H1 : value (HashProjectPath rt os p1) = sha256_hex rt real).
  { unfold HashProjectPath, Abs, EvalSymlinks, bind, ret, value.
    rewrite Ha1. simpl. rewrite He1. reflexivity. }
  assert (H2 : value (HashProjectPath rt os p2) = sha256_hex rt real).
  { unfold HashProjectPath, Abs, EvalSymlinks, bind, ret, value.
    rewrite Ha2. simpl. destruct He2 as [->|[-> ->]]; reflexivity. }
  assert (Hdir : value (GetGeminiSessionsDir rt os ovr p1)
                 = value (GetGeminiSessionsDir rt os ovr p2)).
  { unfold GetGeminiSessionsDir. rewrite !value_bind, H1, H2. reflexivity. }
  repeat split; try assumption.
  unfold expectedPattern. rewrite Hdir. reflexivity.
Qed.

Lemma same_real_path_same_sessions_dir_witness :
  evalSymlinks Cases.osSymlink "/tmp/app" = Some "/private/tmp/app"
  /\ value (GetGeminiSessionsDir Scenario.rt Cases.osSymlink "" "/tmp/app")
     = value (GetGeminiSessionsDir Scenario.rt Cases.osSymlink ""
                "/private/tmp/app").
Proof.
  split; [reflexivity|].
  refine (proj1 (proj2 (proj2
    (same_real_path_same_sessions_dir Scenario.rt Cases.osSymlink ""
       "/tmp/app" "/private/tmp/app" "/tmp/app" "/private/tmp/app"
       "/private/tmp/app" Scenario.sid _ _ _ _))));
    try reflexivity.
  left. reflexivity.
Defined.

(* ===================================================================== *)
(** ** Properties of the listing *)
(* ===================================================================== *)

Lemma parseGeminiSessionFile_value rt lrt os file :
  value (parseGeminiSessionFile rt lrt os file) =
    match readFile os file with
    | None => inl ErrListReadFile
    | Some data =>
        match json_UnmarshalHeader lrt data with
        | None => inl ErrListParse
        | Some hdr =>
            inr (mkSessionInfo (hdr_SessionID hdr) (filepath_Base lrt file)
                   (parseHeaderTime rt (hdr_StartTime hdr))
                   (parseHeaderTime rt (hdr_LastUpdated hdr))
                   (Z.of_nat (List.length (hdr_Messages hdr))))
        end
    end.
Proof.
  unfold parseGeminiSessionFile, ReadFile, bind, ret, value. simpl.
  destruct (readFile os file) as [data|]; [|reflexivity]. simpl.
  destruct (json_UnmarshalHeader lrt data); reflexivity.
Qed.

Lemma parseSessionFiles_value rt lrt os files sessions :
  value (parseSessionFiles rt lrt os files sessions)
  = (sessions ++ decodable rt lrt os files)%list.
Proof.
  unfold decodable. revert sessions.
  induction files as [|file rest IH]; intros sessions; simpl.
  - rewrite List.app_nil_r. reflexivity.
  - rewrite value_bind.
    destruct (value (parseGeminiSessionFile rt lrt os file)) as [e|info].
    + apply IH.
    + rewrite IH, <- List.app_assoc. reflexivity.
Qed.

Lemma decodable_In rt lrt os files info :
  List.In info (decodable rt lrt os files) <->
  exists file, List.In file files /\ listedAs rt lrt os file info.
Proof.
  unfold decodable, listedAs. rewrite List.in_flat_map. split.
  - intros (file & Hfile & Hin). exists file. split; [exact Hfile|].
    rewrite parseGeminiSessionFile_value in Hin.
    destruct (readFile os file) as [data|] eqn:Hr; [|destruct Hin].
    destruct (json_UnmarshalHeader lrt data) as [hdr|] eqn:Hj; [|destruct Hin].
    destruct Hin as [<-|[]]. exists data, hdr. auto.
  - intros (file & Hfile & data & hdr & Hr & Hj & ->). exists file.
    split; [exact Hfile|]. rewrite parseGeminiSessionFile_value, Hr, Hj.
    left. reflexivity.
Qed.

Lemma decodable_length rt lrt os files :
  (List.length (decodable rt lrt os files) <= List.length files)%nat.
Proof.
  unfold decodable. induction files as [|file rest IH]; simpl; [lia|].
  rewrite List.length_app.
  destruct (value (parseGeminiSessionFile rt lrt os file)); simpl; lia.
Qed.

Lemma ListGeminiSessions_value rt lrt os ovr p :
  value (ListGeminiSessions rt lrt os ovr p) =
    if glob_badPattern lrt (listPattern rt os ovr p)
    then ([], Some ErrBadPattern)
    else (sort_Slice lrt updatedAfter
            (decodable rt lrt os (glob os (listPattern rt os ovr p))), None).
Proof.
  unfold ListGeminiSessions. rewrite !value_bind.
  fold (listPattern rt os ovr p).
  change (value (Glob os (listPattern rt os ovr p)))
    with (glob os (listPattern rt os ovr p)).
  destruct (glob_badPattern lrt _); [reflexivity|].
  rewrite value_bind, parseSessionFiles_value. reflexivity.
Qed.

(** X21. When the pattern is well-formed, [ListGeminiSessions] returns no
    error, whatever happens to the files: it lists exactly the matches
    that can be read and decoded, each with the base name of its file,
    its two times and the number of its messages, and leaves the others
    out.  No session is followed by one updated later. *)
Theorem listing_lists_the_decodable_files rt lrt os ovr p :
  glob_badPattern lrt (listPattern rt os ovr p) = false ->
  sortsByUpdate lrt ->
  let r := value (ListGeminiSessions rt lrt os ovr p) in
  let files := glob os (listPattern rt os ovr p) in
  snd r = None
  /\ (forall info, List.In info (fst r) <->
        exists file, List.In file files /\ listedAs rt lrt os file info)
  /\ (List.length (fst r) <= List.length files)%nat
  /\ Sorted (fun i j => info_LastUpdated j <= info_LastUpdated i) (fst r).
Proof.
  intros Hpat Hsort r files. subst r.
  rewrite ListGeminiSessions_value, Hpat. cbn [fst snd]. fold files.
  destruct (Hsort (decodable rt lrt os files)) as [Hperm Hsorted].
  split; [reflexivity|]. split; [|split].
  - intros info. rewrite <- decodable_In. split.
    + apply Permutation_in. exact Hperm.
    + apply Permutation_in. symmetry. exact Hperm.
  - rewrite (Permutation_length Hperm). apply decodable_length.
  - eapply Sorted_ind with (P := fun l =>
      Sorted (fun i j => info_LastUpdated j <= info_LastUpdated i) l);
      [constructor| |exact Hsorted].
    intros i l _ IH Hhd. constructor; [exact IH|].
    destruct Hhd as [|j l Hij]; constructor.
    unfold updatedAfter, GoTime.After in Hij. apply Z.ltb_ge in Hij. exact Hij.
Qed.

Lemma insertBy_perm {A} (less : A -> A -> bool) x l :
  Permutation (Cases.insertBy less x l) (x :: l).
Proof.
  induction l as [|y l IH]; simpl; [reflexivity|].
  destruct (less x y); [reflexivity|].
  rewrite IH. apply perm_swap.
Qed.

Lemma insertBy_sorted {A} (less : A -> A -> bool) x l :
  (forall a b, less a b = true -> less b a = false) ->
  Sorted (fun i j => less j i = false) l ->
  Sorted (fun i j => less j i = false) (Cases.insertBy less x l).
Proof.
  intros Hasym Hl. induction Hl as [|y l Hl IH Hhd]; simpl.
  - repeat constructor.
  - destruct (less x y) eqn:Hxy.
    + constructor; [constructor; assumption|]. constructor. apply Hasym. exact Hxy.
    + constructor; [exact IH|].
      destruct Hhd as [|z l Hyz]; simpl.
      * constructor. exact Hxy.
      * destruct (less x z); constructor; assumption.
Qed.

Lemma Cases_lrt_sortsByUpdate : sortsByUpdate Cases.lrt.
Proof.
  intros l. simpl. unfold Cases.sortBy. split.
  - induction l as [|x l IH]; simpl; [reflexivity|].
    rewrite insertBy_perm, IH. reflexivity.
  - induction l as [|x l IH]; simpl; [constructor|].
    apply insertBy_sorted; [|exact IH].
    intros a b. unfold updatedAfter, GoTime.After. lia.
Qed.

Lemma listing_lists_the_decodable_files_witness :
  glob Cases.osListing (listPattern Scenario.rt Cases.osListing "" Scenario.project)
  = [Scenario.older; Cases.broken; Scenario.newer]
  /\ value (ListGeminiSessions Scenario.rt Cases.lrt Cases.osListing ""
              Scenario.project)
     = ([ mkSessionInfo "4d8fcb4d-6c1e" "session-2026-01-17T10-00-4d8fcb4d.json"
            Scenario.t_start Scenario.t_updated 3;
          mkSessionInfo "4d8fcb4d-0000" "session-2026-01-16T09-30-4d8fcb4d.json"
            Scenario.t_start Scenario.t_start 1 ], None)
  /\ Sorted (fun i j => info_LastUpdated j <= info_LastUpdated i)
       (fst (value (ListGeminiSessions Scenario.rt Cases.lrt Cases.osListing ""
                      Scenario.project))).
Proof.
  split; [reflexivity|]. split; [reflexivity|].
  refine (proj2 (proj2 (proj2
    (listing_lists_the_decodable_files Scenario.rt Cases.lrt Cases.osListing ""
       Scenario.project _ Cases_lrt_sortsByUpdate)))).
  reflexivity.
Defined.

(** X22. The listing and the refresh read a timestamp to the same
    instant, although the listing falls back to the layout with
    milliseconds when RFC 3339 fails and the refresh when RFC 3339 gives
    the zero time: they can differ only on a string that RFC 3339 parses
    to Go's zero time.  So a session is listed with the last-updated time
    that the refresh stores as last-active time. *)
Theorem listing_and_refresh_agree_on_times
    rt lrt os ovr p sid a info session file data hdr :
  reparses rt os ovr p sid a info session ->
  readFile os file = Some data -> json_UnmarshalHeader lrt data = Some hdr ->
  hdr_StartTime hdr = sess_StartTime session ->
  hdr_LastUpdated hdr = sess_LastUpdated session ->
  time_Parse rt GoTime.RFC3339 (sess_StartTime session) <> Some GoTime.zero ->
  time_Parse rt GoTime.RFC3339 (sess_LastUpdated session) <> Some GoTime.zero ->
  let r := snd (value (UpdateGeminiAnalyticsFromDisk rt os ovr p sid a)) in
  exists listed,
    value (parseGeminiSessionFile rt lrt os file) = inr listed
    /\ info_StartTime listed = StartTime r
    /\ info_LastUpdated listed = LastActive r.
Proof.
  intros Hre Hr Hj Hst Hlu Hz1 Hz2 r. subst r.
  rewrite parseGeminiSessionFile_value, Hr, Hj. eexists. split; [reflexivity|].
  simpl.
  destruct (reparses_result _ _ _ _ _ _ _ _ Hre) as [-> _]. cbn [snd].
  unfold applySession.
  match goal with |- context [fold_left accumulate ?l ?s] =>
    destruct (fold_accumulate_frame l s) as (-> & -> & _) end.
  assert (Hagree : forall s, time_Parse rt GoTime.RFC3339 s <> Some GoTime.zero ->
                             parseHeaderTime rt s = parseTimestamp rt s).
  { intros s Hz. unfold parseHeaderTime, parseTimestamp, parseOrZero.
    destruct (time_Parse rt GoTime.RFC3339 s) as [t|]; [|reflexivity].
    unfold GoTime.IsZero. destruct (Z.eqb_spec t 0) as [->|_]; [|reflexivity].
    exfalso. apply Hz. reflexivity. }
  rewrite Hst, Hlu, !Hagree by assumption.
  destruct (negb _ && negb _); destruct info; split; reflexivity.
Qed.

Lemma listing_and_refresh_agree_on_times_witness :
  exists listed,
    value (parseGeminiSessionFile Scenario.rt Cases.lrtThree Scenario.osThree
             Scenario.newer) = inr listed
    /\ info_StartTime listed = Scenario.t_start
    /\ info_LastUpdated listed = Scenario.t_updated.
Proof.
  exact (listing_and_refresh_agree_on_times Scenario.rt Cases.lrtThree
           Scenario.osThree "" Scenario.project Scenario.sid Scenario.blank
           (Some Scenario.mtime_new) Scenario.threeTurns Scenario.newer
           "transcript with three agent turns"
           (mkSessionHeader Scenario.sid "2026-01-17T10:00:00Z"
              "2026-01-17T10:05:00.250Z"
              ["{u}"; "{g1}"; "{u}"; "{g2}"; "{g3}"; "{u}"])
           (Scenario_reparses_three Scenario.blank eq_refl)
           eq_refl eq_refl eq_refl eq_refl
           ltac:(discriminate) ltac:(discriminate)).
Defined.

(* ===================================================================== *)
(** ** Properties of the model dialog *)
(* ===================================================================== *)

Module DialogFacts.
Import ModelDialog.

Lemma feed_app msgs1 msgs2 d d1 cmds1 :
  feed msgs1 d = Some (d1, cmds1) ->
  feed (msgs1 ++ msgs2) d =
    match feed msgs2 d1 with
    | Some (d2, cmds2) => Some (d2, (cmds1 ++ cmds2)%list)
    | None => None
    end.
Proof.
  revert d d1 cmds1. induction msgs1 as [|msg rest IH]; intros d d1 cmds1; simpl.
  - intros H. inversion H; subst. destruct (feed msgs2 d1) as [[d2 c2]|]; reflexivity.
  - destruct (Update msg d) as [[d' cmd]|]; [|discriminate].
    destruct (feed rest d') as [[d'' cmds]|] eqn:Hrest; [|discriminate].
    intros H. inversion H; subst.
    rewrite (IH d' d1 cmds Hrest).
    destruct (feed msgs2 d1) as [[d2 c2]|]; [|reflexivity].
    destruct cmd; reflexivity.
Qed.

Lemma modelAtCursor_onList d :
  onList d -> 0 < len d ->
  exists model, modelAtCursor d = Some model
                /\ List.nth_error (models d) (Z.to_nat (cursor d)) = Some model.
Proof.
  intros [Hlo Hhi] Hlen. unfold modelAtCursor.
  assert (Hc : cursor d < len d) by lia.
  destruct (Z.ltb_spec (cursor d) 0) as [?|_]; [lia|].
  destruct (Z.leb_spec (len d) (cursor d)) as [?|_]; [lia|]. simpl.
  destruct (List.nth_error (models d) (Z.to_nat (cursor d))) as [model|] eqn:Hn.
  - exists model. auto.
  - apply List.nth_error_None in Hn. unfold len in Hc. lia.
Qed.

(** A key never makes [Update] panic while the cursor is on the list; it
    leaves the list alone and the cursor on it. *)
Lemma key_keeps_onList name d :
  onList d ->
  exists d' cmd, Update (Key name) d = Some (d', cmd)
                 /\ onList d' /\ models d' = models d.
Proof.
  intros Hon. pose proof Hon as [Hlo Hhi]. unfold Update.
  destruct (negb (visible d)); [eauto|].
  destruct (String.eqb name "esc"); [exists (Hide d), None; auto|].
  destruct (_ || _).
  { destruct (Z.ltb_spec 0 (cursor d)); [|eauto].
    eexists _, None. split; [reflexivity|]. split; [|reflexivity].
    unfold onList, len in *. simpl. lia. }
  destruct (_ || _).
  { destruct (Z.ltb_spec (cursor d) (len d - 1)); [|eauto].
    eexists _, None. split; [reflexivity|]. split; [|reflexivity].
    unfold onList, len in *. simpl. lia. }
  destruct (String.eqb name "enter"); [|eauto].
  destruct (Z.ltb_spec 0 (len d)) as [Hlen|_]; [|eauto].
  destruct (modelAtCursor_onList d Hon Hlen) as (model & -> & _).
  exists (Hide d), (Some (SelectModel model)). auto.
Qed.

(** Before the list has arrived no key moves the cursor or selects. *)
Lemma key_before_fetch name d :
  models d = [] -> cursor d = 0 ->
  exists d', Update (Key name) d = Some (d', None)
             /\ models d' = [] /\ cursor d' = 0
             /\ (visible d' = true -> visible d = true).
Proof.
  intros Hm Hc. unfold Update, len. rewrite Hm, Hc. simpl.
  destruct (negb (visible d)); [eauto|].
  destruct (String.eqb name "esc").
  { exists (Hide d). repeat split; auto. discriminate. }
  destruct (_ || _); [eauto|].
  destruct (_ || _); [eauto|].
  destruct (String.eqb name "enter"); eauto.
Qed.

Lemma keys_keep_onList names d :
  onList d ->
  exists d' cmds, feed (List.map Key names) d = Some (d', cmds) /\ onList d'.
Proof.
  revert d. induction names as [|name rest IH]; intros d Hon; simpl; [eauto|].
  destruct (key_keeps_onList name d Hon) as (d1 & cmd & -> & Hon1 & _).
  destruct (IH d1 Hon1) as (d2 & cmds & -> & Hon2). eauto.
Qed.

Lemma keys_before_fetch names d :
  models d = [] -> cursor d = 0 ->
  exists d', feed (List.map Key names) d = Some (d', [])
             /\ models d' = [] /\ cursor d' = 0.
Proof.
  revert d. induction names as [|name rest IH]; intros d Hm Hc; simpl; [eauto|].
  destruct (key_before_fetch name d Hm Hc) as (d1 & -> & Hm1 & Hc1 & _).
  destruct (IH d1 Hm1 Hc1) as (d2 & -> & H2). eauto.
Qed.

End DialogFacts.

(** X23. From [Show] on, with keys pressed before and after the one
    answer of the fetch, [Update] never panics on an index out of range
    and the cursor stays on an entry of the list (at 0 for an empty
    list). *)
Theorem model_dialog_cursor_stays_on_list d0 id before fetched failure after :
  exists d cmds,
    ModelDialog.feed
      (List.map ModelDialog.Key before
       ++ ModelDialog.ModelsFetched fetched failure
          :: List.map ModelDialog.Key after)
      (fst (ModelDialog.Show id d0)) = Some (d, cmds)
    /\ onList d.
Proof.
  destruct (DialogFacts.keys_before_fetch before (fst (ModelDialog.Show id d0))
              eq_refl eq_refl) as (d1 & Hfeed & Hm & Hc).
  rewrite (DialogFacts.feed_app _ _ _ _ _ Hfeed).
  assert (Hfetch : exists d2,
            ModelDialog.Update (ModelDialog.ModelsFetched fetched failure) d1
            = Some (d2, None) /\ onList d2).
  { unfold ModelDialog.Update.
    destruct (negb (ModelDialog.visible d1));
      [|destruct failure]; eexists; (split; [reflexivity|]);
      unfold onList; simpl; rewrite Hc; lia. }
  destruct Hfetch as (d2 & Hup & Hon2).
  cbn [ModelDialog.feed]. rewrite Hup.
  destruct (DialogFacts.keys_keep_onList after d2 Hon2) as (d3 & cmds & -> & Hon3).
  eauto.
Qed.

(** X24. After esc the dialog is hidden, and it ignores whatever comes
    next, the late answer of the fetch included: nothing changes and no
    command is returned. *)
Theorem model_dialog_hidden_ignores_messages d msgs :
  ModelDialog.visible d = true ->
  ModelDialog.feed (ModelDialog.Key "esc" :: msgs) d
  = Some (ModelDialog.Hide d, []).
Proof.
  intros Hv. cbn [ModelDialog.feed]. unfold ModelDialog.Update at 1.
  rewrite Hv. simpl.
  assert (Hidle : forall ms h, ModelDialog.visible h = false ->
                               ModelDialog.feed ms h = Some (h, [])).
  { induction ms as [|m ms IH]; intros h Hh; simpl; [reflexivity|].
    unfold ModelDialog.Update. rewrite Hh. simpl. rewrite (IH h Hh). reflexivity. }
  rewrite Hidle; reflexivity.
Qed.

Lemma model_dialog_hidden_ignores_messages_witness :
  ModelDialog.feed
    [ ModelDialog.Key "esc";
      ModelDialog.ModelsFetched ["gemini-2.5-pro"] None;
      ModelDialog.Key "enter" ]
    (fst (ModelDialog.Show "4d8fcb4d" ModelDialog.NewGeminiModelDialog))
  = Some (ModelDialog.Hide
            (fst (ModelDialog.Show "4d8fcb4d" ModelDialog.NewGeminiModelDialog)),
          []).
Proof.
  apply (model_dialog_hidden_ignores_messages
           (fst (ModelDialog.Show "4d8fcb4d" ModelDialog.NewGeminiModelDialog))).
  reflexivity.
Defined.

Lemma downs_then_enter (n : nat) (d : ModelDialog.GeminiModelDialog) :
  ModelDialog.visible d = true ->
  0 <= ModelDialog.cursor d < ModelDialog.len d ->
  exists d' model,
    ModelDialog.feed
      (List.repeat (ModelDialog.Key "down") n ++ [ModelDialog.Key "enter"]) d
    = Some (d', [ModelDialog.SelectModel model])
    /\ ModelDialog.visible d' = false
    /\ List.nth_error (ModelDialog.models d)
         (Z.to_nat (Z.min (ModelDialog.cursor d + Z.of_nat n)
                      (ModelDialog.len d - 1))) = Some model.
Proof.
  revert d. induction n as [|n IH]; intros d Hv Hc.
  - cbn [List.repeat List.app ModelDialog.feed].
    unfold ModelDialog.Update. rewrite Hv. simpl.
    destruct (Z.ltb_spec 0 (ModelDialog.len d)) as [Hlen|?]; [|lia].
    destruct (DialogFacts.modelAtCursor_onList d) as (model & -> & Hnth);
      [unfold onList; lia|exact Hlen|].
    exists (ModelDialog.Hide d), model. repeat split.
    rewrite Z.add_0_r, Z.min_l by lia. exact Hnth.
  - cbn [List.repeat List.app ModelDialog.feed].
    unfold ModelDialog.Update at 1. rewrite Hv. simpl.
    destruct (Z.ltb_spec (ModelDialog.cursor d) (ModelDialog.len d - 1)) as [Hlt|Hge].
    + destruct (IH (ModelDialog.setCursor (ModelDialog.cursor d + 1) d))
        as (d' & model & -> & Hv' & Hnth);
        [exact Hv|unfold ModelDialog.len in *; simpl; lia|].
      exists d', model. repeat split; [exact Hv'|].
      simpl in Hnth. unfold ModelDialog.len in *. simpl in Hnth.
      replace (ModelDialog.cursor d + Z.of_nat (S n))
        with (ModelDialog.cursor d + 1 + Z.of_nat n) by lia.
      exact Hnth.
    + destruct (IH d Hv Hc) as (d' & model & -> & Hv' & Hnth).
      exists d', model. repeat split; [exact Hv'|].
      rewrite Z.min_r in Hnth |- * by lia. exact Hnth.
Qed.

(** X25. After [Show] and a successful fetch of a non-empty list,
    pressing down [n] times and then enter hides the dialog and returns
    one command, the selection of entry [n] of the list, or of its last
    entry when the list is shorter. *)
Theorem model_dialog_down_then_enter_selects d0 id fetched (n : nat) :
  fetched <> [] ->
  exists d model,
    ModelDialog.feed
      (ModelDialog.ModelsFetched fetched None
       :: List.repeat (ModelDialog.Key "down") n ++ [ModelDialog.Key "enter"])
      (fst (ModelDialog.Show id d0))
    = Some (d, [ModelDialog.SelectModel model])
    /\ ModelDialog.visible d = false
    /\ List.nth_error fetched (Nat.min n (List.length fetched - 1)) = Some model.
Proof.
  intros Hne. cbn [ModelDialog.feed].
  unfold ModelDialog.Update at 1. simpl.
  set (d1 := ModelDialog.mkDialog true (ModelDialog.width d0)
               (ModelDialog.height d0) id fetched 0 None false).
  assert (Hlen : 0 < ModelDialog.len d1).
  { unfold ModelDialog.len. simpl. destruct fetched; [congruence|simpl; lia]. }
  destruct (downs_then_enter n d1 eq_refl) as (d' & model & -> & Hv & Hnth);
    [simpl; lia|].
  exists d', model. repeat split; [exact Hv|].
  simpl in Hnth. unfold ModelDialog.len in Hnth. simpl in Hnth.
  replace (Nat.min n (List.length fetched - 1))
    with (Z.to_nat (Z.min (Z.of_nat n) (Z.of_nat (List.length fetched) - 1)));
    [exact Hnth|].
  unfold ModelDialog.len in Hlen. simpl in Hlen. lia.
Qed.

Lemma model_dialog_down_then_enter_selects_witness :
  exists d model,
    ModelDialog.feed
      [ ModelDialog.ModelsFetched ["gemini-2.5-flash"; "gemini-2.5-pro"] None;
        ModelDialog.Key "down"; ModelDialog.Key "down"; ModelDialog.Key "down";
        ModelDialog.Key "enter" ]
      (fst (ModelDialog.Show "4d8fcb4d" ModelDialog.NewGeminiModelDialog))
    = Some (d, [ModelDialog.SelectModel model])
    /\ ModelDialog.visible d = false
    /\ List.nth_error ["gemini-2.5-flash"; "gemini-2.5-pro"] 1 = Some model.
Proof.
  exact (model_dialog_down_then_enter_selects
           ModelDialog.NewGeminiModelDialog "4d8fcb4d"
           ["gemini-2.5-flash"; "gemini-2.5-pro"] 3 ltac:(discriminate)).
Defined.

(** What is not the answer of a fetch that succeeded. *)
Lemma no_list_no_selection msgs d :
  ModelDialog.models d = [] -> ModelDialog.cursor d = 0 ->
  List.Forall (fun msg => forall fetched,
                 msg <> ModelDialog.ModelsFetched fetched None) msgs ->
  exists d', ModelDialog.feed msgs d = Some (d', [])
             /\ ModelDialog.models d' = [].
Proof.
  intros Hm Hc Hall. revert d Hm Hc.
  induction Hall as [|msg rest Hmsg _ IH]; intros d Hm Hc; simpl; [eauto|].
  assert (Hstep : exists d1, ModelDialog.Update msg d = Some (d1, None)
                             /\ ModelDialog.models d1 = []
                             /\ ModelDialog.cursor d1 = 0).
  { destruct msg as [fetched [e|]|name|].
    - unfold ModelDialog.Update.
      destruct (negb (ModelDialog.visible d)); eauto.
    - exfalso. exact (Hmsg fetched eq_refl).
    - destruct (DialogFacts.key_before_fetch name d Hm Hc)
        as (d1 & H1 & H2 & H3 & _). eauto.
    - unfold ModelDialog.Update.
      destruct (negb (ModelDialog.visible d)); eauto. }
  destruct Hstep as (d1 & -> & Hm1 & Hc1).
  destruct (IH d1 Hm1 Hc1) as (d2 & -> & Hm2). eauto.
Qed.

(** X26. As long as no fetch has succeeded, whether its answer is still
    on the way or was an error, no key selects anything: from [Show] on,
    every run of keys, failed answers and other messages returns no
    command at all, panics nowhere, and leaves the list empty. *)
Theorem model_dialog_no_selection_without_list d0 id msgs :
  List.Forall (fun msg => forall fetched,
                 msg <> ModelDialog.ModelsFetched fetched None) msgs ->
  exists d, ModelDialog.feed msgs (fst (ModelDialog.Show id d0)) = Some (d, [])
            /\ ModelDialog.models d = [].
Proof.
  intros Hall. apply no_list_no_selection; [reflexivity|reflexivity|exact Hall].
Qed.

Lemma model_dialog_no_selection_without_list_witness :
  exists d,
    ModelDialog.feed
      [ ModelDialog.Key "down";
        ModelDialog.ModelsFetched ["gemini-2.5-pro"] (Some ErrFetchModels);
        ModelDialog.Key "enter" ]
      (fst (ModelDialog.Show "4d8fcb4d" ModelDialog.NewGeminiModelDialog))
    = Some (d, [])
    /\ ModelDialog.models d = [].
Proof.
  apply (model_dialog_no_selection_without_list
           ModelDialog.NewGeminiModelDialog "4d8fcb4d").
  repeat constructor; intros fetched; discriminate.
Defined.

(* ===================================================================== *)
(** ** Properties of the confirmation dialog *)
(* ===================================================================== *)

(** X27. Whatever calls are made on a new confirmation dialog, a hidden
    dialog holds no target: its identifier and its name are empty.  The
    YOLO flag is another matter: only [ShowYoloRestart] writes it, so it
    keeps the value of the last such call through [Hide] and through the
    other kinds of confirmation. *)
Theorem confirm_dialog_hidden_has_no_target ops :
  let c := Confirm.calls ops Confirm.NewConfirmDialog in
  (Confirm.IsVisible c = false ->
   Confirm.GetTargetID c = "" /\ Confirm.targetName c = "")
  /\ (forall c0, Confirm.IsYoloEnabled (Confirm.calls ops c0)
                 = lastYolo (Confirm.IsYoloEnabled c0) ops).
Proof.
  cbv zeta. split.
  - assert (Hinv : forall c0,
              (Confirm.visible c0 = false ->
               Confirm.targetID c0 = "" /\ Confirm.targetName c0 = "") ->
              Confirm.visible (Confirm.calls ops c0) = false ->
              Confirm.targetID (Confirm.calls ops c0) = ""
              /\ Confirm.targetName (Confirm.calls ops c0) = "").
    { unfold Confirm.calls. induction ops as [|op rest IH]; intros c0 H0;
        simpl; [exact H0|].
      apply IH. destruct op; simpl; auto; discriminate. }
    apply Hinv. auto.
  - unfold Confirm.calls, lastYolo.
    induction ops as [|op rest IH]; intros c0; simpl; [reflexivity|].
    rewrite IH. destruct op; reflexivity.
Qed.

Lemma confirm_dialog_hidden_has_no_target_witness :
  let c := Confirm.calls
             [ Confirm.CallShowYoloRestart "4d8fcb4d" "my session" true;
               Confirm.CallHide;
               Confirm.CallShowDeleteGroup "work" "Work";
               Confirm.CallHide ]
             Confirm.NewConfirmDialog in
  Confirm.IsVisible c = false
  /\ Confirm.GetTargetID c = ""
  /\ Confirm.IsYoloEnabled c = true.
Proof.
  pose proof (confirm_dialog_hidden_has_no_target
                [ Confirm.CallShowYoloRestart "4d8fcb4d" "my session" true;
                  Confirm.CallHide;
                  Confirm.CallShowDeleteGroup "work" "Work";
                  Confirm.CallHide ]) as [Hhidden Hyolo].
  split; [reflexivity|]. split.
  - exact (proj1 (Hhidden eq_refl)).
  - exact (Hyolo Confirm.NewConfirmDialog).
Defined.

(* ===================================================================== *)
(** ** What writes the snapshot *)
(* ===================================================================== *)

(** X13. The snapshot leaves the refresh changed only when the call has
    read the transcript, decoded it and returned nil. *)
Theorem snapshot_changes_only_through_a_decode rt os ovr p sid a :
  let r := UpdateGeminiAnalyticsFromDisk rt os ovr p sid a in
  snd (value r) <> a ->
  fst (value r) = None
  /\ countReads (trace r) = 1%nat /\ countParses (trace r) = 1%nat.
Proof.
  cbv zeta. destruct (tooShort sid) eqn:Hs.
  - unfold UpdateGeminiAnalyticsFromDisk. rewrite Hs. simpl. congruence.
  - destruct (onlyLocates_counts _ (locateSessionFile_onlyLocates rt os ovr p sid))
      as [Hreads Hparses].
    rewrite Update_unfold by exact Hs. cbv zeta.
    destruct (String.eqb _ ""); [rewrite value_pair; simpl; congruence|].
    destruct (cacheHit _ a); [rewrite value_pair; simpl; congruence|].
    destruct (readFile os _) as [data|]; [|rewrite value_pair; simpl; congruence].
    destruct (json_Unmarshal rt data);
      [|rewrite value_pair; simpl; congruence].
    intros _. rewrite value_pair, trace_pair, countReads_app, countParses_app,
      Hreads, Hparses.
    repeat split; reflexivity.
Qed.

Lemma snapshot_changes_only_through_a_decode_witness :
  let r := UpdateGeminiAnalyticsFromDisk Scenario.rt Scenario.osThree ""
             Scenario.project Scenario.sid Scenario.blank in
  snd (value r) <> Scenario.blank
  /\ fst (value r) = None
  /\ countReads (trace r) = 1%nat /\ countParses (trace r) = 1%nat.
Proof.
  assert (H : snd (value (UpdateGeminiAnalyticsFromDisk Scenario.rt
                            Scenario.osThree "" Scenario.project Scenario.sid
                            Scenario.blank)) <> Scenario.blank)
    by (vm_compute; discriminate).
  split; [exact H|].
  exact (snapshot_changes_only_through_a_decode Scenario.rt Scenario.osThree ""
           Scenario.project Scenario.sid Scenario.blank H).
Defined.

(** X18. After a refresh that decodes a transcript, the model of the
    snapshot is the one named by the most recent agent turn that names
    any, however many agent turns without a model follow it, and is empty
    when no agent turn names one; turns that are not the agent's never
    set it. *)
Theorem model_is_the_latest_named rt os ovr p sid a info session :
  reparses rt os ovr p sid a info session ->
  let r := snd (value (UpdateGeminiAnalyticsFromDisk rt os ovr p sid a)) in
  Model r = latestModel "" (sess_Messages session)
  /\ Model r = latestModel "" (agentTurns (sess_Messages session))
  /\ (forall msgs g rest,
        sess_Messages session = (msgs ++ g :: rest)%list ->
        isAgentTurn g = true -> msg_Model g <> "" ->
        List.Forall (fun m => namesModel m = false) rest ->
        Model r = msg_Model g).
Proof.
  intros Hre r. subst r.
  destruct (reparses_result _ _ _ _ _ _ _ _ Hre) as [-> _]. cbn [snd].
  destruct (applySession_fold rt info session a) as (a0 & -> & _ & _ & _ & Hm & _).
  rewrite fold_accumulate_Model, Hm.
  split; [reflexivity|]. split; [symmetry; apply latestModel_agentTurns|].
  intros msgs g rest -> Hg Hmodel Hrest. unfold latestModel.
  rewrite List.rev_app_distr. simpl. rewrite <- List.app_assoc. simpl.
  assert (Hfind : forall l tl, List.Forall (fun m => namesModel m = false) l ->
            List.find namesModel (List.rev l ++ tl) = List.find namesModel tl).
  { intros l tl Hl. apply List.Forall_rev in Hl.
    induction Hl as [|m l' Hm' _ IH]; [reflexivity|].
    simpl. rewrite Hm'. exact IH. }
  rewrite Hfind by exact Hrest. simpl.
  unfold namesModel. rewrite Hg. apply nonEmpty_true in Hmodel. rewrite Hmodel.
  reflexivity.
Qed.

Lemma model_is_the_latest_named_witness :
  Model (snd (value (UpdateGeminiAnalyticsFromDisk Scenario.rt Scenario.osThree
                       "" Scenario.project Scenario.sid Scenario.blank)))
  = "gemini-2.5-flash".
Proof.
  refine (proj2 (proj2 (model_is_the_latest_named Scenario.rt Scenario.osThree ""
            Scenario.project Scenario.sid Scenario.blank
            (Some Scenario.mtime_new) Scenario.threeTurns
            (Scenario_reparses_three Scenario.blank eq_refl)))
          [Scenario.userTurn; Scenario.turn1; Scenario.userTurn]
          Scenario.turn2 [Scenario.turn3; Scenario.userTurn] eq_refl eq_refl _ _).
  - discriminate.
  - repeat constructor.
Defined.
